(** * mozlz4: the container codec of github.com/cions/mozlz4

    A shallow embedding of [mozlz4.go] (package [mozlz4]): the constant
    [HEADER], the error [ErrInvalid] and the functions [Compress] and
    [Decompress], together with the fragments of Go and of its standard
    library that these two functions use (slices with a capacity, [append],
    [bytes.CutPrefix], [binary.Append], [binary.Decode], [fmt.Errorf]).

    The LZ4 block codec (github.com/pierrec/lz4/v4) is an external library:
    it is an interface here ([lz4.BlockCodec]) and every theorem is stated
    for an arbitrary implementation of it. *)

From Stdlib Require Import ZArith List Lia Bool String Ascii DecimalString.
From coqutil Require Import Byte Word.LittleEndianList.
Import ListNotations.
Local Open Scope Z_scope.

(** ** Integers

    Go's [int] is modelled by [Z]: the [int]s of these functions are lengths,
    capacities and byte counts of slices. The conversion [uint32(x)], which
    truncates, is written out. *)

Definition uint32 (z : Z) : Z := z mod 2 ^ 32.

(** [len(s)] of a byte slice seen as its sequence of elements. *)
Definition len (s : list byte) : Z := Z.of_nat (List.length s).

(** ** Errors

    The values of Go's [error] interface that occur: those made by
    [errors.New] and those made by [fmt.Errorf] with integer arguments. *)

Inductive error : Type :=
| errors_New (text : string)
| fmt_Errorf (format : string) (args : list Z).

Module fmt.

(** [%v] of an integer: its decimal notation. *)
Definition v (z : Z) : string := NilZero.string_of_int (Z.to_int z).

Fixpoint Sprintf (format : string) (args : list Z) : string :=
  match format with
  | EmptyString => EmptyString
  | String "%" (String "v" rest) =>
      match args with
      | a :: args' => (v a ++ Sprintf rest args')%string
      | [] => ("%!v(MISSING)" ++ Sprintf rest [])%string
      end
  | String c rest => String c (Sprintf rest args)
  end.

End fmt.

(** The method [Error()] of an error value. *)
Definition Error (e : error) : string :=
  match e with
  | errors_New text => text
  | fmt_Errorf format args => fmt.Sprintf format args
  end.

(** ** Calls, panics and the call log

    A computation either finishes with a value or panics; it also records,
    in order, every call it makes to the block codec. *)

Inductive call : Type :=
| call_CompressBlock (src dst : list byte)
| call_UncompressBlock (src dst : list byte).

Inductive outcome (A : Type) : Type :=
| Done (a : A)
| Panic.
Arguments Done {A} a.
Arguments Panic {A}.

Definition M (A : Type) : Type := (list call * outcome A)%type.

Definition ret {A} (a : A) : M A := ([], Done a).
Definition panic {A} : M A := ([], Panic).
Definition bind {A B} (m : M A) (f : A -> M B) : M B :=
  match m with
  | (l, Done a) => let (l', r) := f a in (l ++ l', r)
  | (l, Panic) => (l, Panic)
  end.

Notation "x <- m ;; k" := (bind m (fun x => k))
  (at level 61, m at next level, right associativity).
Notation "' p <- m ;; k" := (bind m (fun x => let p := x in k))
  (at level 61, p pattern, m at next level, right associativity).

(** ** Slices

    A [[]byte] value that is written to: the backing array from the slice's
    first element on (its length is the capacity) and the slice's length.
    [growcap old needed] is the capacity the runtime picks when [append] has
    to allocate a new array for [needed] elements. *)

Class Runtime : Type := { growcap : Z -> Z -> Z }.

Record slice : Type := { array : list byte; length_ : Z }.

Definition cap (s : slice) : Z := len (array s).
Definition elems (s : slice) : list byte := firstn (Z.to_nat (length_ s)) (array s).
Definition zeros (n : Z) : list byte := repeat Byte.x00 (Z.to_nat n).

(** A slice's length lies within its capacity. *)
Definition wf (s : slice) : Prop := 0 <= length_ s <= cap s.

(** [make([]byte, l, c)] *)
Definition make (l c : Z) : M slice :=
  if (l <? 0) || (c <? l) then panic
  else ret {| array := zeros c; length_ := l |}.

(** [append(s, xs...)] *)
Definition append {rt : Runtime} (s : slice) (xs : list byte) : slice :=
  let n := length_ s + len xs in
  if n <=? cap s
  then {| array := elems s ++ xs ++ skipn (Z.to_nat n) (array s); length_ := n |}
  else {| array := elems s ++ xs ++ zeros (growcap (cap s) n - n); length_ := n |}.

(** [s[len(s):cap(s)]], the spare room behind the elements. *)
Definition spare (s : slice) : list byte := skipn (Z.to_nat (length_ s)) (array s).

(** A callee that is handed the array [dst] writes into it in place: whatever
    contents [dst'] it reports, the array keeps its length. *)
Definition written (dst dst' : list byte) : list byte :=
  firstn (List.length dst) (dst' ++ skipn (List.length dst') dst).

(** The slice [s] after a callee has written [dst'] into [s[len(s):cap(s)]],
    and after it has written [dst'] into [s[:len(s)]]. *)
Definition with_spare (s : slice) (dst' : list byte) : slice :=
  {| array := elems s ++ written (spare s) dst'; length_ := length_ s |}.
Definition with_elems (s : slice) (dst' : list byte) : slice :=
  {| array := written (elems s) dst' ++ spare s; length_ := length_ s |}.

(** [s[:h]] *)
Definition reslice (s : slice) (h : Z) : M slice :=
  if (h <? 0) || (cap s <? h) then panic
  else ret {| array := array s; length_ := h |}.

Module bytes.

Definition Equal (a b : list byte) : bool :=
  if list_eq_dec Byte.byte_eq_dec a b then true else false.

(** [len(s) >= len(prefix) && Equal(s[:len(prefix)], prefix)] *)
Definition HasPrefix (s prefix : list byte) : bool :=
  (len prefix <=? len s) && Equal (firstn (List.length prefix) s) prefix.

Definition CutPrefix (s prefix : list byte) : list byte * bool :=
  if negb (HasPrefix s prefix) then (s, false)
  else (skipn (List.length prefix) s, true).

End bytes.

Module binary.

(** The byte order [binary.LittleEndian], for the 32-bit values. *)
Module LittleEndian.

(** [byte(v), byte(v>>8), byte(v>>16), byte(v>>24)] *)
Definition PutUint32 (v : Z) : list byte :=
  [byte.of_Z v; byte.of_Z (Z.shiftr v 8);
   byte.of_Z (Z.shiftr v 16); byte.of_Z (Z.shiftr v 24)].

(** [uint32(b[0]) | uint32(b[1])<<8 | uint32(b[2])<<16 | uint32(b[3])<<24];
    callers check [len(b) >= 4] first. *)
Definition Uint32 (b : list byte) : Z :=
  match b with
  | b0 :: b1 :: b2 :: b3 :: _ =>
      Z.lor (Z.lor (Z.lor (byte.unsigned b0) (Z.shiftl (byte.unsigned b1) 8))
                   (Z.shiftl (byte.unsigned b2) 16))
            (Z.shiftl (byte.unsigned b3) 24)
  | _ => 0
  end.

End LittleEndian.

(** The values handed to [binary.Append] as [data any]: a [uint32], which
    has a fixed size, and an [int], which has none. *)
Inductive any : Type :=
| any_uint32 (v : Z)
| any_int (v : Z).

Definition intDataSize (data : any) : Z :=
  match data with
  | any_uint32 _ => 4
  | any_int _ => 0
  end.

Definition errBufferTooSmall : error := errors_New "buffer too small".

Definition nil_slice : slice := {| array := []; length_ := 0 |}.

(** The bytes of a value of fixed size. *)
Definition encodeFast (data : any) : list byte :=
  match data with
  | any_uint32 v => LittleEndian.PutUint32 v
  | any_int _ => []
  end.

(** [binary.Append(buf, binary.LittleEndian, data)]: the fast path for the
    values of fixed size, an error for the others. *)
Definition Append {rt : Runtime} (buf : slice) (data : any) : slice * option error :=
  if negb (intDataSize data =? 0) then (append buf (encodeFast data), None)
  else
    (nil_slice,
     Some (errors_New "binary.Append: some values are not fixed-sized in type int")).

(** [binary.Decode(buf, binary.LittleEndian, &x)] for [x] a [uint32]:
    the count, the error and the value of [x] afterwards. *)
Definition Decode (buf : list byte) (x : Z) : Z * option error * Z :=
  if len buf <? 4 then (0, Some errBufferTooSmall, x)
  else (4, None, LittleEndian.Uint32 buf).

End binary.

(** ** The block codec

    What [mozlz4.go] uses of github.com/pierrec/lz4/v4. [CompressBlock src dst]
    and [UncompressBlock src dst] give the count and the error they return
    and the contents of [dst] afterwards. *)

Module lz4.

Record BlockCodec : Type := {
  CompressBlockBound : Z -> Z;
  CompressBlock : list byte -> list byte -> Z * option error * list byte;
  UncompressBlock : list byte -> list byte -> Z * option error * list byte
}.

(** The two calls as computations: each is recorded in the call log. *)
Definition call_CompressBlock (c : BlockCodec) (src dst : list byte)
  : M (Z * option error * list byte) :=
  ([call_CompressBlock src dst], Done (CompressBlock c src dst)).

Definition call_UncompressBlock (c : BlockCodec) (src dst : list byte)
  : M (Z * option error * list byte) :=
  ([call_UncompressBlock src dst], Done (UncompressBlock c src dst)).

End lz4.

(** ** Package mozlz4 *)

Module mozlz4.

(** [var HEADER = []byte("mozLz40\x00")] *)
Definition HEADER : list byte :=
  [Byte.x6d; Byte.x6f; Byte.x7a; Byte.x4c; Byte.x7a; Byte.x34; Byte.x30; Byte.x00].

Definition ErrInvalid : error := errors_New "not a mozlz4 file".

Section Codec.

Context {rt : Runtime} (c : lz4.BlockCodec).

(** What a function of type [([]byte, error)] returns; [None] is [nil]. *)
Definition result : Type := (option (list byte) * option error)%type.

Definition Compress (data : list byte) : M result :=
  buf <- make 0 (len HEADER + 4 + lz4.CompressBlockBound c (len data)) ;;
  let buf := append buf HEADER in
  let '(buf, err) := binary.Append buf (binary.any_uint32 (uint32 (len data))) in
  match err with
  | Some err => ret (None, Some err)
  | None =>
      if negb (len data =? 0) then
        '(n, err, dst) <- lz4.call_CompressBlock c data (spare buf) ;;
        let buf := with_spare buf dst in
        match err with
        | Some err => ret (None, Some err)
        | None =>
            buf <- reslice buf (length_ buf + n) ;;
            ret (Some (elems buf), None)
        end
      else ret (Some (elems buf), None)
  end.

Definition Decompress (data : list byte) : M result :=
  let '(data, found) := bytes.CutPrefix data HEADER in
  if negb found then ret (None, Some ErrInvalid)
  else
    let size := 0 in
    let '(n, err, size) := binary.Decode data size in
    match err with
    | Some _ => ret (None, Some ErrInvalid)
    | None =>
        let data := skipn (Z.to_nat n) data in
        if size =? 0 then ret (Some [], None)
        else
          buf <- make size size ;;
          '(n, err, dst) <- lz4.call_UncompressBlock c data (elems buf) ;;
          let buf := with_elems buf dst in
          match err with
          | Some err => ret (None, Some err)
          | None =>
              if negb (uint32 n =? size)
              then ret (None,
                        Some (fmt_Errorf
                                "uncompressed size mismatch: expected %v, but got %v"
                                [size; n]))
              else ret (Some (elems buf), None)
          end
    end.

(** The 12 bytes [Compress] writes before the payload (lines 22 to 24). *)
Definition frame_header (data : list byte) : list byte :=
  HEADER ++ binary.LittleEndian.PutUint32 (uint32 (len data)).

(** The error [Decompress] makes at line 62. *)
Definition mismatch (size n : Z) : error :=
  fmt_Errorf "uncompressed size mismatch: expected %v, but got %v" [size; n].

(** The buffer of [Compress] once the header and the size field are
    written (line 29), when [make] has not panicked. *)
Definition framed (data : list byte) : slice :=
  let buf := {| array := zeros (len HEADER + 4 + lz4.CompressBlockBound c (len data));
                length_ := 0 |} in
  let buf := append buf HEADER in
  fst (binary.Append buf (binary.any_uint32 (uint32 (len data)))).

(** The count the block compressor returns at line 31; [0] when it is
    not run. *)
Definition compressedLen (data : list byte) : Z :=
  if len data =? 0 then 0
  else fst (fst (lz4.CompressBlock c data (spare (framed data)))).

End Codec.

End mozlz4.

(** ** What the theorems ask of a block codec

    On an input [src], with the destination [Compress] hands over (zeroed,
    [CompressBlockBound(len(src))] bytes long). *)

Module contract.

Section Contract.

Variable c : lz4.BlockCodec.

(** The block compressor accepts [src]: it returns no error and a count
    of bytes that lies within the destination. It is not run on an empty
    [src]. *)
Definition accepts (src : list byte) : Prop :=
  let b := lz4.CompressBlockBound c (len src) in
  0 <= b /\
  (src <> [] ->
   exists n dst, lz4.CompressBlock c src (zeros b) = (n, None, dst) /\ 0 <= n <= b).

(** The block codec round-trips [src]: the block compressor accepts it,
    and the block decompressor, run on the bytes produced with a
    destination of [len(src)] bytes, returns [len(src)] and leaves [src]
    in the destination. *)
Definition roundtrip (src : list byte) : Prop :=
  let b := lz4.CompressBlockBound c (len src) in
  0 <= b /\
  (src <> [] ->
   exists n dst,
     lz4.CompressBlock c src (zeros b) = (n, None, dst) /\ 0 <= n <= b /\
     lz4.UncompressBlock c (firstn (Z.to_nat n) (written (zeros b) dst))
       (zeros (len src)) = (len src, None, src)).

(** The payload [t] decompresses to [L] bytes: the block decompressor,
    given room for them, returns [L] and no error. *)
Definition decompresses_to (t : list byte) (L : Z) : Prop :=
  exists dst, lz4.UncompressBlock c t (zeros L) = (L, None, dst).

End Contract.

End contract.

(** ** Instances used to run the definitions

    A runtime whose [append] allocates exactly what is needed, and three
    block codecs, all with the bound formula of lz4: one that stores its
    input unchanged, one that rejects every input, and one that speaks the
    LZ4 block format restricted to blocks without matches (a single run of
    literals), which is what lz4 emits for the short inputs of the examples. *)

Module fake.

#[export] Instance exact : Runtime := {| growcap := fun _ needed => needed |}.

Definition ErrInvalidSourceShortBuffer : error :=
  errors_New "lz4: invalid source or destination buffer too short".

Definition copy (src dst : list byte) : Z * option error * list byte :=
  if len src <=? len dst
  then (len src, None, src ++ skipn (List.length src) dst)
  else (0, Some ErrInvalidSourceShortBuffer, dst).

Definition store : lz4.BlockCodec :=
  {| lz4.CompressBlockBound := fun n => n + n / 255 + 16;
     lz4.CompressBlock := copy;
     lz4.UncompressBlock := copy |}.

Definition reject : lz4.BlockCodec :=
  {| lz4.CompressBlockBound := fun n => n + n / 255 + 16;
     lz4.CompressBlock := fun _ dst => (0, Some ErrInvalidSourceShortBuffer, dst);
     lz4.UncompressBlock := fun _ dst => (0, Some ErrInvalidSourceShortBuffer, dst) |}.

(** The bytes that extend a length of 15 or more: [255]s, then the rest. *)
Fixpoint lenExt (fuel : nat) (r : Z) : list byte :=
  match fuel with
  | O => [byte.of_Z r]
  | S fuel' => if r <? 255 then [byte.of_Z r] else Byte.xff :: lenExt fuel' (r - 255)
  end.

(** A block of one sequence: the token, the extended length, the literals. *)
Definition literalRun (src : list byte) : list byte :=
  if len src <? 15 then byte.of_Z (Z.shiftl (len src) 4) :: src
  else Byte.xf0 :: lenExt (Z.to_nat (len src / 255)) (len src - 15) ++ src.

Fixpoint readExt (src : list byte) (acc : Z) : option (Z * list byte) :=
  match src with
  | [] => None
  | b :: rest =>
      if byte.unsigned b =? 255 then readExt rest (acc + 255)
      else Some (acc + byte.unsigned b, rest)
  end.

Definition unLiteralRun (src dst : list byte) : Z * option error * list byte :=
  match src with
  | [] => (0, None, dst)
  | token :: rest =>
      let t := byte.unsigned token in
      match (if Z.shiftr t 4 =? 15 then readExt rest 15 else Some (Z.shiftr t 4, rest)) with
      | Some (lLen, lits) =>
          if (Z.land t 15 =? 0) && (len lits =? lLen) then copy lits dst
          else (0, Some ErrInvalidSourceShortBuffer, dst)
      | None => (0, Some ErrInvalidSourceShortBuffer, dst)
      end
  end.

Definition literals : lz4.BlockCodec :=
  {| lz4.CompressBlockBound := fun n => n + n / 255 + 16;
     lz4.CompressBlock := fun src dst => copy (literalRun src) dst;
     lz4.UncompressBlock := unLiteralRun |}.

End fake.

(** Bytes written in hexadecimal, two digits each. *)
Definition nibble (a : ascii) : Z :=
  let n := Z.of_N (N_of_ascii a) in
  if (48 <=? n) && (n <=? 57) then n - 48
  else if (97 <=? n) && (n <=? 102) then n - 87
  else 0.

Fixpoint hex (s : string) : list byte :=
  match s with
  | String a (String b rest) => byte.of_Z (16 * nibble a + nibble b) :: hex rest
  | _ => []
  end.

(** * The command (cmd/mozlz4/main.go)

    Go strings are [string]s here. The errors of package [main]: those of
    package [mozlz4], those made with [fmt.Errorf] from strings ([Errorf])
    and from strings and a wrapped error, the last operand, for [%w]
    ([Errorf_w]), those [errors.Join] makes of one or of two errors, the
    three errors of github.com/cions/go-options that [Option] returns, and
    the errors the operating system reports. *)

Inductive goerror : Type :=
| of_error (e : error)
| Errorf (format : string) (args : list string)
| Errorf_w (format : string) (args : list string) (wrapped : goerror)
| Join1 (e : goerror)
| Join2 (e1 e2 : goerror)
| ErrHelp
| ErrVersion
| ErrUnknown
| os_error (text : string).

(** [errors.Join(e1, e2)]: the [nil]s are dropped. *)
Definition errors_Join (e1 e2 : option goerror) : option goerror :=
  match e1, e2 with
  | None, None => None
  | Some a, None => Some (Join1 a)
  | None, Some b => Some (Join1 b)
  | Some a, Some b => Some (Join2 a b)
  end.

(** [errors.Is(err, target)] for a [target] among the three errors of
    go-options: [err] is the target, or wraps it, or joins an error that
    is or wraps it. *)
Definition same (target e : goerror) : bool :=
  match target, e with
  | ErrHelp, ErrHelp | ErrVersion, ErrVersion | ErrUnknown, ErrUnknown => true
  | _, _ => false
  end.

Fixpoint Is (e target : goerror) : bool :=
  same target e
  || match e with
     | Errorf_w _ _ wrapped => Is wrapped target
     | Join1 a => Is a target
     | Join2 a b => Is a target || Is b target
     | _ => false
     end.

Definition errors_Is (err : option goerror) (target : goerror) : bool :=
  match err with
  | Some e => Is e target
  | None => false
  end.

(** ** Strings and paths

    [strings.HasSuffix], [strings.CutSuffix], and [filepath.Ext] and
    [filepath.Base] as they are on Unix, where the separator is [/] and a
    path has no volume name. Their loops run from the end of the path: the
    argument [i] of a loop is one more than Go's index, which it examines
    next. *)

Module strings.

(** [len(s) >= len(suffix) && s[len(s)-len(suffix):] == suffix] *)
Definition HasSuffix (s suffix : string) : bool :=
  (String.length suffix <=? String.length s)%nat
  && (substring (String.length s - String.length suffix) (String.length suffix) s
      =? suffix)%string.

Definition CutSuffix (s suffix : string) : string * bool :=
  if negb (HasSuffix s suffix) then (s, false)
  else (substring 0 (String.length s - String.length suffix) s, true).

(** [strings.ReplaceAll(s, old, new)] for a non-empty [old]: the
    occurrences of [old] that do not overlap, from the left; [skip] counts
    the characters of an occurrence still to pass. *)
Fixpoint ReplaceAll_from (s old new : string) (skip : nat) : string :=
  match s with
  | EmptyString => EmptyString
  | String ch rest =>
      match skip with
      | S k => ReplaceAll_from rest old new k
      | O =>
          if String.prefix old s
          then (new ++ ReplaceAll_from rest old new (String.length old - 1))%string
          else String ch (ReplaceAll_from rest old new 0)
      end
  end.

Definition ReplaceAll (s old new : string) : string := ReplaceAll_from s old new 0.

End strings.

Module filepath.

Definition IsPathSeparator (ch : ascii) : bool := (ch =? "/")%char.

(** [for i := len(path) - 1; i >= 0 && !os.IsPathSeparator(path[i]); i--
    { if path[i] == '.' { return path[i:] } }; return ""] *)
Fixpoint Ext_loop (path : string) (i : nat) : string :=
  match i with
  | O => ""
  | S j =>
      match String.get j path with
      | Some ch =>
          if IsPathSeparator ch then ""
          else if (ch =? ".")%char then substring j (String.length path - j) path
          else Ext_loop path j
      | None => ""
      end
  end.

Definition Ext (path : string) : string := Ext_loop path (String.length path).

(** [for len(path) > 0 && os.IsPathSeparator(path[len(path)-1])
    { path = path[0 : len(path)-1] }]; [n] is [len(path)]. *)
Fixpoint stripTrailing (path : string) (n : nat) : string :=
  match n with
  | O => path
  | S m =>
      match String.get m path with
      | Some ch =>
          if IsPathSeparator ch then stripTrailing (substring 0 m path) m else path
      | None => path
      end
  end.

(** [i := len(path) - 1; for i >= 0 && !os.IsPathSeparator(path[i]) { i-- }]:
    the result is [i + 1]. *)
Fixpoint lastElement (path : string) (i : nat) : nat :=
  match i with
  | O => O
  | S j =>
      match String.get j path with
      | Some ch => if IsPathSeparator ch then S j else lastElement path j
      | None => O
      end
  end.

Definition Base (path : string) : string :=
  if (path =? "")%string then "."
  else
    let path := stripTrailing path (String.length path) in
    let i1 := lastElement path (String.length path) in
    let path :=
      if (0 <? i1)%nat then substring i1 (String.length path - i1) path else path in
    if (path =? "")%string then "/" else path.

End filepath.

(** ** The operating system

    What [main.go] asks of packages [os], [io] and [term]: every call gives
    its results and the world afterwards. The flags of [os.OpenFile] have
    their values on Linux. A file that [os.OpenFile] returned is written
    and closed under the name it was opened with. *)

Module os.

Definition O_WRONLY : Z := 1.
Definition O_CREATE : Z := 64.
Definition O_EXCL : Z := 128.
Definition O_TRUNC : Z := 512.

(** [os.Stdin.Fd()] and [os.Stdout.Fd()] *)
Definition Stdin_Fd : Z := 0.
Definition Stdout_Fd : Z := 1.

Record System : Type := {
  world : Type;
  File : Type;
  IsTerminal : Z -> world -> bool;
  ReadAll_Stdin : world -> list byte * option goerror * world;
  ReadFile : string -> world -> list byte * option goerror * world;
  Stdout_Write : list byte -> world -> option goerror * world;
  OpenFile : string -> Z -> Z -> world -> File * option goerror * world;
  Write : File -> list byte -> world -> option goerror * world;
  Close : File -> world -> option goerror * world;
  Remove : string -> world -> option goerror * world
}.

End os.

(** What a run does, in order: the calls to the operating system with what
    they returned, and the calls to the block codec. *)
Inductive event : Type :=
| ev_IsTerminal (fd : Z) (tty : bool)
| ev_ReadAll_Stdin (data : list byte) (err : option goerror)
| ev_ReadFile (name : string) (data : list byte) (err : option goerror)
| ev_Stdout_Write (data : list byte) (err : option goerror)
| ev_OpenFile (name : string) (flag perm : Z) (err : option goerror)
| ev_Write (name : string) (data : list byte) (err : option goerror)
| ev_Close (name : string) (err : option goerror)
| ev_Remove (name : string) (err : option goerror)
| ev_codec (c : call).

(** The events that change a file, the standard output or the directory. *)
Definition is_output (ev : event) : bool :=
  match ev with
  | ev_Stdout_Write _ _ | ev_OpenFile _ _ _ _ | ev_Write _ _ _ | ev_Close _ _
  | ev_Remove _ _ => true
  | _ => false
  end.

(** Computations of package [main]: from a world to the events, the value
    (or a panic) and the world afterwards. *)
Definition IO (sys : os.System) (A : Type) : Type :=
  os.world sys -> list event * outcome A * os.world sys.

Definition io_ret {sys : os.System} {A} (a : A) : IO sys A :=
  fun w => ([], Done a, w).

Definition io_bind {sys : os.System} {A B} (m : IO sys A) (f : A -> IO sys B)
  : IO sys B :=
  fun w =>
    match m w with
    | (l, Done a, w') => let '(l', r, w'') := f a w' in (l ++ l', r, w'')
    | (l, Panic, w') => (l, Panic, w')
    end.

(** A computation of package [mozlz4] run within [main]. *)
Definition io_lift {sys : os.System} {A} (m : M A) : IO sys A :=
  fun w => (map ev_codec (fst m), snd m, w).

(** A string without a dot and without a separator. *)
Fixpoint plain (s : string) : bool :=
  match s with
  | EmptyString => true
  | String ch rest =>
      negb (ch =? ".")%char && negb (filepath.IsPathSeparator ch) && plain rest
  end.

(** A string without a separator. *)
Fixpoint nosep (s : string) : bool :=
  match s with
  | EmptyString => true
  | String ch rest => negb (filepath.IsPathSeparator ch) && nosep rest
  end.

Module options.

(** The kinds of option that [Kind] returns. *)
Inductive Kind : Type := Boolean | Required | Unknown.

End options.

Module main.

Record Command : Type := {
  ForceCompress : bool;
  ForceDecompress : bool;
  Destination : string;
  Suffix : string;
  Delete : bool;
  Force : bool
}.

(** [func (c *Command) Kind(name string) options.Kind] *)
Definition Kind (c : Command) (name : string) : options.Kind :=
  if (name =? "-z")%string || (name =? "--compress")%string then options.Boolean
  else if (name =? "-d")%string || (name =? "--decompress")%string then options.Boolean
  else if (name =? "-c")%string || (name =? "--stdout")%string then options.Boolean
  else if (name =? "-o")%string || (name =? "--output")%string then options.Required
  else if (name =? "-S")%string || (name =? "--suffix")%string then options.Required
  else if (name =? "-k")%string || (name =? "--keep")%string then options.Boolean
  else if (name =? "--rm")%string then options.Boolean
  else if (name =? "-f")%string || (name =? "--force")%string then options.Boolean
  else if (name =? "-h")%string || (name =? "--help")%string then options.Boolean
  else if (name =? "--version")%string then options.Boolean
  else options.Unknown.

(** [func (c *Command) Option(name string, value string, hasValue bool) error]:
    the command afterwards and the error. *)
Definition Option (c : Command) (name value : string) (hasValue : bool)
  : Command * option goerror :=
  if (name =? "-z")%string || (name =? "--compress")%string then
    ({| ForceCompress := true; ForceDecompress := false;
        Destination := Destination c; Suffix := Suffix c;
        Delete := Delete c; Force := Force c |}, None)
  else if (name =? "-d")%string || (name =? "--decompress")%string then
    ({| ForceCompress := false; ForceDecompress := true;
        Destination := Destination c; Suffix := Suffix c;
        Delete := Delete c; Force := Force c |}, None)
  else if (name =? "-c")%string || (name =? "--stdout")%string then
    ({| ForceCompress := ForceCompress c; ForceDecompress := ForceDecompress c;
        Destination := "-"; Suffix := Suffix c;
        Delete := Delete c; Force := Force c |}, None)
  else if (name =? "-o")%string || (name =? "--output")%string then
    ({| ForceCompress := ForceCompress c; ForceDecompress := ForceDecompress c;
        Destination := value; Suffix := Suffix c;
        Delete := Delete c; Force := Force c |}, None)
  else if (name =? "-S")%string || (name =? "--suffix")%string then
    ({| ForceCompress := ForceCompress c; ForceDecompress := ForceDecompress c;
        Destination := Destination c; Suffix := value;
        Delete := Delete c; Force := Force c |}, None)
  else if (name =? "-k")%string || (name =? "--keep")%string then
    ({| ForceCompress := ForceCompress c; ForceDecompress := ForceDecompress c;
        Destination := Destination c; Suffix := Suffix c;
        Delete := false; Force := Force c |}, None)
  else if (name =? "--rm")%string then
    ({| ForceCompress := ForceCompress c; ForceDecompress := ForceDecompress c;
        Destination := Destination c; Suffix := Suffix c;
        Delete := true; Force := Force c |}, None)
  else if (name =? "-f")%string || (name =? "--force")%string then
    ({| ForceCompress := ForceCompress c; ForceDecompress := ForceDecompress c;
        Destination := Destination c; Suffix := Suffix c;
        Delete := Delete c; Force := true |}, None)
  else if (name =? "-h")%string || (name =? "--help")%string then (c, Some ErrHelp)
  else if (name =? "--version")%string then (c, Some ErrVersion)
  else (c, Some ErrUnknown).

(** [func (c *Command) getDestination(name string, compress bool) (string, error)] *)
Definition getDestination (c : Command) (name : string) (compress : bool)
  : string * option goerror :=
  if negb (Destination c =? "")%string then (Destination c, None)
  else if (name =? "-")%string then ("-"%string, None)
  else if compress then ((name ++ Suffix c)%string, None)
  else
    let ext := filepath.Ext name in
    let base := filepath.Base name in
    let ext := if (ext =? base)%string then ""%string else ext in
    if (ext =? "")%string
    then (""%string, Some (Errorf "%v has no extension. use -o/--output option." [name]))
    else
      let '(dest, found) := strings.CutSuffix name ext in
      if negb found
      then (""%string, Some (Errorf "%v has no extension. use -o/--output option." [name]))
      else (dest, None).

Section Process.

Context {rt : Runtime} (lz : lz4.BlockCodec) (sys : os.System).

Notation "x <-- m ;; k" := (io_bind m (fun x => k))
  (at level 61, m at next level, right associativity).
Notation "' p <-- m ;; k" := (io_bind m (fun x => let p := x in k))
  (at level 61, p pattern, m at next level, right associativity).

(** [term.IsTerminal(fd)] *)
Definition isTerminal (fd : Z) : IO sys bool :=
  fun w => let b := os.IsTerminal sys fd w in ([ev_IsTerminal fd b], Done b, w).

(** [func (c *Command) readFile(name string) ([]byte, error)] *)
Definition readFile (c : Command) (name : string) : IO sys (list byte * option goerror) :=
  if (name =? "-")%string
  then fun w => let '(data, err, w') := os.ReadAll_Stdin sys w in
                ([ev_ReadAll_Stdin data err], Done (data, err), w')
  else fun w => let '(data, err, w') := os.ReadFile sys name w in
                ([ev_ReadFile name data err], Done (data, err), w').

(** [func (c *Command) writeFile(name string, data []byte) error] *)
Definition writeFile (c : Command) (name : string) (data : list byte)
  : IO sys (option goerror) :=
  if (name =? "-")%string then
    err <-- (fun w => let '(err, w') := os.Stdout_Write sys data w in
                      ([ev_Stdout_Write data err], Done err, w')) ;;
    match err with
    | Some err => io_ret (Some err)
    | None => io_ret None
    end
  else
    let flags := Z.lor (Z.lor os.O_WRONLY os.O_CREATE) os.O_TRUNC in
    let flags := if negb (Force c) then Z.lor flags os.O_EXCL else flags in
    '(f, err) <-- (fun w => let '(f, err, w') := os.OpenFile sys name flags 438 w in
                            ([ev_OpenFile name flags 438 err], Done (f, err), w')) ;;
    match err with
    | Some err => io_ret (Some err)
    | None =>
        err <-- (fun w => let '(err, w') := os.Write sys f data w in
                          ([ev_Write name data err], Done err, w')) ;;
        match err with
        | Some err =>
            err2 <-- (fun w => let '(err, w') := os.Close sys f w in
                               ([ev_Close name err], Done err, w')) ;;
            io_ret (errors_Join (Some err) err2)
        | None =>
            err <-- (fun w => let '(err, w') := os.Close sys f w in
                              ([ev_Close name err], Done err, w')) ;;
            match err with
            | Some err => io_ret (Some err)
            | None => io_ret None
            end
        end
    end.

(** The bytes of a [[]byte]; [nil] has none. *)
Definition bytes_of (o : option (list byte)) : list byte :=
  match o with
  | Some b => b
  | None => []
  end.

(** [func (c *Command) processFile(file string) error] *)
Definition processFile (c : Command) (file : string) : IO sys (option goerror) :=
  tty <-- (if negb (Force c) && (file =? "-")%string
           then isTerminal os.Stdin_Fd else io_ret false) ;;
  if tty then io_ret (Some (of_error (errors_New "stdin is a terminal")))
  else
    '(input, err) <-- readFile c file ;;
    match err with
    | Some err => io_ret (Some err)
    | None =>
        let compress :=
          ForceCompress c
          || (negb (ForceDecompress c) && negb (bytes.HasPrefix input mozlz4.HEADER)) in
        '(output, err) <-- io_lift (if compress then mozlz4.Compress lz input
                                    else mozlz4.Decompress lz input) ;;
        match err with
        | Some err =>
            if (file =? "-")%string
            then io_ret (Some (Errorf_w "<stdin>: %w" [] (of_error err)))
            else io_ret (Some (Errorf_w "%v: %w" [file] (of_error err)))
        | None =>
            let '(dest, err) := getDestination c file compress in
            match err with
            | Some err => io_ret (Some err)
            | None =>
                tty <-- (if negb (Force c) && compress && (dest =? "-")%string
                         then isTerminal os.Stdout_Fd else io_ret false) ;;
                if tty then io_ret (Some (of_error (errors_New "stdout is a terminal")))
                else
                  err <-- writeFile c dest (bytes_of output) ;;
                  match err with
                  | Some err => io_ret (Some err)
                  | None =>
                      if Delete c && negb (file =? dest)%string
                         && negb (file =? "-")%string && negb (dest =? "-")%string
                      then
                        err <-- (fun w => let '(err, w') := os.Remove sys file w in
                                          ([ev_Remove file err], Done err, w')) ;;
                        match err with
                        | Some err => io_ret (Some err)
                        | None => io_ret None
                        end
                      else io_ret None
                  end
            end
        end
    end.

End Process.

(** The command [run] starts from: [&Command{Suffix: ".mozlz4"}]. *)
Definition initial : Command :=
  {| ForceCompress := false; ForceDecompress := false; Destination := "";
     Suffix := ".mozlz4"; Delete := false; Force := false |}.

(** An option on the command line, as [Option] receives it. *)
Definition opt : Type := (string * string * bool)%type.

(** [Option] called on each option in turn, up to the first error. *)
Fixpoint Options (c : Command) (os : list opt) : Command * option goerror :=
  match os with
  | [] => (c, None)
  | (name, value, hasValue) :: rest =>
      match Option c name value hasValue with
      | (c', None) => Options c' rest
      | (c', Some e) => (c', Some e)
      end
  end.

(** ** The steps of [processFile]

    The value of [compress], the call to the codec that follows it, the
    flags [writeFile] opens a file with, and the event of [readFile]. *)

(** [compress := c.ForceCompress || (!c.ForceDecompress &&
    !bytes.HasPrefix(input, mozlz4.HEADER))] *)
Definition compress (c : Command) (input : list byte) : bool :=
  ForceCompress c
  || (negb (ForceDecompress c) && negb (bytes.HasPrefix input mozlz4.HEADER)).

(** [mozlz4.Compress(input)] if [compress], else [mozlz4.Decompress(input)] *)
Definition convert {rt : Runtime} (lz : lz4.BlockCodec) (c : Command)
  (input : list byte) : M mozlz4.result :=
  if compress c input then mozlz4.Compress lz input else mozlz4.Decompress lz input.

(** [flags] in [writeFile] *)
Definition open_flags (c : Command) : Z :=
  if Force c then Z.lor (Z.lor os.O_WRONLY os.O_CREATE) os.O_TRUNC
  else Z.lor (Z.lor (Z.lor os.O_WRONLY os.O_CREATE) os.O_TRUNC) os.O_EXCL.

(** What [readFile] does: it reads the standard input for [-], else the
    file. *)
Definition read_event (file : string) (data : list byte) (err : option goerror)
  : event :=
  if (file =? "-")%string then ev_ReadAll_Stdin data err
  else ev_ReadFile file data err.

(** The test of the standard input, when it is made and passes. *)
Definition stdin_checked (c : Command) (file : string) : list event :=
  if negb (Force c) && (file =? "-")%string
  then [ev_IsTerminal os.Stdin_Fd false] else [].

(** The test of the standard output, when it is made and passes. *)
Definition stdout_checked (c : Command) (compressing : bool) (dest : string)
  : list event :=
  if negb (Force c) && compressing && (dest =? "-")%string
  then [ev_IsTerminal os.Stdout_Fd false] else [].

(** The error of the codec as [processFile] returns it. *)
Definition wrap (file : string) (e : error) : goerror :=
  if (file =? "-")%string then Errorf_w "<stdin>: %w" [] (of_error e)
  else Errorf_w "%v: %w" [file] (of_error e).

(** The test before [os.Remove]. *)
Definition remove_wanted (c : Command) (file dest : string) : bool :=
  Delete c && negb (file =? dest)%string
  && negb (file =? "-")%string && negb (dest =? "-")%string.

(** The events of [writeFile] with its result [r]. *)
Definition write_log (c : Command) (name : string) (data : list byte)
  (r : option goerror) (log : list event) : Prop :=
  if (name =? "-")%string then log = [ev_Stdout_Write data r]
  else
    (exists e, r = Some e /\ log = [ev_OpenFile name (open_flags c) 438 (Some e)])
    \/ (exists e e2,
           r = errors_Join (Some e) e2
           /\ log = [ev_OpenFile name (open_flags c) 438 None;
                     ev_Write name data (Some e); ev_Close name e2])
    \/ log = [ev_OpenFile name (open_flags c) 438 None;
              ev_Write name data None; ev_Close name r].

Section Path.

Context {rt : Runtime} (lz : lz4.BlockCodec) (c : Command) (file : string).

(** The ways through [processFile], one for each [return]: the events and
    the result. *)
Inductive path : list event -> outcome (option goerror) -> Prop :=
| path_stdin_tty :
    Force c = false -> file = "-"%string ->
    path [ev_IsTerminal os.Stdin_Fd true]
         (Done (Some (of_error (errors_New "stdin is a terminal"))))
| path_read_error pre input e :
    pre = stdin_checked c file ->
    path (pre ++ [read_event file input (Some e)]) (Done (Some e))
| path_panic pre input tr :
    pre = stdin_checked c file ->
    convert lz c input = (tr, Panic) ->
    path (pre ++ [read_event file input None] ++ map ev_codec tr) Panic
| path_codec_error pre input tr o e :
    pre = stdin_checked c file ->
    convert lz c input = (tr, Done (o, Some e)) ->
    path (pre ++ [read_event file input None] ++ map ev_codec tr)
         (Done (Some (wrap file e)))
| path_no_destination pre input tr o dest e :
    pre = stdin_checked c file ->
    convert lz c input = (tr, Done (o, None)) ->
    getDestination c file (compress c input) = (dest, Some e) ->
    path (pre ++ [read_event file input None] ++ map ev_codec tr) (Done (Some e))
| path_stdout_tty pre input tr o :
    pre = stdin_checked c file ->
    convert lz c input = (tr, Done (o, None)) ->
    getDestination c file (compress c input) = ("-"%string, None) ->
    Force c = false -> compress c input = true ->
    path (pre ++ [read_event file input None] ++ map ev_codec tr
          ++ [ev_IsTerminal os.Stdout_Fd true])
         (Done (Some (of_error (errors_New "stdout is a terminal"))))
| path_write pre input tr o dest mid wlog r :
    pre = stdin_checked c file ->
    convert lz c input = (tr, Done (o, None)) ->
    getDestination c file (compress c input) = (dest, None) ->
    mid = stdout_checked c (compress c input) dest ->
    write_log c dest (bytes_of o) r wlog ->
    (r = None -> remove_wanted c file dest = false) ->
    path (pre ++ [read_event file input None] ++ map ev_codec tr ++ mid ++ wlog)
         (Done r)
| path_remove pre input tr o dest mid wlog r :
    pre = stdin_checked c file ->
    convert lz c input = (tr, Done (o, None)) ->
    getDestination c file (compress c input) = (dest, None) ->
    mid = stdout_checked c (compress c input) dest ->
    write_log c dest (bytes_of o) None wlog ->
    remove_wanted c file dest = true ->
    path (pre ++ [read_event file input None] ++ map ev_codec tr ++ mid ++ wlog
          ++ [ev_Remove file r])
         (Done r).

End Path.

(** ** [run]

    [options.Parse] of github.com/cions/go-options and
    [debug.ReadBuildInfo] are given: [Parse c args] is the files, the error
    and the command as the parser leaves it; [buildVersion] is
    [bi.Main.Version] when there is build information. [fmt.Print] and
    [fmt.Printf] write their text to the standard output at once and drop
    the result. *)

Definition NAME : string := "mozlz4".
Definition VERSION : string := "(devel)".
Definition USAGE : string := "Usage: $NAME [OPTIONS] [FILE...]

Compress or decompress mozlz4 files.

Options:
  -z, --compress        Force compression
  -d, --decompress      Force decompression
  -c, --stdout          Write to the standard output and keep the input files
  -o, --output=FILE     Write to the FILE
  -S, --suffix=SUFFIX   Add SUFFIX on compressed file names
  -k, --keep            Don't delete the input files (default)
      --rm              Delete the input files after successful (de)compression
  -f, --force           Allow overwriting existing files, reading input from
                        a terminal, writing compressed data to a terminal
  -h, --help            Show this help message and exit
      --version         Show version information and exit
".

Section Run.

Context {rt : Runtime} (lz : lz4.BlockCodec) (sys : os.System).
Variable Parse : Command -> list string -> list string * option goerror * Command.
Variable buildVersion : option string.

Notation "x <-- m ;; k" := (io_bind m (fun x => k))
  (at level 61, m at next level, right associativity).

(** [fmt.Print(text)] *)
Definition Print (text : string) : IO sys unit :=
  fun w => let '(err, w') := os.Stdout_Write sys (list_byte_of_string text) w in
           ([ev_Stdout_Write (list_byte_of_string text) err], Done tt, w').

(** [for _, file := range files { ... }; return nil] *)
Fixpoint range_files (c : Command) (files : list string) : IO sys (option goerror) :=
  match files with
  | [] => io_ret None
  | file :: rest =>
      err <-- processFile lz sys c file ;;
      match err with
      | Some err => io_ret (Some err)
      | None => range_files c rest
      end
  end.

(** [func run(args []string) error] *)
Definition run (args : list string) : IO sys (option goerror) :=
  let '(files, err, c) := Parse initial args in
  if errors_Is err ErrHelp then
    _ <-- Print (strings.ReplaceAll USAGE "$NAME" NAME) ;;
    io_ret None
  else if errors_Is err ErrVersion then
    let version := match buildVersion with
                   | Some v => v
                   | None => VERSION
                   end in
    _ <-- Print (NAME ++ " " ++ version ++ String "010"%char "")%string ;;
    io_ret None
  else
    match err with
    | Some err => io_ret (Some err)
    | None =>
        if (1 <? Z.of_nat (List.length files))
           && negb (Destination c =? "")%string
           && negb (Destination c =? "-")%string
        then io_ret (Some (of_error (errors_New
               "-o/--output cannot be used if multiple input files is given")))
        else if Z.of_nat (List.length files) =? 0 then processFile lz sys c "-"
        else range_files c files
    end.

End Run.

End main.

(** ** A system in memory, used to run [processFile]

    Files are a list of names with their contents; a file is opened under
    its name, which is its handle. *)

Module memfs.

Record state : Type := {
  files : list (string * list byte);
  stdin : list byte;
  stdout : list byte;
  stdin_tty : bool;
  stdout_tty : bool
}.

Fixpoint lookup (name : string) (fs : list (string * list byte)) : option (list byte) :=
  match fs with
  | [] => None
  | (n, d) :: rest => if (n =? name)%string then Some d else lookup name rest
  end.

Fixpoint delete (name : string) (fs : list (string * list byte))
  : list (string * list byte) :=
  match fs with
  | [] => []
  | (n, d) :: rest => if (n =? name)%string then delete name rest else (n, d) :: delete name rest
  end.

Definition put (name : string) (data : list byte) (fs : list (string * list byte))
  : list (string * list byte) :=
  (name, data) :: delete name fs.

Definition with_files (w : state) (fs : list (string * list byte)) : state :=
  {| files := fs; stdin := stdin w; stdout := stdout w;
     stdin_tty := stdin_tty w; stdout_tty := stdout_tty w |}.

Definition system : os.System :=
  {| os.world := state;
     os.File := string;
     os.IsTerminal := fun fd w =>
       if fd =? os.Stdin_Fd then stdin_tty w
       else if fd =? os.Stdout_Fd then stdout_tty w else false;
     os.ReadAll_Stdin := fun w =>
       (stdin w, None,
        {| files := files w; stdin := []; stdout := stdout w;
           stdin_tty := stdin_tty w; stdout_tty := stdout_tty w |});
     os.ReadFile := fun name w =>
       match lookup name (files w) with
       | Some d => (d, None, w)
       | None => ([], Some (os_error "no such file or directory"), w)
       end;
     os.Stdout_Write := fun data w =>
       (None,
        {| files := files w; stdin := stdin w; stdout := stdout w ++ data;
           stdin_tty := stdin_tty w; stdout_tty := stdout_tty w |});
     os.OpenFile := fun name flag perm w =>
       match lookup name (files w) with
       | Some _ =>
           if Z.land flag os.O_EXCL =? 0
           then (name, None, with_files w (put name [] (files w)))
           else (name, Some (os_error "file exists"), w)
       | None => (name, None, with_files w (put name [] (files w)))
       end;
     os.Write := fun f data w =>
       (None, with_files w (put f (match lookup f (files w) with
                                   | Some d => d ++ data
                                   | None => data
                                   end) (files w)));
     os.Close := fun f w => (None, w);
     os.Remove := fun name w =>
       match lookup name (files w) with
       | Some _ => (None, with_files w (delete name (files w)))
       | None => (Some (os_error "no such file or directory"), w)
       end |}.

(** A world with the given files, nothing on the standard input, and no
    terminal. *)
Definition disk (fs : list (string * list byte)) : state :=
  {| files := fs; stdin := []; stdout := []; stdin_tty := false; stdout_tty := false |}.

(** A world with [input] waiting on the standard input, and no terminal. *)
Definition piped (input : list byte) : state :=
  {| files := []; stdin := input; stdout := []; stdin_tty := false; stdout_tty := false |}.

(** A world at a terminal, with no file. *)
Definition terminal : state :=
  {| files := []; stdin := []; stdout := []; stdin_tty := true; stdout_tty := true |}.

(** A parser of arguments in the manner of [options.Parse], used to run
    [run]: an argument that [Kind] knows as an option is given to
    [Option], with the next argument as its value if it requires one; any
    other argument is a file. *)
Fixpoint Parse_fuel (fuel : nat) (c : main.Command) (args : list string)
  : list string * option goerror * main.Command :=
  match fuel, args with
  | O, _ | _, [] => ([], None, c)
  | S fuel, a :: rest =>
      match main.Kind c a with
      | options.Boolean =>
          match main.Option c a "" false with
          | (c', None) => Parse_fuel fuel c' rest
          | (c', Some e) => ([], Some e, c')
          end
      | options.Required =>
          match rest with
          | v :: rest' =>
              match main.Option c a v true with
              | (c', None) => Parse_fuel fuel c' rest'
              | (c', Some e) => ([], Some e, c')
              end
          | [] => ([], Some ErrUnknown, c)
          end
      | options.Unknown =>
          let '(fs, e, c') := Parse_fuel fuel c rest in (a :: fs, e, c')
      end
  end.

Definition Parse (c : main.Command) (args : list string)
  : list string * option goerror * main.Command :=
  Parse_fuel (List.length args) c args.

End memfs.

(** * Properties *)

(** ** Lists, zero-filled arrays and writing in place *)

Lemma len_app (a b : list byte) : len (a ++ b) = len a + len b.
Proof. unfold len. rewrite length_app. lia. Qed.

Lemma len_nonneg (a : list byte) : 0 <= len a.
Proof. unfold len. lia. Qed.

Lemma len_zero_nil (a : list byte) : len a = 0 -> a = [].
Proof. destruct a; [reflexivity | unfold len; simpl; lia]. Qed.

Lemma len_zeros (n : Z) : 0 <= n -> len (zeros n) = n.
Proof. intros Hn. unfold len, zeros. rewrite repeat_length. lia. Qed.

Lemma length_zeros (n : Z) : List.length (zeros n) = Z.to_nat n.
Proof. unfold zeros. apply repeat_length. Qed.

Lemma skipn_repeat (b : byte) (k n : nat) : skipn k (repeat b n) = repeat b (n - k).
Proof.
  revert n. induction k as [|k IH]; intros n.
  - rewrite Nat.sub_0_r. reflexivity.
  - destruct n as [|n]; [reflexivity|]. simpl. apply IH.
Qed.

Lemma firstn_repeat (b : byte) (k n : nat) : firstn k (repeat b n) = repeat b (Nat.min k n).
Proof.
  revert n. induction k as [|k IH]; intros n; [reflexivity|].
  destruct n as [|n]; [reflexivity|]. simpl. f_equal. apply IH.
Qed.

Lemma skipn_zeros (k n : Z) : 0 <= k -> skipn (Z.to_nat k) (zeros n) = zeros (n - k).
Proof.
  intros Hk. unfold zeros. rewrite skipn_repeat. f_equal. lia.
Qed.

Lemma firstn_zeros_all (n : Z) : firstn (Z.to_nat n) (zeros n) = zeros n.
Proof.
  unfold zeros. rewrite firstn_repeat. f_equal. lia.
Qed.

Lemma written_length (dst dst' : list byte) :
  List.length (written dst dst') = List.length dst.
Proof.
  unfold written. rewrite length_firstn, length_app, length_skipn. lia.
Qed.

Lemma written_same_length (dst dst' : list byte) :
  List.length dst' = List.length dst -> written dst dst' = dst'.
Proof.
  intros H. unfold written. rewrite H, skipn_all, app_nil_r.
  rewrite <- H. apply firstn_all.
Qed.

Lemma firstn_written_prefix (dst src rest : list byte) :
  (List.length src <= List.length dst)%nat ->
  firstn (List.length src) (written dst (src ++ rest)) = src.
Proof.
  intros H. unfold written. rewrite firstn_firstn.
  replace (Nat.min (List.length src) (List.length dst)) with (List.length src) by lia.
  rewrite <- app_assoc, firstn_app, firstn_all, Nat.sub_diag. simpl.
  apply app_nil_r.
Qed.

(** ** Slices *)

Lemma elems_spare (s : slice) : elems s ++ spare s = array s.
Proof. apply firstn_skipn. Qed.

Lemma len_elems (s : slice) : wf s -> len (elems s) = length_ s.
Proof.
  unfold wf, cap, elems, len. intros H. rewrite length_firstn. lia.
Qed.

Lemma len_spare (s : slice) : wf s -> len (spare s) = cap s - length_ s.
Proof.
  unfold wf, cap, spare, len. intros H. rewrite length_skipn. lia.
Qed.

Section Slices.

Context {rt : Runtime}.

Lemma append_elems (s : slice) (xs : list byte) :
  wf s -> elems (append s xs) = elems s ++ xs.
Proof.
  intros H. pose proof (len_elems s H) as He. pose proof (len_nonneg xs) as Hx.
  assert (Hn : Z.to_nat (length_ s + len xs) = List.length (elems s ++ xs)).
  { rewrite length_app. unfold len in *. lia. }
  unfold append. destruct (length_ s + len xs <=? cap s);
    unfold elems at 1; cbn [array length_]; rewrite Hn;
    rewrite app_assoc, firstn_app, firstn_all, Nat.sub_diag; simpl;
    apply app_nil_r.
Qed.

Lemma append_length (s : slice) (xs : list byte) :
  length_ (append s xs) = length_ s + len xs.
Proof. unfold append. destruct (_ <=? _); reflexivity. Qed.

Lemma append_wf (s : slice) (xs : list byte) : wf s -> wf (append s xs).
Proof.
  intros H. pose proof (len_elems s H) as He. pose proof (len_nonneg xs) as Hx.
  unfold wf. rewrite append_length. split; [unfold wf in H; lia|].
  unfold append. destruct (_ <=? _); unfold cap; cbn [array];
    rewrite !len_app, He;
    match goal with |- context [len ?l] =>
      lazymatch l with
      | skipn _ _ => pose proof (len_nonneg l)
      | zeros _ => pose proof (len_nonneg l)
      end
    end; lia.
Qed.

Lemma append_spare (s : slice) (xs : list byte) :
  wf s -> length_ s + len xs <= cap s ->
  spare (append s xs) = skipn (List.length xs) (spare s).
Proof.
  intros H Hfit. pose proof (len_elems s H) as He. pose proof (len_nonneg xs) as Hx.
  assert (Hn : Z.to_nat (length_ s + len xs) = List.length (elems s ++ xs)).
  { rewrite length_app. unfold len in *. lia. }
  unfold append. apply Z.leb_le in Hfit. rewrite Hfit.
  unfold spare at 1. cbn [array length_].
  rewrite Hn at 1. rewrite app_assoc, skipn_app, skipn_all, Nat.sub_diag. simpl.
  unfold spare. rewrite skipn_skipn. f_equal. unfold len in *. lia.
Qed.

Lemma append_cap (s : slice) (xs : list byte) :
  wf s -> length_ s + len xs <= cap s -> cap (append s xs) = cap s.
Proof.
  intros H Hfit. pose proof (len_elems s H) as He. pose proof (len_nonneg xs) as Hx.
  unfold append. pose proof Hfit as Hfit'. apply Z.leb_le in Hfit'. rewrite Hfit'.
  unfold cap at 1. cbn [array]. rewrite !len_app, He.
  unfold len at 2. rewrite length_skipn. unfold cap, len in *. lia.
Qed.

End Slices.

Lemma with_spare_elems (s : slice) (dst' : list byte) :
  wf s -> elems (with_spare s dst') = elems s.
Proof.
  intros H. pose proof (len_elems s H) as He.
  unfold with_spare. unfold elems at 1. cbn [array length_].
  replace (Z.to_nat (length_ s)) with (List.length (elems s)) by (unfold len in He; lia).
  rewrite firstn_app, firstn_all, Nat.sub_diag. simpl. apply app_nil_r.
Qed.

Lemma with_spare_cap (s : slice) (dst' : list byte) :
  cap (with_spare s dst') = cap s.
Proof.
  unfold with_spare, cap. cbn [array].
  replace (len (array s)) with (len (elems s ++ spare s))
    by (rewrite elems_spare; reflexivity).
  rewrite !len_app. unfold len. rewrite written_length. reflexivity.
Qed.

(** ** Error texts *)

Lemma string_app_nil_r (s : string) : (s ++ "")%string = s.
Proof. induction s as [|a s IH]; [reflexivity|]. simpl. rewrite IH. reflexivity. Qed.

Lemma Error_mismatch (size n : Z) :
  Error (mozlz4.mismatch size n)
  = ("uncompressed size mismatch: expected " ++ fmt.v size
     ++ ", but got " ++ fmt.v n)%string.
Proof.
  unfold mozlz4.mismatch, Error. cbn [fmt.Sprintf String.append].
  rewrite string_app_nil_r. reflexivity.
Qed.

(** ** The size field *)

Lemma PutUint32_le_split (v : Z) : binary.LittleEndian.PutUint32 v = le_split 4 v.
Proof.
  unfold binary.LittleEndian.PutUint32. cbv [le_split].
  rewrite !Z.shiftr_shiftr by lia. reflexivity.
Qed.

Lemma Uint32_le_combine (b0 b1 b2 b3 : byte) (t : list byte) :
  binary.LittleEndian.Uint32 (b0 :: b1 :: b2 :: b3 :: t) = le_combine [b0; b1; b2; b3].
Proof.
  cbv [binary.LittleEndian.Uint32 le_combine].
  rewrite Z.shiftl_0_l, Z.lor_0_r.
  rewrite !Z.shiftl_lor, !Z.shiftl_shiftl by lia.
  rewrite !Z.lor_assoc. reflexivity.
Qed.

Lemma length_PutUint32 (v : Z) : List.length (binary.LittleEndian.PutUint32 v) = 4%nat.
Proof. reflexivity. Qed.

Lemma Uint32_PutUint32 (v : Z) (t : list byte) :
  binary.LittleEndian.Uint32 (binary.LittleEndian.PutUint32 v ++ t) = uint32 v.
Proof.
  unfold binary.LittleEndian.PutUint32. cbn [app].
  rewrite Uint32_le_combine.
  change [byte.of_Z v; byte.of_Z (Z.shiftr v 8); byte.of_Z (Z.shiftr v 16);
          byte.of_Z (Z.shiftr v 24)] with (binary.LittleEndian.PutUint32 v).
  rewrite PutUint32_le_split, le_combine_split. reflexivity.
Qed.

Lemma uint32_small (v : Z) : 0 <= v < 2 ^ 32 -> uint32 v = v.
Proof. intros H. unfold uint32. apply Z.mod_small. exact H. Qed.

(** ** Prefixes *)

Lemma Equal_true (a b : list byte) : bytes.Equal a b = true <-> a = b.
Proof.
  unfold bytes.Equal. destruct (list_eq_dec Byte.byte_eq_dec a b); split;
    congruence.
Qed.

Lemma HasPrefix_app (p t : list byte) : bytes.HasPrefix (p ++ t) p = true.
Proof.
  unfold bytes.HasPrefix. apply andb_true_iff. split.
  - apply Z.leb_le. rewrite len_app. pose proof (len_nonneg t). lia.
  - apply Equal_true. rewrite firstn_app, firstn_all, Nat.sub_diag. simpl.
    apply app_nil_r.
Qed.

Lemma HasPrefix_false (s p : list byte) :
  firstn (List.length p) s <> p -> bytes.HasPrefix s p = false.
Proof.
  intros H. unfold bytes.HasPrefix. apply andb_false_iff. right.
  destruct (bytes.Equal _ _) eqn:E; [|reflexivity].
  apply Equal_true in E. contradiction.
Qed.

Lemma CutPrefix_app (p t : list byte) : bytes.CutPrefix (p ++ t) p = (t, true).
Proof.
  unfold bytes.CutPrefix. rewrite HasPrefix_app. simpl.
  rewrite skipn_app, skipn_all, Nat.sub_diag. reflexivity.
Qed.

(** ** Compress, step by step *)

Section CompressFacts.

Context {rt : Runtime} (c : lz4.BlockCodec).

Lemma make_zero_wf (n : Z) : 0 <= n -> wf {| array := zeros n; length_ := 0 |}.
Proof. intros H. unfold wf, cap. cbn [array length_]. rewrite len_zeros; lia. Qed.

Lemma framed_facts (d : list byte) :
  0 <= len mozlz4.HEADER + 4 + lz4.CompressBlockBound c (len d) ->
  wf (mozlz4.framed c d) /\ elems (mozlz4.framed c d) = mozlz4.frame_header d /\
  length_ (mozlz4.framed c d) = 12.
Proof.
  intros H0. pose proof (make_zero_wf _ H0) as W0.
  pose proof (append_wf _ mozlz4.HEADER W0) as W1.
  unfold mozlz4.framed, binary.Append.
  cbn [binary.intDataSize binary.encodeFast Z.eqb negb fst]. repeat split.
  - apply append_wf; exact W1.
  - apply append_wf; exact W1.
  - rewrite append_elems by exact W1. rewrite append_elems by exact W0.
    reflexivity.
  - rewrite !append_length. reflexivity.
Qed.

Lemma framed_spare (d : list byte) :
  0 <= lz4.CompressBlockBound c (len d) ->
  spare (mozlz4.framed c d) = zeros (lz4.CompressBlockBound c (len d)) /\
  cap (mozlz4.framed c d) = 12 + lz4.CompressBlockBound c (len d).
Proof.
  intros Hb.
  assert (H0 : 0 <= len mozlz4.HEADER + 4 + lz4.CompressBlockBound c (len d))
    by (change (len mozlz4.HEADER) with 8; lia).
  pose proof (make_zero_wf _ H0) as W0.
  pose proof (append_wf _ mozlz4.HEADER W0) as W1.
  assert (C0 : cap {| array := zeros (len mozlz4.HEADER + 4 + lz4.CompressBlockBound c (len d));
                      length_ := 0 |} = 12 + lz4.CompressBlockBound c (len d)).
  { unfold cap. cbn [array]. rewrite len_zeros by exact H0.
    change (len mozlz4.HEADER) with 8. lia. }
  assert (F0 : 0 + len mozlz4.HEADER <= 12 + lz4.CompressBlockBound c (len d))
    by (change (len mozlz4.HEADER) with 8; lia).
  unfold mozlz4.framed, binary.Append.
  cbn [binary.intDataSize binary.encodeFast Z.eqb negb fst].
  set (s0 := {| array := zeros _; length_ := 0 |}) in *.
  assert (C1 : cap (append s0 mozlz4.HEADER) = 12 + lz4.CompressBlockBound c (len d)).
  { rewrite append_cap; [exact C0 | exact W0 | rewrite C0; exact F0]. }
  assert (F1 : length_ (append s0 mozlz4.HEADER)
               + len (binary.LittleEndian.PutUint32 (uint32 (len d)))
               <= cap (append s0 mozlz4.HEADER)).
  { rewrite C1, append_length. subst s0. cbn [length_].
    change (len mozlz4.HEADER) with 8.
    change (len (binary.LittleEndian.PutUint32 _)) with 4. lia. }
  split.
  - rewrite append_spare by assumption.
    rewrite append_spare by (try assumption; rewrite C0; exact F0).
    subst s0. unfold spare. cbn [array length_].
    rewrite !skipn_skipn.
    change (List.length (binary.LittleEndian.PutUint32 _)
            + List.length mozlz4.HEADER + Z.to_nat 0)%nat with (Z.to_nat 12).
    rewrite skipn_zeros by lia. f_equal. change (len mozlz4.HEADER) with 8. lia.
  - rewrite append_cap by assumption. exact C1.
Qed.

Lemma Compress_cases (d : list byte) :
  mozlz4.Compress c d =
  if len mozlz4.HEADER + 4 + lz4.CompressBlockBound c (len d) <? 0 then ([], Panic)
  else
    let s := mozlz4.framed c d in
    if len d =? 0 then ([], Done (Some (elems s), None))
    else
      let '(n, err, dst) := lz4.CompressBlock c d (spare s) in
      ([call_CompressBlock d (spare s)],
       match err with
       | Some e => Done (None, Some e)
       | None =>
           if (12 + n <? 0) || (cap s <? 12 + n) then Panic
           else Done (Some (firstn (Z.to_nat (12 + n))
                              (elems s ++ written (spare s) dst)), None)
       end).
Proof.
  unfold mozlz4.Compress, make. rewrite Z.ltb_irrefl, orb_false_l.
  destruct (_ <? 0) eqn:Hcap; [reflexivity|]. apply Z.ltb_ge in Hcap.
  destruct (framed_facts d Hcap) as (W & E & L).
  unfold ret, bind.
  set (s := mozlz4.framed c d) in *.
  change (binary.Append _ _) with (s, @None error). cbv iota.
  destruct (len d =? 0); cbn [negb]; [reflexivity|].
  unfold lz4.call_CompressBlock.
  destruct (lz4.CompressBlock c d (spare s)) as [[n [e|]] dst]; [reflexivity|].
  unfold reslice, ret. cbn [length_ with_spare]. rewrite with_spare_cap, L.
  destruct ((12 + n <? 0) || (cap s <? 12 + n)); [reflexivity|].
  unfold elems at 1. cbn [array length_ app]. reflexivity.
Qed.

End CompressFacts.

(** ** Decompress, step by step *)

Lemma Uint32_nonneg (b : list byte) : 0 <= binary.LittleEndian.Uint32 b.
Proof.
  destruct b as [|b0 [|b1 [|b2 [|b3 t]]]]; try (simpl; lia).
  unfold binary.LittleEndian.Uint32.
  pose proof (byte.unsigned_range b0). pose proof (byte.unsigned_range b1).
  pose proof (byte.unsigned_range b2). pose proof (byte.unsigned_range b3).
  repeat (apply Z.lor_nonneg; split); try apply Z.shiftl_nonneg; lia.
Qed.

Section DecompressFacts.

Context {rt : Runtime} (c : lz4.BlockCodec).

Lemma Decompress_cases (data : list byte) :
  mozlz4.Decompress c data =
  if negb (bytes.HasPrefix data mozlz4.HEADER)
  then ([], Done (None, Some mozlz4.ErrInvalid))
  else
    let t := skipn 8 data in
    if len t <? 4 then ([], Done (None, Some mozlz4.ErrInvalid))
    else
      let size := binary.LittleEndian.Uint32 t in
      let payload := skipn 4 t in
      if size =? 0 then ([], Done (Some [], None))
      else
        let '(n, err, dst) := lz4.UncompressBlock c payload (zeros size) in
        ([call_UncompressBlock payload (zeros size)],
         match err with
         | Some e => Done (None, Some e)
         | None =>
             if negb (uint32 n =? size) then Done (None, Some (mozlz4.mismatch size n))
             else Done (Some (written (zeros size) dst), None)
         end).
Proof.
  unfold mozlz4.Decompress, bytes.CutPrefix.
  destruct (negb (bytes.HasPrefix data mozlz4.HEADER)); cbn [negb]; [reflexivity|].
  change (List.length mozlz4.HEADER) with 8%nat.
  set (t := skipn 8 data). unfold binary.Decode.
  destruct (len t <? 4); [reflexivity|].
  change (Z.to_nat 4) with 4%nat.
  pose proof (Uint32_nonneg t) as Hs.
  set (size := binary.LittleEndian.Uint32 t) in *.
  destruct (size =? 0); [reflexivity|].
  unfold make. replace (size <? 0) with false by (symmetry; apply Z.ltb_ge; lia).
  rewrite Z.ltb_irrefl. cbn [orb]. unfold ret, bind, lz4.call_UncompressBlock.
  change (elems {| array := zeros size; length_ := size |})
    with (firstn (Z.to_nat size) (zeros size)).
  rewrite firstn_zeros_all.
  destruct (lz4.UncompressBlock c (skipn 4 t) (zeros size)) as [[n [e|]] dst];
    [reflexivity|].
  destruct (negb (uint32 n =? size)); [reflexivity|].
  cbn [app].
  assert (Hel : elems (with_elems {| array := zeros size; length_ := size |} dst)
                = written (zeros size) dst).
  { unfold with_elems, spare. cbn [array length_].
    change (elems {| array := zeros size; length_ := size |})
      with (firstn (Z.to_nat size) (zeros size)).
    rewrite firstn_zeros_all.
    rewrite skipn_all2 by (rewrite length_zeros; lia).
    rewrite app_nil_r. unfold elems. cbn [array length_].
    rewrite <- (length_zeros size).
    rewrite <- (written_length (zeros size) dst) at 1. apply firstn_all. }
  rewrite Hel. reflexivity.
Qed.

End DecompressFacts.

(** * Specification of [Compress] and [Decompress] *)

Section Decompress.

Context {rt : Runtime} (c : lz4.BlockCodec).

Lemma Decompress_after_header (t : list byte) :
  mozlz4.Decompress c (mozlz4.HEADER ++ t) =
  if len t <? 4 then ([], Done (None, Some mozlz4.ErrInvalid))
  else
    let size := binary.LittleEndian.Uint32 t in
    if size =? 0 then ([], Done (Some [], None))
    else
      let '(n, err, dst) := lz4.UncompressBlock c (skipn 4 t) (zeros size) in
      ([call_UncompressBlock (skipn 4 t) (zeros size)],
       match err with
       | Some e => Done (None, Some e)
       | None =>
           if negb (uint32 n =? size) then Done (None, Some (mozlz4.mismatch size n))
           else Done (Some (written (zeros size) dst), None)
       end).
Proof.
  rewrite Decompress_cases, HasPrefix_app. cbn [negb].
  change (skipn 8 (mozlz4.HEADER ++ t)) with t. reflexivity.
Qed.

Lemma Decompress_after_size (S : Z) (t : list byte) :
  mozlz4.Decompress c (mozlz4.HEADER ++ binary.LittleEndian.PutUint32 S ++ t) =
  if uint32 S =? 0 then ([], Done (Some [], None))
  else
    let '(n, err, dst) := lz4.UncompressBlock c t (zeros (uint32 S)) in
    ([call_UncompressBlock t (zeros (uint32 S))],
     match err with
     | Some e => Done (None, Some e)
     | None =>
         if negb (uint32 n =? uint32 S)
         then Done (None, Some (mozlz4.mismatch (uint32 S) n))
         else Done (Some (written (zeros (uint32 S)) dst), None)
     end).
Proof.
  rewrite Decompress_after_header, Uint32_PutUint32.
  replace (len (binary.LittleEndian.PutUint32 S ++ t) <? 4) with false.
  - change (skipn 4 (binary.LittleEndian.PutUint32 S ++ t)) with t. reflexivity.
  - symmetry. apply Z.ltb_ge. rewrite len_app.
    change (len (binary.LittleEndian.PutUint32 S)) with 4.
    pose proof (len_nonneg t). lia.
Qed.

(** C4. A buffer whose first 8 bytes are not [HEADER] - one shorter than 8
    bytes, the empty one among them, or one that differs from [HEADER]
    within its first 8 bytes - is rejected with [ErrInvalid], and the
    block codec is not called. *)
Theorem Decompress_rejects_bad_magic (data : list byte) :
  len data < 8 \/ firstn 8 data <> mozlz4.HEADER ->
  mozlz4.Decompress c data = ([], Done (None, Some mozlz4.ErrInvalid)).
Proof.
  intros H. rewrite Decompress_cases, HasPrefix_false; [reflexivity|].
  change (List.length mozlz4.HEADER) with 8%nat.
  destruct H as [H | H]; [|exact H].
  intros E. apply (f_equal (@List.length byte)) in E.
  rewrite length_firstn in E. change (List.length mozlz4.HEADER) with 8%nat in E.
  unfold len in H. lia.
Qed.

(** C5. [HEADER] followed by fewer than 4 bytes - by none, or by 1 to 3 -
    is rejected with [ErrInvalid]. *)
Theorem Decompress_rejects_truncated_size (t : list byte) :
  len t < 4 ->
  mozlz4.Decompress c (mozlz4.HEADER ++ t) = ([], Done (None, Some mozlz4.ErrInvalid)).
Proof.
  intros H. rewrite Decompress_after_header.
  apply Z.ltb_lt in H. rewrite H. reflexivity.
Qed.

(** C6. [HEADER ++ 00 00 00 00 ++ t] decodes to the empty byte sequence,
    whatever the trailing bytes [t] and whatever the block codec: the
    call log is empty, so the block decompressor is not run and [t] is not
    looked at. *)
Theorem Decompress_zero_size (t : list byte) :
  mozlz4.Decompress c (mozlz4.HEADER ++ [Byte.x00; Byte.x00; Byte.x00; Byte.x00] ++ t)
  = ([], Done (Some [], None)).
Proof.
  change [Byte.x00; Byte.x00; Byte.x00; Byte.x00] with (binary.LittleEndian.PutUint32 0).
  rewrite Decompress_after_size. reflexivity.
Qed.

(** C3, amended. What [Decompress] does with a buffer
    [HEADER ++ le32(S) ++ t] depends on the block decompressor run on [t]
    with a destination of [S] bytes, not on the length [t] decompresses to
    when given room. If [S = 0] the decompressor is not run and the result
    is the empty byte sequence. If [S <> 0] it is run once: an error it
    returns (as lz4 does when [t] holds more than [S] bytes) is returned as
    it is; and when it returns no error and a count [n] with
    [uint32(n) <> S] (as lz4 does when [t] holds fewer than [S] bytes) the
    buffer is rejected with the error whose text is
    "uncompressed size mismatch: expected S, but got n". *)
Theorem Decompress_size_mismatch (S : Z) (t : list byte) :
  0 <= S < 2 ^ 32 ->
  (S = 0 ->
   mozlz4.Decompress c (mozlz4.HEADER ++ binary.LittleEndian.PutUint32 S ++ t)
   = ([], Done (Some [], None)))
  /\ (S <> 0 ->
      forall n e dst,
        lz4.UncompressBlock c t (zeros S) = (n, Some e, dst) ->
        mozlz4.Decompress c (mozlz4.HEADER ++ binary.LittleEndian.PutUint32 S ++ t)
        = ([call_UncompressBlock t (zeros S)], Done (None, Some e)))
  /\ (S <> 0 ->
      forall n dst,
        lz4.UncompressBlock c t (zeros S) = (n, None, dst) ->
        uint32 n <> S ->
        mozlz4.Decompress c (mozlz4.HEADER ++ binary.LittleEndian.PutUint32 S ++ t)
        = ([call_UncompressBlock t (zeros S)], Done (None, Some (mozlz4.mismatch S n)))
        /\ Error (mozlz4.mismatch S n)
           = ("uncompressed size mismatch: expected " ++ fmt.v S
              ++ ", but got " ++ fmt.v n)%string).
Proof.
  intros HS. rewrite Decompress_after_size, uint32_small by exact HS.
  split; [|split].
  - intros ->. reflexivity.
  - intros H0 n e dst Hu.
    replace (S =? 0) with false by (symmetry; apply Z.eqb_neq; exact H0).
    rewrite Hu. reflexivity.
  - intros H0 n dst Hu Hn. split; [|apply Error_mismatch].
    replace (S =? 0) with false by (symmetry; apply Z.eqb_neq; exact H0).
    rewrite Hu. apply Z.eqb_neq in Hn. rewrite Hn. reflexivity.
Qed.

End Decompress.

Lemma firstn_past_header (h w : list byte) (n : Z) :
  len h = 12 -> 0 <= n ->
  firstn (Z.to_nat (12 + n)) (h ++ w) = h ++ firstn (Z.to_nat n) w.
Proof.
  intros Hh Hn. unfold len in Hh. rewrite firstn_app.
  rewrite firstn_all2 by lia. f_equal. f_equal. lia.
Qed.

Section Compress.

Context {rt : Runtime} (c : lz4.BlockCodec).

Lemma len_header (d : list byte) : len (mozlz4.frame_header d) = 12.
Proof. reflexivity. Qed.

(** [Compress] when the bound is a size: the destination of the block
    compressor is the zeroed room of that size. *)
Lemma Compress_bound_ok (d : list byte) :
  let b := lz4.CompressBlockBound c (len d) in
  0 <= b ->
  mozlz4.Compress c d =
  if len d =? 0 then ([], Done (Some (mozlz4.frame_header d), None))
  else
    let '(n, err, dst) := lz4.CompressBlock c d (zeros b) in
    ([call_CompressBlock d (zeros b)],
     match err with
     | Some e => Done (None, Some e)
     | None =>
         if (12 + n <? 0) || (12 + b <? 12 + n) then Panic
         else Done (Some (firstn (Z.to_nat (12 + n))
                            (mozlz4.frame_header d ++ written (zeros b) dst)), None)
     end).
Proof.
  intros b Hb. rewrite Compress_cases.
  assert (H0 : 0 <= len mozlz4.HEADER + 4 + lz4.CompressBlockBound c (len d))
    by (change (len mozlz4.HEADER) with 8; fold b; lia).
  destruct (framed_facts c d H0) as (_ & E & _).
  destruct (framed_spare c d Hb) as (Sp & Ca).
  replace (_ <? 0) with false by (symmetry; apply Z.ltb_ge; exact H0).
  cbv zeta. rewrite E, Sp, Ca. reflexivity.
Qed.

Lemma Compress_accepted (d : list byte) (n : Z) (dst : list byte) :
  let b := lz4.CompressBlockBound c (len d) in
  d <> [] -> 0 <= b ->
  lz4.CompressBlock c d (zeros b) = (n, None, dst) -> 0 <= n <= b ->
  mozlz4.Compress c d =
  ([call_CompressBlock d (zeros b)],
   Done (Some (mozlz4.frame_header d ++ firstn (Z.to_nat n) (written (zeros b) dst)), None)).
Proof.
  intros b Hd Hb Hc Hn. rewrite Compress_bound_ok by exact Hb. fold b.
  replace (len d =? 0) with false
    by (symmetry; apply Z.eqb_neq; intros E; apply len_zero_nil in E; contradiction).
  rewrite Hc.
  replace ((12 + n <? 0) || (12 + b <? 12 + n)) with false.
  - rewrite firstn_past_header by (try apply len_header; lia). reflexivity.
  - symmetry. apply orb_false_iff. split; apply Z.ltb_ge; lia.
Qed.

(** C7. On the empty input [Compress] returns the 12 bytes
    [6d 6f 7a 4c 7a 34 30 00 00 00 00 00], [HEADER] followed by four zero
    bytes, with an empty call log: the block compressor is not run.
    [Decompress] of these 12 bytes returns the empty byte sequence. The
    capacity handed to [make] must not be negative. *)
Theorem Compress_empty :
  0 <= len mozlz4.HEADER + 4 + lz4.CompressBlockBound c 0 ->
  mozlz4.Compress c []
  = ([], Done (Some [Byte.x6d; Byte.x6f; Byte.x7a; Byte.x4c; Byte.x7a; Byte.x34;
                     Byte.x30; Byte.x00; Byte.x00; Byte.x00; Byte.x00; Byte.x00],
               None))
  /\ mozlz4.Decompress c [Byte.x6d; Byte.x6f; Byte.x7a; Byte.x4c; Byte.x7a; Byte.x34;
                          Byte.x30; Byte.x00; Byte.x00; Byte.x00; Byte.x00; Byte.x00]
     = ([], Done (Some [], None)).
Proof.
  intros H0. split.
  - rewrite Compress_cases. change (len []) with 0.
    replace (_ <? 0) with false by (symmetry; apply Z.ltb_ge; exact H0).
    cbv zeta. rewrite Z.eqb_refl.
    destruct (framed_facts c [] H0) as (_ & E & _). rewrite E. reflexivity.
  - exact (Decompress_zero_size c []).
Qed.

(** C8. When [Compress] succeeds on an input [d] shorter than [2^32]
    bytes, its output is [HEADER], then [len(d)] as a little-endian
    [uint32], then the compressed payload: the first 12 bytes are that
    header, the size field reads back as [len(d)], and the output is
    [12 + compressedLen] bytes long, [compressedLen] being the count the
    block compressor returned (a count of bytes, so not negative). *)
Theorem Compress_framing (d : list byte) (tr : list call) (out : list byte) :
  len d < 2 ^ 32 ->
  0 <= mozlz4.compressedLen c d ->
  mozlz4.Compress c d = (tr, Done (Some out, None)) ->
  firstn 12 out = mozlz4.HEADER ++ binary.LittleEndian.PutUint32 (len d)
  /\ binary.LittleEndian.Uint32 (skipn 8 out) = len d
  /\ len out = 12 + mozlz4.compressedLen c d.
Proof.
  intros Hlen Hn. rewrite Compress_cases. unfold mozlz4.compressedLen in *.
  destruct (_ <? 0) eqn:H0; [discriminate|]. apply Z.ltb_ge in H0. cbv zeta.
  destruct (framed_facts c d H0) as (W & E & L).
  assert (Hu : uint32 (len d) = len d)
    by (apply uint32_small; pose proof (len_nonneg d); lia).
  assert (Hfield : forall w,
             binary.LittleEndian.Uint32 (skipn 8 (mozlz4.frame_header d ++ w)) = len d).
  { intros w. unfold mozlz4.frame_header. rewrite <- !app_assoc.
    change (skipn 8 (mozlz4.HEADER ++ ?x)) with x.
    rewrite Uint32_PutUint32, Hu. exact Hu. }
  destruct (len d =? 0).
  - intros H. assert (Ho : elems (mozlz4.framed c d) = out) by congruence.
    clear H. subst out. rewrite E. unfold mozlz4.frame_header. rewrite Hu.
    repeat split.
    rewrite <- (app_nil_r (mozlz4.HEADER ++ _)).
    fold (mozlz4.frame_header d) in Hfield. unfold mozlz4.frame_header in Hfield. rewrite Hu in Hfield.
    apply Hfield.
  - destruct (lz4.CompressBlock c d (spare (mozlz4.framed c d))) as [[n [e|]] dst];
      [discriminate|]. cbn [fst] in Hn.
    destruct ((12 + n <? 0) || (cap (mozlz4.framed c d) <? 12 + n)) eqn:Hp;
      [discriminate|].
    apply orb_false_iff in Hp. destruct Hp as [_ Hp]. apply Z.ltb_ge in Hp.
    intros H.
    match type of H with
    | (_, Done (Some ?x, None)) = _ => assert (Ho : x = out) by congruence
    end.
    clear H. subst out.
    rewrite E, firstn_past_header by (try apply len_header; lia).
    cbn [fst]. repeat split.
    + unfold mozlz4.frame_header. rewrite Hu. rewrite <- app_assoc. reflexivity.
    + apply Hfield.
    + rewrite len_app.
      change (len (mozlz4.HEADER ++ binary.LittleEndian.PutUint32 (uint32 (len d))))
        with 12.
      f_equal. unfold len. rewrite length_firstn, written_length.
      pose proof (len_spare _ W) as Hs. unfold len in Hs. lia.
Qed.

End Compress.

Section Errors.

Context {rt : Runtime} (c : lz4.BlockCodec).

Lemma Compress_error (d : list byte) (tr : list call) (o : option (list byte))
      (e : error) :
  mozlz4.Compress c d = (tr, Done (o, Some e)) ->
  o = None /\ d <> [] /\
  exists dst n dst',
    tr = [call_CompressBlock d dst] /\
    lz4.CompressBlock c d dst = (n, Some e, dst').
Proof.
  rewrite Compress_cases. destruct (_ <? 0); [discriminate|]. cbv zeta.
  destruct (len d =? 0) eqn:Hd; [discriminate|].
  destruct (lz4.CompressBlock c d (spare (mozlz4.framed c d)))
    as [[n [e'|]] dst'] eqn:Hc.
  - intros H. assert (e' = e) by congruence. subst e'.
    repeat split; [congruence | |].
    + intros ->. discriminate.
    + exists (spare (mozlz4.framed c d)), n, dst'. split; [congruence | exact Hc].
  - destruct (_ || _); discriminate.
Qed.

Lemma Decompress_error (data : list byte) (tr : list call)
      (o : option (list byte)) (e : error) :
  mozlz4.Decompress c data = (tr, Done (o, Some e)) -> o = None.
Proof.
  rewrite Decompress_cases. destruct (negb _); [congruence|]. cbv zeta.
  destruct (_ <? 4); [congruence|]. destruct (_ =? 0); [congruence|].
  destruct (lz4.UncompressBlock c _ _) as [[n [e'|]] dst]; [congruence|].
  destruct (negb _); congruence.
Qed.

(** C9. When [Compress] or [Decompress] returns an error, the byte slice
    it returns with it is [nil]. *)
Theorem error_returns_nil (data : list byte) (tr : list call)
        (o : option (list byte)) (e : error) :
  mozlz4.Compress c data = (tr, Done (o, Some e))
  \/ mozlz4.Decompress c data = (tr, Done (o, Some e)) ->
  o = None.
Proof.
  intros [H | H].
  - apply (Compress_error data tr o e H).
  - apply (Decompress_error data tr o e H).
Qed.

(** C10. [binary.Append] of a [uint32] returns no error, so the branch
    after it is dead; [Compress] returns an error only if the block
    compressor, which it then has called, returned that error; and on an
    input that the block compressor accepts [Compress] returns a
    container and no error. *)
Theorem Compress_fails_only_in_block_compressor (d : list byte) :
  (forall buf v, snd (binary.Append buf (binary.any_uint32 v)) = None)
  /\ (forall tr o e,
        mozlz4.Compress c d = (tr, Done (o, Some e)) ->
        exists dst n dst',
          tr = [call_CompressBlock d dst] /\
          lz4.CompressBlock c d dst = (n, Some e, dst'))
  /\ (contract.accepts c d ->
      exists tr out, mozlz4.Compress c d = (tr, Done (Some out, None))).
Proof.
  split; [reflexivity|]. split.
  - intros tr o e H. apply (Compress_error d tr o e H).
  - intros [Hb Hacc]. destruct d as [|x d'].
    + exists [], (mozlz4.HEADER ++ binary.LittleEndian.PutUint32 (uint32 (len []))).
      rewrite Compress_bound_ok by exact Hb. reflexivity.
    + destruct Hacc as (n & dst & Hc & Hn); [discriminate|].
      eexists. eexists. apply (Compress_accepted c (x :: d') n dst);
        [discriminate | exact Hb | exact Hc | exact Hn].
Qed.

(** C2, amended. [Compress] makes no check of the length and has no error
    for it. On an input longer than [2^32 - 1] bytes it writes
    [len(d) mod 2^32] into the size field and runs the block compressor on
    the whole input; if that returns an error, [Compress] returns it and
    no container, and otherwise [Compress] returns a container. *)
Theorem Compress_oversized_input (d : list byte) :
  let b := lz4.CompressBlockBound c (len d) in
  2 ^ 32 - 1 < len d ->
  0 <= b ->
  (forall n e dst,
      lz4.CompressBlock c d (zeros b) = (n, Some e, dst) ->
      mozlz4.Compress c d = ([call_CompressBlock d (zeros b)], Done (None, Some e)))
  /\ (forall n dst,
        lz4.CompressBlock c d (zeros b) = (n, None, dst) -> 0 <= n <= b ->
        mozlz4.Compress c d
        = ([call_CompressBlock d (zeros b)],
           Done (Some (mozlz4.HEADER
                       ++ binary.LittleEndian.PutUint32 (len d mod 2 ^ 32)
                       ++ firstn (Z.to_nat n) (written (zeros b) dst)), None))).
Proof.
  intros b Hlen Hb.
  assert (Hd : d <> []) by (intros ->; change (len []) with 0 in Hlen; lia).
  split.
  - intros n e dst Hc. rewrite Compress_bound_ok by exact Hb. fold b.
    replace (len d =? 0) with false by (symmetry; apply Z.eqb_neq; lia).
    rewrite Hc. reflexivity.
  - intros n dst Hc Hn.
    rewrite (Compress_accepted c d n dst Hd Hb Hc Hn).
    unfold mozlz4.frame_header. rewrite <- app_assoc. reflexivity.
Qed.

(** C1. For an input [d] shorter than [2^32] bytes that the block codec
    round-trips, [Compress] returns a container and [Decompress] of that
    container returns [d]. *)
Theorem Decompress_Compress (d : list byte) :
  len d < 2 ^ 32 ->
  contract.roundtrip c d ->
  exists tr out tr',
    mozlz4.Compress c d = (tr, Done (Some out, None))
    /\ mozlz4.Decompress c out = (tr', Done (Some d, None)).
Proof.
  intros Hlen [Hb Hrt].
  assert (Hu : uint32 (len d) = len d)
    by (apply uint32_small; pose proof (len_nonneg d); lia).
  destruct d as [|x d'].
  - exists [], (mozlz4.HEADER ++ binary.LittleEndian.PutUint32 0), []. split.
    + rewrite Compress_bound_ok by exact Hb. reflexivity.
    + exact (Decompress_zero_size c []).
  - destruct Hrt as (n & dst & Hc & Hn & Hun); [discriminate|].
    set (d := x :: d') in *.
    assert (Hpos : 0 < len d) by (unfold len, d; simpl; lia).
    eexists. eexists. eexists. split.
    + apply (Compress_accepted c d n dst); [discriminate | exact Hb | exact Hc | exact Hn].
    + unfold mozlz4.frame_header.
      rewrite <- app_assoc, Decompress_after_size, !Hu.
      replace (len d =? 0) with false by (symmetry; apply Z.eqb_neq; lia).
      rewrite Hun, Hu, Z.eqb_refl. cbn [negb].
      rewrite (written_same_length (zeros (len d)) d)
        by (rewrite length_zeros; unfold len; rewrite Nat2Z.id; reflexivity).
      reflexivity.
Qed.

End Errors.

(** ** The storing codec *)

Lemma store_bound (n : Z) : 0 <= n -> n <= lz4.CompressBlockBound fake.store n.
Proof.
  intros H. cbn [lz4.CompressBlockBound fake.store].
  pose proof (Z.div_pos n 255 H ltac:(lia)). lia.
Qed.

Lemma store_CompressBlock (d : list byte) :
  let b := lz4.CompressBlockBound fake.store (len d) in
  lz4.CompressBlock fake.store d (zeros b)
  = (len d, None, d ++ skipn (List.length d) (zeros b)).
Proof.
  intros b. cbn [lz4.CompressBlock fake.store]. unfold fake.copy.
  pose proof (store_bound (len d) (len_nonneg d)) as Hb. fold b in Hb.
  rewrite len_zeros by (pose proof (len_nonneg d); lia).
  apply Z.leb_le in Hb. rewrite Hb. reflexivity.
Qed.

Lemma Compress_store (d : list byte) :
  d <> [] ->
  mozlz4.Compress (rt := fake.exact) fake.store d
  = ([call_CompressBlock d (zeros (lz4.CompressBlockBound fake.store (len d)))],
     Done (Some (mozlz4.HEADER ++ binary.LittleEndian.PutUint32 (uint32 (len d)) ++ d),
           None)).
Proof.
  intros Hd. pose proof (len_nonneg d) as Hl.
  pose proof (store_bound (len d) Hl) as Hb.
  assert (H0 : 0 <= lz4.CompressBlockBound fake.store (len d)) by lia.
  assert (Hn : 0 <= len d <= lz4.CompressBlockBound fake.store (len d)) by lia.
  rewrite (Compress_accepted fake.store d (len d) _ Hd H0 (store_CompressBlock d) Hn).
  replace (Z.to_nat (len d)) with (List.length d)
    by (unfold len; rewrite Nat2Z.id; reflexivity).
  rewrite firstn_written_prefix
    by (rewrite length_zeros; unfold len in *; lia).
  unfold mozlz4.frame_header. rewrite <- app_assoc. reflexivity.
Qed.

(** An input of [2^32] zero bytes. *)
Lemma len_oversized : len (zeros (2 ^ 32)) = 2 ^ 32.
Proof. apply len_zeros. lia. Qed.

(** * The theorems at concrete inputs *)

Lemma Decompress_Compress_witness :
  len [Byte.x7b; Byte.x7d] < 2 ^ 32
  /\ contract.roundtrip fake.store [Byte.x7b; Byte.x7d]
  /\ exists tr out tr',
       mozlz4.Compress (rt := fake.exact) fake.store [Byte.x7b; Byte.x7d]
       = (tr, Done (Some out, None))
       /\ mozlz4.Decompress fake.store out = (tr', Done (Some [Byte.x7b; Byte.x7d], None)).
Proof.
  assert (Hlen : len [Byte.x7b; Byte.x7d] < 2 ^ 32) by reflexivity.
  assert (Hrt : contract.roundtrip fake.store [Byte.x7b; Byte.x7d]).
  { split; [vm_compute; discriminate|]. intros _.
    exists 2, ([Byte.x7b; Byte.x7d] ++ zeros 16). repeat split; vm_compute; discriminate. }
  split; [exact Hlen|]. split; [exact Hrt|].
  exact (@Decompress_Compress fake.exact fake.store [Byte.x7b; Byte.x7d] Hlen Hrt).
Defined.

(** C2 fails on an input of [2^32] bytes: [Compress] returns no error but a
    container, whose size field is zero. *)
Lemma Compress_accepts_oversized_input :
  2 ^ 32 - 1 < len (zeros (2 ^ 32))
  /\ mozlz4.Compress (rt := fake.exact) fake.store (zeros (2 ^ 32))
     = ([call_CompressBlock (zeros (2 ^ 32))
           (zeros (lz4.CompressBlockBound fake.store (2 ^ 32)))],
        Done (Some (mozlz4.HEADER ++ [Byte.x00; Byte.x00; Byte.x00; Byte.x00]
                    ++ zeros (2 ^ 32)), None)).
Proof.
  split; [rewrite len_oversized; lia|].
  assert (Hd : zeros (2 ^ 32) <> []).
  { intros E. apply (f_equal len) in E. rewrite len_oversized in E. discriminate E. }
  rewrite (Compress_store _ Hd), len_oversized.
  change (binary.LittleEndian.PutUint32 (uint32 (2 ^ 32)))
    with [Byte.x00; Byte.x00; Byte.x00; Byte.x00].
  reflexivity.
Qed.

Lemma Compress_oversized_input_witness :
  mozlz4.Compress (rt := fake.exact) fake.store (zeros (2 ^ 32))
  = ([call_CompressBlock (zeros (2 ^ 32))
        (zeros (lz4.CompressBlockBound fake.store (len (zeros (2 ^ 32)))))],
     Done (Some (mozlz4.HEADER
                 ++ binary.LittleEndian.PutUint32 (len (zeros (2 ^ 32)) mod 2 ^ 32)
                 ++ firstn (Z.to_nat (len (zeros (2 ^ 32))))
                      (written (zeros (lz4.CompressBlockBound fake.store
                                         (len (zeros (2 ^ 32)))))
                         (zeros (2 ^ 32)
                          ++ skipn (List.length (zeros (2 ^ 32)))
                               (zeros (lz4.CompressBlockBound fake.store
                                         (len (zeros (2 ^ 32)))))))), None)).
Proof.
  assert (Hlen : 2 ^ 32 - 1 < len (zeros (2 ^ 32))) by (rewrite len_oversized; lia).
  assert (Hb : 0 <= lz4.CompressBlockBound fake.store (len (zeros (2 ^ 32))))
    by (rewrite len_oversized; vm_compute; discriminate).
  assert (Hn : 0 <= len (zeros (2 ^ 32))
               <= lz4.CompressBlockBound fake.store (len (zeros (2 ^ 32))))
    by (rewrite len_oversized; vm_compute; split; discriminate).
  exact (proj2 (@Compress_oversized_input fake.exact fake.store (zeros (2 ^ 32)) Hlen Hb)
           _ _ (store_CompressBlock (zeros (2 ^ 32))) Hn).
Defined.

(** C3 fails whenever the payload decompresses to more bytes than the
    size field declares. The payload [20 7b 7d] is an LZ4 block that
    decompresses to the 2 bytes [7b 7d]. With the size field 0,
    [Decompress] returns the empty byte sequence and no error, without
    running the block decompressor; with the size field 1, the block
    decompressor, given a destination of 1 byte, fails, and [Decompress]
    returns its error, which is not the size mismatch. *)
Lemma Decompress_mismatch_not_reported :
  contract.decompresses_to fake.literals (hex "207b7d") 2
  /\ (2 <> 0
      /\ mozlz4.Decompress fake.literals
           (mozlz4.HEADER ++ binary.LittleEndian.PutUint32 0 ++ hex "207b7d")
         = ([], Done (Some [], None)))
  /\ (2 <> 1
      /\ mozlz4.Decompress fake.literals
           (mozlz4.HEADER ++ binary.LittleEndian.PutUint32 1 ++ hex "207b7d")
         = ([call_UncompressBlock (hex "207b7d") (zeros 1)],
            Done (None, Some fake.ErrInvalidSourceShortBuffer))
      /\ fake.ErrInvalidSourceShortBuffer <> mozlz4.mismatch 1 2).
Proof.
  split; [exists (hex "7b7d"); vm_compute; reflexivity|].
  split.
  - split; [discriminate | vm_compute; reflexivity].
  - split; [discriminate|]. split; [vm_compute; reflexivity | discriminate].
Qed.

Lemma Decompress_size_mismatch_witness :
  0 <= 3 < 2 ^ 32
  /\ mozlz4.Decompress fake.literals
       (mozlz4.HEADER ++ binary.LittleEndian.PutUint32 3 ++ hex "207b7d")
     = ([call_UncompressBlock (hex "207b7d") (zeros 3)],
        Done (None, Some (mozlz4.mismatch 3 2)))
  /\ Error (mozlz4.mismatch 3 2)
     = ("uncompressed size mismatch: expected " ++ fmt.v 3
        ++ ", but got " ++ fmt.v 2)%string
  /\ mozlz4.Decompress fake.literals
       (mozlz4.HEADER ++ binary.LittleEndian.PutUint32 1 ++ hex "207b7d")
     = ([call_UncompressBlock (hex "207b7d") (zeros 1)],
        Done (None, Some fake.ErrInvalidSourceShortBuffer))
  /\ mozlz4.Decompress fake.literals
       (mozlz4.HEADER ++ binary.LittleEndian.PutUint32 0 ++ hex "207b7d")
     = ([], Done (Some [], None)).
Proof.
  assert (H3 : 0 <= 3 < 2 ^ 32) by (split; [discriminate | reflexivity]).
  assert (H1 : 0 <= 1 < 2 ^ 32) by (split; [discriminate | reflexivity]).
  assert (H0 : 0 <= 0 < 2 ^ 32) by (split; [discriminate | reflexivity]).
  split; [exact H3|].
  destruct (Decompress_size_mismatch fake.literals 3 (hex "207b7d") H3) as (_ & _ & M).
  destruct (Decompress_size_mismatch fake.literals 1 (hex "207b7d") H1) as (_ & E & _).
  destruct (Decompress_size_mismatch fake.literals 0 (hex "207b7d") H0) as (Z0 & _ & _).
  assert (N3 : 3 <> 0) by discriminate.
  assert (N1 : 1 <> 0) by discriminate.
  assert (U3 : lz4.UncompressBlock fake.literals (hex "207b7d") (zeros 3)
               = (2, None, hex "7b7d00")) by (vm_compute; reflexivity).
  assert (D3 : uint32 2 <> 3) by (vm_compute; discriminate).
  assert (U1 : lz4.UncompressBlock fake.literals (hex "207b7d") (zeros 1)
               = (0, Some fake.ErrInvalidSourceShortBuffer, zeros 1))
    by (vm_compute; reflexivity).
  destruct (M N3 2 (hex "7b7d00") U3 D3) as [M1 M2].
  split; [exact M1|]. split; [exact M2|]. split.
  - exact (E N1 0 fake.ErrInvalidSourceShortBuffer (zeros 1) U1).
  - exact (Z0 eq_refl).
Defined.

Lemma Decompress_rejects_bad_magic_witness :
  mozlz4.Decompress fake.store [] = ([], Done (None, Some mozlz4.ErrInvalid))
  /\ mozlz4.Decompress fake.store
       [Byte.x6d; Byte.x6f; Byte.x7a; Byte.x4c; Byte.x7a; Byte.x34; Byte.x30]
     = ([], Done (None, Some mozlz4.ErrInvalid))
  /\ mozlz4.Decompress fake.store
       [Byte.x6d; Byte.x6f; Byte.x7a; Byte.x4c; Byte.x7a; Byte.x34; Byte.x30; Byte.x01;
        Byte.x00; Byte.x00; Byte.x00; Byte.x00]
     = ([], Done (None, Some mozlz4.ErrInvalid)).
Proof.
  split; [|split].
  - apply (Decompress_rejects_bad_magic fake.store []). left. reflexivity.
  - apply (Decompress_rejects_bad_magic fake.store
             [Byte.x6d; Byte.x6f; Byte.x7a; Byte.x4c; Byte.x7a; Byte.x34; Byte.x30]).
    left. reflexivity.
  - apply (Decompress_rejects_bad_magic fake.store
             [Byte.x6d; Byte.x6f; Byte.x7a; Byte.x4c; Byte.x7a; Byte.x34; Byte.x30;
              Byte.x01; Byte.x00; Byte.x00; Byte.x00; Byte.x00]).
    right. vm_compute. discriminate.
Defined.

Lemma Decompress_rejects_truncated_size_witness :
  mozlz4.Decompress fake.store (mozlz4.HEADER ++ [])
  = ([], Done (None, Some mozlz4.ErrInvalid))
  /\ mozlz4.Decompress fake.store (mozlz4.HEADER ++ [Byte.x02; Byte.x00; Byte.x00])
     = ([], Done (None, Some mozlz4.ErrInvalid)).
Proof.
  split.
  - apply (Decompress_rejects_truncated_size fake.store []). reflexivity.
  - apply (Decompress_rejects_truncated_size fake.store [Byte.x02; Byte.x00; Byte.x00]).
    reflexivity.
Defined.

Lemma Compress_empty_witness :
  mozlz4.Compress (rt := fake.exact) fake.store []
  = ([], Done (Some [Byte.x6d; Byte.x6f; Byte.x7a; Byte.x4c; Byte.x7a; Byte.x34;
                     Byte.x30; Byte.x00; Byte.x00; Byte.x00; Byte.x00; Byte.x00],
               None))
  /\ mozlz4.Decompress fake.store
       [Byte.x6d; Byte.x6f; Byte.x7a; Byte.x4c; Byte.x7a; Byte.x34;
        Byte.x30; Byte.x00; Byte.x00; Byte.x00; Byte.x00; Byte.x00]
     = ([], Done (Some [], None)).
Proof.
  apply (@Compress_empty fake.exact fake.store). vm_compute. discriminate.
Defined.

Lemma Compress_framing_witness :
  firstn 12 (mozlz4.HEADER ++ [Byte.x02; Byte.x00; Byte.x00; Byte.x00; Byte.x7b; Byte.x7d])
  = mozlz4.HEADER ++ binary.LittleEndian.PutUint32 (len [Byte.x7b; Byte.x7d])
  /\ binary.LittleEndian.Uint32
       (skipn 8 (mozlz4.HEADER
                 ++ [Byte.x02; Byte.x00; Byte.x00; Byte.x00; Byte.x7b; Byte.x7d]))
     = len [Byte.x7b; Byte.x7d]
  /\ len (mozlz4.HEADER ++ [Byte.x02; Byte.x00; Byte.x00; Byte.x00; Byte.x7b; Byte.x7d])
     = 12 + mozlz4.compressedLen (rt := fake.exact) fake.store [Byte.x7b; Byte.x7d].
Proof.
  apply (@Compress_framing fake.exact fake.store [Byte.x7b; Byte.x7d]
           [call_CompressBlock [Byte.x7b; Byte.x7d] (zeros 18)]).
  - reflexivity.
  - vm_compute. discriminate.
  - vm_compute. reflexivity.
Defined.

Lemma error_returns_nil_witness :
  fst (match snd (mozlz4.Compress (rt := fake.exact) fake.reject [Byte.x7b; Byte.x7d]) with
       | Done r => r
       | Panic => (Some [], None)
       end) = None
  /\ fst (match snd (mozlz4.Decompress fake.store [Byte.x6d]) with
          | Done r => r
          | Panic => (Some [], None)
          end) = None.
Proof.
  split.
  - apply (@error_returns_nil fake.exact fake.reject [Byte.x7b; Byte.x7d]
             [call_CompressBlock [Byte.x7b; Byte.x7d] (zeros 18)] _
             fake.ErrInvalidSourceShortBuffer).
    left. vm_compute. reflexivity.
  - apply (@error_returns_nil fake.exact fake.store [Byte.x6d] [] _ mozlz4.ErrInvalid).
    right. vm_compute. reflexivity.
Defined.

Lemma Compress_fails_only_in_block_compressor_witness :
  (exists dst n dst',
      [call_CompressBlock [Byte.x7b; Byte.x7d] (zeros 18)]
      = [call_CompressBlock [Byte.x7b; Byte.x7d] dst]
      /\ lz4.CompressBlock fake.reject [Byte.x7b; Byte.x7d] dst
         = (n, Some fake.ErrInvalidSourceShortBuffer, dst'))
  /\ (exists tr out,
         mozlz4.Compress (rt := fake.exact) fake.store [Byte.x7b; Byte.x7d]
         = (tr, Done (Some out, None))).
Proof.
  split.
  - apply (proj1 (proj2 (@Compress_fails_only_in_block_compressor fake.exact fake.reject
                           [Byte.x7b; Byte.x7d]))
             [call_CompressBlock [Byte.x7b; Byte.x7d] (zeros 18)] None
             fake.ErrInvalidSourceShortBuffer).
    vm_compute. reflexivity.
  - apply (proj2 (proj2 (@Compress_fails_only_in_block_compressor fake.exact fake.store
                           [Byte.x7b; Byte.x7d]))).
    split; [vm_compute; discriminate|]. intros _.
    exists 2, ([Byte.x7b; Byte.x7d] ++ zeros 16). split; [reflexivity|].
    split; vm_compute; discriminate.
Defined.

(** * The examples of the specification, run with the literal-run codec *)

Example encode_empty :
  mozlz4.Compress (rt := fake.exact) fake.literals (hex "")
  = ([], Done (Some (hex "6d6f7a4c7a34300000000000"), None)).
Proof. vm_compute. reflexivity. Qed.

Example encode_braces :
  snd (mozlz4.Compress (rt := fake.exact) fake.literals (list_byte_of_string "{}"))
  = Done (Some (hex "6d6f7a4c7a34300002000000207b7d"), None).
Proof. vm_compute. reflexivity. Qed.

Example encode_data :
  snd (mozlz4.Compress (rt := fake.exact) fake.literals
         (hex "7b2264617461223a20222e2e2e227d"))
  = Done (Some (hex "6d6f7a4c7a3430000f000000f0007b2264617461223a20222e2e2e227d"), None).
Proof. vm_compute. reflexivity. Qed.

Example decode_braces :
  snd (mozlz4.Decompress fake.literals (hex "6d6f7a4c7a34300002000000207b7d"))
  = Done (Some (list_byte_of_string "{}"), None).
Proof. vm_compute. reflexivity. Qed.

Example decode_truncated :
  mozlz4.Decompress fake.literals (hex "6d6f7a4c7a343000")
  = ([], Done (None, Some mozlz4.ErrInvalid)).
Proof. vm_compute. reflexivity. Qed.

Example decode_mismatch :
  snd (mozlz4.Decompress fake.literals (hex "6d6f7a4c7a34300003000000207b7d"))
  = Done (None, Some (mozlz4.mismatch 3 2))
  /\ Error (mozlz4.mismatch 3 2)
     = "uncompressed size mismatch: expected 3, but got 2"%string.
Proof. split; vm_compute; reflexivity. Qed.

Example decode_short_destination :
  snd (mozlz4.Decompress fake.literals (hex "6d6f7a4c7a34300001000000207b7d"))
  = Done (None, Some fake.ErrInvalidSourceShortBuffer).
Proof. vm_compute. reflexivity. Qed.

(** * Further properties of [Compress] and [Decompress] *)

Section Codec_more.

Context {rt : Runtime} (c : lz4.BlockCodec).

(** X1. When [Decompress] succeeds, its input starts with [HEADER], holds
    the four bytes of the size field, and the result has exactly as many
    bytes as the size field declares. *)
Theorem Decompress_length (data : list byte) (tr : list call) (out : list byte) :
  mozlz4.Decompress c data = (tr, Done (Some out, None)) ->
  firstn 8 data = mozlz4.HEADER
  /\ 12 <= len data
  /\ len out = binary.LittleEndian.Uint32 (skipn 8 data).
Proof.
  rewrite Decompress_cases.
  destruct (bytes.HasPrefix data mozlz4.HEADER) eqn:Hp; cbn [negb]; [|discriminate].
  cbv zeta. destruct (len (skipn 8 data) <? 4) eqn:H4; [discriminate|].
  apply Z.ltb_ge in H4.
  apply andb_true_iff in Hp. destruct Hp as [Hl He].
  apply Z.leb_le in Hl. apply Equal_true in He.
  change (List.length mozlz4.HEADER) with 8%nat in He.
  change (len mozlz4.HEADER) with 8 in Hl.
  assert (H12 : 12 <= len data).
  { unfold len in *. rewrite length_skipn in H4. lia. }
  pose proof (Uint32_nonneg (skipn 8 data)) as Hs.
  destruct (binary.LittleEndian.Uint32 (skipn 8 data) =? 0) eqn:Hz.
  - intros H. assert (out = []) by congruence. subst out.
    apply Z.eqb_eq in Hz. rewrite Hz. repeat split; assumption.
  - destruct (lz4.UncompressBlock c _ _) as [[n [e|]] dst]; [discriminate|].
    destruct (negb _); [discriminate|]. intros H.
    match type of H with
    | (_, Done (Some ?x, None)) = _ => assert (Ho : x = out) by congruence
    end.
    subst out. repeat split; try assumption.
    unfold len at 1. rewrite written_length, length_zeros. lia.
Qed.

Lemma Decompress_ErrInvalid_cases (data : list byte) :
  mozlz4.Decompress c data = ([], Done (None, Some mozlz4.ErrInvalid))
  <-> (len data < 12 \/ firstn 8 data <> mozlz4.HEADER).
Proof.
  rewrite Decompress_cases. split.
  - destruct (bytes.HasPrefix data mozlz4.HEADER) eqn:Hp; cbn [negb].
    + cbv zeta. destruct (len (skipn 8 data) <? 4) eqn:H4.
      * intros _. left. apply Z.ltb_lt in H4. unfold len in *.
        rewrite length_skipn in H4. lia.
      * destruct (_ =? 0); [discriminate|].
        destruct (lz4.UncompressBlock c _ _) as [[n [e|]] dst]; [discriminate|].
        destruct (negb _); discriminate.
    + intros _. right. intros He.
      unfold bytes.HasPrefix in Hp. apply andb_false_iff in Hp.
      destruct Hp as [Hp | Hp].
      * apply Z.leb_gt in Hp. apply (f_equal (@List.length byte)) in He.
        rewrite length_firstn in He. change (List.length mozlz4.HEADER) with 8%nat in He.
        change (len mozlz4.HEADER) with 8 in Hp. unfold len in Hp. lia.
      * change (List.length mozlz4.HEADER) with 8%nat in Hp.
        rewrite He in Hp. assert (bytes.Equal mozlz4.HEADER mozlz4.HEADER = true)
          by (apply Equal_true; reflexivity). congruence.
  - intros [Hl | Hh].
    + destruct (bytes.HasPrefix data mozlz4.HEADER) eqn:Hp; cbn [negb]; [|reflexivity].
      cbv zeta. replace (len (skipn 8 data) <? 4) with true; [reflexivity|].
      symmetry. apply Z.ltb_lt. unfold len in *. rewrite length_skipn. lia.
    + rewrite HasPrefix_false; [reflexivity|]. exact Hh.
Qed.

(** X2. [Decompress] returns [ErrInvalid] without a call to the block codec
    exactly when its input is shorter than 12 bytes or does not start with
    [HEADER]. *)
Theorem Decompress_ErrInvalid_iff (data : list byte) :
  mozlz4.Decompress c data = ([], Done (None, Some mozlz4.ErrInvalid))
  <-> (len data < 12 \/ firstn 8 data <> mozlz4.HEADER).
Proof. exact (Decompress_ErrInvalid_cases data). Qed.

(** X3. An error of [Decompress] is [ErrInvalid], or the error the block
    decompressor returned in the one call made, or the size mismatch of a
    count [n] with [uint32(n)] different from the declared size. *)
Theorem Decompress_error_kinds (data : list byte) (tr : list call)
        (o : option (list byte)) (e : error) :
  mozlz4.Decompress c data = (tr, Done (o, Some e)) ->
  (tr = [] /\ e = mozlz4.ErrInvalid)
  \/ (exists src dst n dst',
         tr = [call_UncompressBlock src dst]
         /\ lz4.UncompressBlock c src dst = (n, Some e, dst'))
  \/ (exists src dst n dst',
         tr = [call_UncompressBlock src dst]
         /\ lz4.UncompressBlock c src dst = (n, None, dst')
         /\ uint32 n <> len dst
         /\ e = mozlz4.mismatch (len dst) n).
Proof.
  rewrite Decompress_cases.
  destruct (negb _); [intros H; left; split; congruence|]. cbv zeta.
  destruct (_ <? 4); [intros H; left; split; congruence|].
  pose proof (Uint32_nonneg (skipn 8 data)) as Hs.
  destruct (_ =? 0); [discriminate|].
  destruct (lz4.UncompressBlock c _ _) as [[n [e'|]] dst] eqn:Hu.
  - intros H. right. left. assert (e' = e) by congruence. subst e'.
    eexists. eexists. eexists. eexists. split; [|exact Hu]. congruence.
  - destruct (negb _) eqn:Hn; [|discriminate]. intros H. right. right.
    apply negb_true_iff, Z.eqb_neq in Hn.
    refine (ex_intro _ _ (ex_intro _ _ (ex_intro _ _ (ex_intro _ _
              (conj _ (conj Hu _)))))); [congruence|].
    rewrite len_zeros by exact Hs. split; [exact Hn | congruence].
Qed.

(** X4. A container that [Compress] returns starts with [HEADER] and has
    at least 12 bytes, whatever the length of the input, when the count of
    the block compressor is not negative: [Decompress] does not reject it
    as not being a mozlz4 file. *)
Theorem Compress_output_has_header (d : list byte) (tr : list call) (out : list byte) :
  0 <= mozlz4.compressedLen c d ->
  mozlz4.Compress c d = (tr, Done (Some out, None)) ->
  bytes.HasPrefix out mozlz4.HEADER = true
  /\ 12 <= len out
  /\ mozlz4.Decompress c out <> ([], Done (None, Some mozlz4.ErrInvalid)).
Proof.
  intros Hn H.
  assert (Hout : exists t, out = mozlz4.HEADER ++ t /\ 4 <= len t).
  { revert H. rewrite Compress_cases. unfold mozlz4.compressedLen in Hn.
    destruct (_ <? 0) eqn:H0; [discriminate|]. apply Z.ltb_ge in H0. cbv zeta.
    destruct (framed_facts c d H0) as (W & E & L).
    destruct (len d =? 0).
    - intros H. assert (Ho : elems (mozlz4.framed c d) = out) by congruence.
      subst out. rewrite E. eexists. split; [reflexivity|].
      change (len (binary.LittleEndian.PutUint32 (uint32 (len d)))) with 4. lia.
    - destruct (lz4.CompressBlock c d (spare (mozlz4.framed c d))) as [[n [e|]] dst];
        [discriminate|]. cbn [fst] in Hn.
      destruct (_ || _); [discriminate|]. intros H.
      match type of H with
      | (_, Done (Some ?x, None)) = _ => assert (Ho : x = out) by congruence
      end.
      subst out. rewrite E, firstn_past_header by (try reflexivity; lia).
      unfold mozlz4.frame_header. rewrite <- app_assoc. eexists. split; [reflexivity|].
      rewrite len_app. change (len (binary.LittleEndian.PutUint32 (uint32 (len d)))) with 4.
      pose proof (len_nonneg (firstn (Z.to_nat n) (written (spare (mozlz4.framed c d)) dst))).
      lia. }
  destruct Hout as (t & -> & Ht).
  assert (H12 : 12 <= len (mozlz4.HEADER ++ t))
    by (rewrite len_app; change (len mozlz4.HEADER) with 8; lia).
  split; [apply HasPrefix_app|]. split; [exact H12|].
  intros E. apply Decompress_ErrInvalid_cases in E. destruct E as [E | E]; [lia|].
  apply E. reflexivity.
Qed.

End Codec_more.

(** * The options of the command *)

Ltac name_cases name :=
  repeat match goal with
         | |- context [(name =? ?l)%string] =>
             let E := fresh "E" in
             destruct (name =? l)%string eqn:E; cbn [orb negb]; cbv iota
         end.

(** X5. [Kind] and [Option] know the same names: a name is [Unknown] to
    [Kind] exactly when [Option] answers it with [ErrUnknown]. *)
Theorem Kind_Unknown_iff (c : main.Command) (name value : string) (hasValue : bool) :
  main.Kind c name = options.Unknown
  <-> snd (main.Option c name value hasValue) = Some ErrUnknown.
Proof.
  unfold main.Kind, main.Option. name_cases name; cbn [snd];
    split; intros H; (discriminate H || reflexivity).
Qed.

(** X6. [Option] returns an error only for [-h], [--help], [--version] and
    the names it does not know, and it then leaves the command as it was. *)
Theorem Option_error (c c' : main.Command) (name value : string) (hasValue : bool)
        (e : goerror) :
  main.Option c name value hasValue = (c', Some e) ->
  c' = c
  /\ ((e = ErrHelp /\ (name = "-h" \/ name = "--help")%string)
      \/ (e = ErrVersion /\ name = "--version"%string)
      \/ (e = ErrUnknown /\ main.Kind c name = options.Unknown)).
Proof.
  unfold main.Kind, main.Option. name_cases name; intros H; try discriminate H;
    repeat match goal with
           | E : (_ =? _)%string = true |- _ => apply String.eqb_eq in E
           end;
    (split; [congruence|]).
  - left. split; [congruence | left; assumption].
  - left. split; [congruence | right; assumption].
  - right. left. split; [congruence | assumption].
  - right. right. split; [congruence | reflexivity].
Qed.

(** X7. [-z] and [-d] exclude each other: whatever options are given, in
    whatever order, the command never forces both compression and
    decompression. *)
Theorem Options_exclusive (os : list main.opt) (c c' : main.Command)
        (e : option goerror) :
  main.ForceCompress c && main.ForceDecompress c = false ->
  main.Options c os = (c', e) ->
  main.ForceCompress c' && main.ForceDecompress c' = false.
Proof.
  revert c. induction os as [|[[name value] hasValue] rest IH]; intros c Hc H.
  - cbn in H. congruence.
  - cbn [main.Options] in H.
    assert (Hstep : main.ForceCompress (fst (main.Option c name value hasValue))
                    && main.ForceDecompress (fst (main.Option c name value hasValue))
                    = false).
    { unfold main.Option. name_cases name; cbn; first [reflexivity | exact Hc]. }
    destruct (main.Option c name value hasValue) as [c1 [e1|]]; cbn [fst] in Hstep.
    + congruence.
    + apply (IH c1 Hstep H).
Qed.

(** X8. [Option] never looks at [hasValue], and it looks at the value only
    for the names whose [Kind] is [Required], [-o], [--output], [-S] and
    [--suffix], whose value it stores as the destination or the suffix. *)
Theorem Option_value (c : main.Command) (name : string) :
  (forall value h1 h2, main.Option c name value h1 = main.Option c name value h2)
  /\ (main.Kind c name <> options.Required ->
      forall v1 v2 h1 h2, main.Option c name v1 h1 = main.Option c name v2 h2)
  /\ (main.Kind c name = options.Required ->
      forall value h,
        snd (main.Option c name value h) = None
        /\ (main.Destination (fst (main.Option c name value h)) = value
            \/ main.Suffix (fst (main.Option c name value h)) = value)).
Proof.
  unfold main.Kind, main.Option. name_cases name; cbn;
    (split; [reflexivity|]); split; intros H; try discriminate H;
    try (exfalso; apply H; reflexivity); intros; try reflexivity;
    (split; [reflexivity|]); first [left; reflexivity | right; reflexivity].
Qed.

(** * Strings *)

Lemma string_length_append (a b : string) :
  String.length (a ++ b) = (String.length a + String.length b)%nat.
Proof. induction a as [|ch a IH]; [reflexivity|]. cbn. rewrite IH. reflexivity. Qed.

Lemma string_append_assoc (a b d : string) : ((a ++ b) ++ d = a ++ (b ++ d))%string.
Proof. induction a as [|ch a IH]; [reflexivity|]. cbn. rewrite IH. reflexivity. Qed.

Lemma get_append_r (a b : string) (k : nat) :
  String.get (String.length a + k) (a ++ b) = String.get k b.
Proof. induction a as [|ch a IH]; [reflexivity|]. cbn. exact IH. Qed.

Lemma get_append_r_0 (a b : string) :
  String.get (String.length a) (a ++ b) = String.get 0 b.
Proof. rewrite <- (Nat.add_0_r (String.length a)). apply get_append_r. Qed.

Lemma get_append_l (a b : string) (k : nat) :
  (k < String.length a)%nat -> String.get k (a ++ b) = String.get k a.
Proof.
  revert k. induction a as [|ch a IH]; intros k Hk; [cbn in Hk; lia|].
  destruct k as [|k]; [reflexivity|]. cbn. apply IH. cbn in Hk. lia.
Qed.

Lemma get_None (s : string) (k : nat) :
  (String.length s <= k)%nat -> String.get k s = None.
Proof.
  revert k. induction s as [|ch s IH]; intros k Hk; [destruct k; reflexivity|].
  destruct k as [|k]; [cbn in Hk; lia|]. cbn. apply IH. cbn in Hk. lia.
Qed.

Lemma get_Some (s : string) (k : nat) :
  (k < String.length s)%nat -> exists ch, String.get k s = Some ch.
Proof.
  revert k. induction s as [|ch s IH]; intros k Hk; [cbn in Hk; lia|].
  destruct k as [|k]; [exists ch; reflexivity|]. cbn. apply IH. cbn in Hk. lia.
Qed.

Lemma substring_all (s : string) : substring 0 (String.length s) s = s.
Proof. induction s as [|ch s IH]; [reflexivity|]. cbn. rewrite IH. reflexivity. Qed.

Lemma substring_append_l (a b : string) : substring 0 (String.length a) (a ++ b) = a.
Proof.
  induction a as [|ch a IH]; [destruct b; reflexivity|]. cbn. rewrite IH. reflexivity.
Qed.

Lemma substring_append_r (a b : string) (k m : nat) :
  substring (String.length a + k) m (a ++ b) = substring k m b.
Proof. induction a as [|ch a IH]; [reflexivity|]. cbn. exact IH. Qed.

Lemma substring_split (s : string) (j : nat) :
  (j <= String.length s)%nat ->
  s = (substring 0 j s ++ substring j (String.length s - j) s)%string.
Proof.
  revert j. induction s as [|ch s IH]; intros j Hj.
  - destruct j; reflexivity.
  - destruct j as [|j].
    + rewrite Nat.sub_0_r, substring_all. reflexivity.
    + cbn in Hj. cbn [substring String.append String.length Nat.sub].
      rewrite <- IH by lia. reflexivity.
Qed.

Lemma length_substring (s : string) (j m : nat) :
  (j + m <= String.length s)%nat -> String.length (substring j m s) = m.
Proof.
  revert j m. induction s as [|ch s IH]; intros j m H.
  - cbn in H. assert (j = 0%nat) by lia. assert (m = 0%nat) by lia. subst. reflexivity.
  - destruct j as [|j].
    + destruct m as [|m]; [reflexivity|]. cbn. f_equal. apply (IH 0%nat). cbn in H. lia.
    + cbn. apply IH. cbn in H. lia.
Qed.

Lemma plain_get (s : string) (k : nat) (ch : ascii) :
  plain s = true -> String.get k s = Some ch ->
  (ch =? ".")%char = false /\ filepath.IsPathSeparator ch = false.
Proof.
  revert k. induction s as [|a s IH]; intros k Hp Hg; [destruct k; discriminate|].
  cbn in Hp. apply andb_true_iff in Hp. destruct Hp as [Hp Hs].
  apply andb_true_iff in Hp. destruct Hp as [Hd Hsep].
  destruct k as [|k].
  - cbn in Hg. injection Hg as <-. split; apply negb_true_iff; assumption.
  - cbn in Hg. apply (IH k Hs Hg).
Qed.

Lemma nosep_get (s : string) (k : nat) (ch : ascii) :
  nosep s = true -> String.get k s = Some ch -> filepath.IsPathSeparator ch = false.
Proof.
  revert k. induction s as [|a s IH]; intros k Hp Hg; [destruct k; discriminate|].
  cbn in Hp. apply andb_true_iff in Hp. destruct Hp as [Hsep Hs].
  destruct k as [|k].
  - cbn in Hg. injection Hg as <-. apply negb_true_iff. assumption.
  - cbn in Hg. apply (IH k Hs Hg).
Qed.

Lemma plain_nosep (s : string) : plain s = true -> nosep s = true.
Proof.
  induction s as [|a s IH]; [reflexivity|]. cbn. intros H.
  apply andb_true_iff in H. destruct H as [H Hs].
  apply andb_true_iff in H. destruct H as [_ Hsep].
  rewrite Hsep, (IH Hs). reflexivity.
Qed.

Lemma get_substring (s : string) (j m k : nat) (ch : ascii) :
  String.get k (substring j m s) = Some ch -> String.get (j + k) s = Some ch.
Proof.
  revert j m k. induction s as [|a s IH]; intros j m k H.
  - destruct j, m; cbn in H; destruct k; discriminate.
  - destruct j as [|j].
    + destruct m as [|m]; [destruct k; discriminate|].
      destruct k as [|k]; [exact H|]. cbn in H. cbn. apply (IH 0%nat m k H).
    + cbn in H. cbn. apply (IH j m k H).
Qed.

Lemma plain_of_get (s : string) :
  (forall k ch, String.get k s = Some ch ->
                (ch =? ".")%char = false /\ filepath.IsPathSeparator ch = false) ->
  plain s = true.
Proof.
  induction s as [|a s IH]; intros H; [reflexivity|]. cbn.
  destruct (H 0%nat a eq_refl) as [Hd Hs]. rewrite Hd, Hs. cbn.
  apply IH. intros k ch Hk. apply (H (S k) ch). exact Hk.
Qed.

Lemma substring_cons (s : string) (j m : nat) (ch : ascii) :
  String.get j s = Some ch ->
  substring j (S m) s = String ch (substring (S j) m s).
Proof.
  revert j. induction s as [|a s IH]; intros j H; [destruct j; discriminate|].
  destruct j as [|j].
  - cbn in H. injection H as ->. reflexivity.
  - cbn in H. cbn [substring]. apply (IH j H).
Qed.

(** ** [filepath.Ext] *)

Lemma Ext_loop_found (p rest : string) (n : nat) :
  plain rest = true -> (n <= String.length rest)%nat ->
  filepath.Ext_loop (p ++ String "." rest) (S (String.length p + n)) = String "." rest.
Proof.
  intros Hp. induction n as [|n IH]; intros Hn; cbn [filepath.Ext_loop].
  - rewrite get_append_r. cbn [String.get].
    change (filepath.IsPathSeparator ".") with false.
    change ("." =? ".")%char with true. cbv iota.
    rewrite string_length_append.
    replace (String.length p + String.length (String "." rest) - (String.length p + 0))%nat
      with (String.length (String "." rest)) by lia.
    rewrite substring_append_r. apply substring_all.
  - rewrite get_append_r. cbn [String.get].
    destruct (get_Some rest n ltac:(lia)) as [ch Hch]. rewrite Hch.
    destruct (plain_get rest n ch Hp Hch) as [Hd Hs]. rewrite Hd, Hs.
    rewrite Nat.add_succ_r. apply IH. lia.
Qed.

Lemma Ext_found (p rest : string) :
  plain rest = true -> filepath.Ext (p ++ String "." rest) = String "." rest.
Proof.
  intros Hp. unfold filepath.Ext. rewrite string_length_append.
  cbn [String.length]. rewrite Nat.add_succ_r.
  apply Ext_loop_found; [exact Hp | lia].
Qed.

Lemma Ext_loop_sound (path : string) (i : nat) :
  (i <= String.length path)%nat ->
  filepath.Ext_loop path i = ""%string
  \/ exists j,
       (j < i)%nat /\ String.get j path = Some "."%char
       /\ filepath.Ext_loop path i = substring j (String.length path - j) path
       /\ forall k ch, (j < k < i)%nat -> String.get k path = Some ch ->
                       (ch =? ".")%char = false /\ filepath.IsPathSeparator ch = false.
Proof.
  induction i as [|i IH]; intros Hi; [left; reflexivity|].
  cbn [filepath.Ext_loop].
  destruct (String.get i path) as [ch|] eqn:Hg; [|left; reflexivity].
  destruct (filepath.IsPathSeparator ch) eqn:Hs; [left; reflexivity|].
  destruct (ch =? ".")%char eqn:Hd.
  - right. exists i. apply Ascii.eqb_eq in Hd. subst ch.
    repeat split; [lia | exact Hg | lia | lia].
  - destruct (IH ltac:(lia)) as [H | (j & Hj & Hgj & He & Hall)]; [left; exact H|].
    right. exists j. repeat split; [lia | exact Hgj | exact He | |].
    + destruct (Nat.eq_dec k i) as [-> | Hk].
      * assert (ch0 = ch) by congruence. subst ch0. exact Hd.
      * apply (Hall k ch0); [lia | assumption].
    + destruct (Nat.eq_dec k i) as [-> | Hk].
      * assert (ch0 = ch) by congruence. subst ch0. exact Hs.
      * apply (Hall k ch0); [lia | assumption].
Qed.

(** [filepath.Ext] returns the part of the path from the last dot of
    its final element on: the result is empty, or the path ends with it, it
    starts with a dot and has no other dot and no separator; and a path
    that ends with a dot followed by neither a dot nor a separator has
    that end as its extension. *)
Lemma Ext_last_dot (path : string) :
  (filepath.Ext path = ""%string
   \/ exists p rest,
        path = (p ++ String "." rest)%string
        /\ filepath.Ext path = String "." rest /\ plain rest = true)
  /\ (forall p rest,
        path = (p ++ String "." rest)%string -> plain rest = true ->
        filepath.Ext path = String "." rest).
Proof.
  split; [|intros p rest -> Hp; apply Ext_found; exact Hp].
  unfold filepath.Ext.
  destruct (Ext_loop_sound path (String.length path) (le_n _))
    as [H | (j & Hj & Hg & He & Hall)]; [left; exact H|].
  right. set (n := String.length path) in *.
  exists (substring 0 j path), (substring (S j) (n - S j) path).
  assert (Hsub : substring j (n - j) path
                 = String "." (substring (S j) (n - S j) path)).
  { replace (n - j)%nat with (S (n - S j)) by lia. apply substring_cons. exact Hg. }
  split; [|split].
  - rewrite <- Hsub. apply substring_split. lia.
  - rewrite He. exact Hsub.
  - apply plain_of_get. intros k ch Hk. apply get_substring in Hk.
    apply (Hall (S j + k)%nat ch); [|exact Hk].
    split; [lia|]. destruct (Nat.lt_ge_cases (S j + k) n) as [Hlt | Hge]; [exact Hlt|].
    rewrite get_None in Hk by (fold n; lia). discriminate.
Qed.


(** ** [strings.CutSuffix] and [filepath.Base] *)

Lemma CutSuffix_append (a b : string) : strings.CutSuffix (a ++ b) b = (a, true).
Proof.
  unfold strings.CutSuffix, strings.HasSuffix. rewrite string_length_append.
  replace (String.length a + String.length b - String.length b)%nat
    with (String.length a + 0)%nat by lia.
  rewrite substring_append_r, substring_all, String.eqb_refl.
  replace (String.length b <=? String.length a + String.length b)%nat with true
    by (symmetry; apply Nat.leb_le; lia).
  cbn [andb negb]. rewrite Nat.add_0_r, substring_append_l. reflexivity.
Qed.

Lemma lastElement_le (path : string) (i : nat) : (filepath.lastElement path i <= i)%nat.
Proof.
  induction i as [|i IH]; [reflexivity|]. cbn.
  destruct (String.get i path) as [ch|]; [|lia].
  destruct (filepath.IsPathSeparator ch); lia.
Qed.

Lemma lastElement_skip (q e : string) (n : nat) :
  nosep e = true -> (n <= String.length e)%nat ->
  filepath.lastElement (q ++ e) (String.length q + n)
  = filepath.lastElement (q ++ e) (String.length q).
Proof.
  intros He. induction n as [|n IH]; intros Hn; [rewrite Nat.add_0_r; reflexivity|].
  rewrite Nat.add_succ_r. cbn [filepath.lastElement]. rewrite get_append_r.
  destruct (get_Some e n ltac:(lia)) as [ch Hch]. rewrite Hch.
  rewrite (nosep_get e n ch He Hch). apply IH. lia.
Qed.

Lemma stripTrailing_keep (q e : string) :
  nosep e = true -> e <> ""%string ->
  filepath.stripTrailing (q ++ e) (String.length (q ++ e)) = (q ++ e)%string.
Proof.
  intros He Hne. rewrite string_length_append.
  destruct (String.length e) as [|m] eqn:Hl; [destruct e; [contradiction | discriminate]|].
  rewrite Nat.add_succ_r. cbn [filepath.stripTrailing]. rewrite get_append_r.
  destruct (get_Some e m ltac:(lia)) as [ch Hch]. rewrite Hch.
  rewrite (nosep_get e m ch He Hch). reflexivity.
Qed.

Lemma string_nonempty_length (s : string) : s <> ""%string -> (1 <= String.length s)%nat.
Proof. destruct s; [contradiction | cbn; lia]. Qed.

(** The base of a path is at least as long as any end of the path that has
    no separator. *)
Lemma Base_long (q e : string) :
  nosep e = true -> e <> ""%string ->
  (String.length e <= String.length (filepath.Base (q ++ e)))%nat.
Proof.
  intros He Hne. pose proof (string_nonempty_length e Hne) as Hl.
  unfold filepath.Base.
  assert (Hp : (q ++ e)%string <> ""%string).
  { intros E. apply (f_equal String.length) in E.
    rewrite string_length_append in E. cbn in E. lia. }
  apply String.eqb_neq in Hp. rewrite Hp. cbv zeta.
  rewrite stripTrailing_keep by assumption.
  rewrite !string_length_append.
  rewrite lastElement_skip by (try assumption; lia).
  pose proof (lastElement_le (q ++ e) (String.length q)) as Hi.
  set (i1 := filepath.lastElement (q ++ e) (String.length q)) in *.
  set (x := if (0 <? i1)%nat
            then substring i1 (String.length q + String.length e - i1) (q ++ e)
            else (q ++ e)%string).
  assert (Hx : (String.length e <= String.length x)%nat).
  { subst x. destruct (0 <? i1)%nat.
    - rewrite length_substring by (rewrite string_length_append; lia). lia.
    - rewrite string_length_append. lia. }
  destruct (x =? "")%string eqn:E; [|exact Hx].
  apply String.eqb_eq in E. rewrite E in Hx. cbn in Hx. lia.
Qed.

(** The base of a path that is its final element alone, or a directory
    ending in a separator followed by the final element. *)
Lemma Base_final (dir e : string) :
  nosep e = true -> e <> ""%string ->
  dir = ""%string \/ (exists d, dir = (d ++ "/")%string) ->
  filepath.Base (dir ++ e) = e.
Proof.
  intros He Hne Hdir. pose proof (string_nonempty_length e Hne) as Hl.
  unfold filepath.Base.
  assert (Hp : (dir ++ e)%string <> ""%string).
  { intros E. apply (f_equal String.length) in E.
    rewrite string_length_append in E. cbn in E. lia. }
  apply String.eqb_neq in Hp. rewrite Hp. cbv zeta.
  rewrite stripTrailing_keep by assumption.
  rewrite !string_length_append.
  rewrite lastElement_skip by (try assumption; lia).
  assert (Hi : filepath.lastElement (dir ++ e) (String.length dir) = String.length dir).
  { destruct Hdir as [-> | [d ->]]; [reflexivity|].
    rewrite string_length_append. cbn [String.length]. rewrite Nat.add_1_r.
    cbn [filepath.lastElement]. rewrite string_append_assoc, get_append_r_0. reflexivity. }
  rewrite Hi.
  assert (Hx : (if (0 <? String.length dir)%nat
                then substring (String.length dir)
                       (String.length dir + String.length e - String.length dir) (dir ++ e)
                else (dir ++ e)%string) = e).
  { destruct (0 <? String.length dir)%nat eqn:E0.
    - replace (String.length dir + String.length e - String.length dir)%nat
        with (String.length e) by lia.
      rewrite <- (Nat.add_0_r (String.length dir)) at 1.
      rewrite substring_append_r. apply substring_all.
    - apply Nat.ltb_ge in E0. destruct dir; [reflexivity | cbn in E0; lia]. }
  rewrite Hx. apply String.eqb_neq in Hne. rewrite Hne. reflexivity.
Qed.

(** * The name of the output file *)

Lemma getDestination_false (c : main.Command) (name : string) :
  main.Destination c = ""%string -> name <> "-"%string ->
  main.getDestination c name false =
  if (filepath.Ext name =? "")%string || (filepath.Ext name =? filepath.Base name)%string
  then (""%string, Some (Errorf "%v has no extension. use -o/--output option." [name]))
  else (fst (strings.CutSuffix name (filepath.Ext name)), None).
Proof.
  intros Hd Hn. unfold main.getDestination. rewrite Hd. cbn [String.eqb negb].
  apply String.eqb_neq in Hn. rewrite Hn. cbv zeta.
  destruct (filepath.Ext name =? filepath.Base name)%string;
    [rewrite orb_true_r; reflexivity|].
  rewrite orb_false_r.
  destruct (filepath.Ext name =? "")%string eqn:E; [reflexivity|].
  destruct (Ext_last_dot name) as [[H | (p & rest & Hp & He & _)] _].
  - apply String.eqb_neq in E. contradiction.
  - rewrite He. rewrite Hp at 1 2. rewrite CutSuffix_append. reflexivity.
Qed.

(** X9. Decompressing [name] (no [-o], [-c]; not the standard input) gets
    a destination exactly when [name] has an extension that is not its
    whole base name; the search for the extension at the end of [name]
    (line 158) never fails. The destination then is [name] without its
    extension, a dot followed by neither a dot nor a separator: it is a
    proper prefix of [name], so never [name] itself. *)
Theorem getDestination_decompress (c : main.Command) (name : string) :
  main.Destination c = ""%string -> name <> "-"%string ->
  (snd (main.getDestination c name false) = None
   <-> (filepath.Ext name <> ""%string /\ filepath.Ext name <> filepath.Base name))
  /\ (forall dest,
        main.getDestination c name false = (dest, None) ->
        exists rest,
          name = (dest ++ String "." rest)%string /\ plain rest = true /\ dest <> name).
Proof.
  intros Hd Hn. rewrite (getDestination_false c name Hd Hn). split.
  - destruct (String.eqb_spec (filepath.Ext name) "") as [E1 | E1];
      destruct (String.eqb_spec (filepath.Ext name) (filepath.Base name)) as [E2 | E2];
      cbn [orb snd]; split; intros H; try discriminate H;
      try (destruct H; contradiction); first [split; assumption | reflexivity].
  - intros dest. destruct (_ || _) eqn:E; [discriminate|]. intros H.
    apply orb_false_iff in E. destruct E as [E1 _]. apply String.eqb_neq in E1.
    destruct (Ext_last_dot name) as [[He | (p & rest & Hp & He & Hpl)] _]; [contradiction|].
    rewrite He in H. rewrite Hp in H at 1. rewrite CutSuffix_append in H. cbn [fst] in H.
    assert (p = dest) by congruence. subst p.
    exists rest. split; [exact Hp|]. split; [exact Hpl|].
    intros E. pose proof (f_equal String.length Hp) as HL.
    rewrite string_length_append in HL. cbn in HL. rewrite E in HL. lia.
Qed.

(** X10. Names round-trip: with a suffix that is an extension (a dot
    followed by neither a dot nor a separator, as the default [.mozlz4]),
    and for a file name that does not end with a separator, the
    destination of decompressing the destination of compressing [name] is
    [name]. *)
Theorem getDestination_roundtrip (c : main.Command) (name n0 rest : string) (ch : ascii) :
  main.Destination c = ""%string ->
  main.Suffix c = String "." rest -> plain rest = true ->
  name = (n0 ++ String ch "")%string -> filepath.IsPathSeparator ch = false ->
  name <> "-"%string ->
  main.getDestination c name true = ((name ++ main.Suffix c)%string, None)
  /\ main.getDestination c (name ++ main.Suffix c) false = (name, None).
Proof.
  intros Hd Hs Hpl Hname Hch Hn. split.
  - unfold main.getDestination. rewrite Hd. cbn [String.eqb negb].
    apply String.eqb_neq in Hn. rewrite Hn. reflexivity.
  - assert (Hn2 : (name ++ main.Suffix c)%string <> "-"%string).
    { intros E. apply (f_equal String.length) in E.
      rewrite string_length_append, Hs, Hname, string_length_append in E. cbn in E. lia. }
    rewrite (getDestination_false c _ Hd Hn2). rewrite Hs.
    rewrite (Ext_found name rest Hpl).
    change (String "." rest =? "")%string with false.
    assert (Hb : filepath.Base (name ++ String "." rest) <> String "." rest).
    { intros E. apply (f_equal String.length) in E.
      assert (He : nosep (String ch (String "." rest)) = true).
      { cbn. rewrite Hch. cbn. apply plain_nosep. exact Hpl. }
      pose proof (Base_long n0 (String ch (String "." rest)) He ltac:(discriminate)) as Hl.
      rewrite Hname, string_append_assoc in E. cbn [String.append] in E.
      rewrite E in Hl. cbn in Hl. lia. }
    replace (String "." rest =? filepath.Base (name ++ String "." rest))%string with false
      by (symmetry; apply String.eqb_neq; congruence).
    cbn [orb]. rewrite CutSuffix_append. reflexivity.
Qed.

(** X11. A name whose final element has no dot, or only the dot it begins
    with (a dot-file such as [.mozlz4]), has no extension to take off:
    decompressing it without [-o] or [-c] is refused. *)
Theorem getDestination_no_extension (c : main.Command) (name dir e : string) :
  main.Destination c = ""%string -> name <> "-"%string ->
  name = (dir ++ e)%string ->
  dir = ""%string \/ (exists d, dir = (d ++ "/")%string) ->
  plain e = true \/ (exists rest, e = String "." rest /\ plain rest = true) ->
  main.getDestination c name false
  = (""%string, Some (Errorf "%v has no extension. use -o/--output option." [name])).
Proof.
  intros Hd Hn Hname Hdir He. rewrite (getDestination_false c name Hd Hn).
  replace ((filepath.Ext name =? "")%string
           || (filepath.Ext name =? filepath.Base name)%string) with true; [reflexivity|].
  symmetry. apply orb_true_iff. destruct He as [He | (rest & -> & Hpl)].
  - left. apply String.eqb_eq.
    destruct (Ext_last_dot name) as [[H | (p & rest & Hp & _ & Hpl)] _]; [exact H|].
    exfalso. subst name.
    (* the dot of the extension lies in [e], or in [dir] behind its last separator *)
    assert (Hlen : (String.length rest < String.length e)%nat \/
                   (String.length e <= String.length rest)%nat) by lia.
    assert (Hg : String.get (String.length p) (dir ++ e) = Some "."%char).
    { rewrite Hp. rewrite get_append_r_0. reflexivity. }
    assert (Htot : (String.length dir + String.length e
                    = String.length p + S (String.length rest))%nat).
    { rewrite <- string_length_append, Hp, string_length_append. reflexivity. }
    destruct Hlen as [Hlt | Hge].
    + replace (String.length p) with (String.length dir + (String.length p - String.length dir))%nat
        in Hg by lia.
      rewrite get_append_r in Hg.
      destruct (plain_get e _ _ He Hg) as [Hdot _]. discriminate Hdot.
    + destruct Hdir as [-> | [d ->]].
      * cbn in Htot. lia.
      * rewrite string_length_append in Htot. cbn in Htot.
        assert (Hsl : String.get (String.length d) ((d ++ "/") ++ e) = Some "/"%char).
        { rewrite string_append_assoc, get_append_r_0. reflexivity. }
        assert (Hcase : (String.length d = String.length p
                         \/ String.length p < String.length d)%nat) by lia.
        destruct Hcase as [Heq | Hlt2].
        -- rewrite Heq in Hsl. congruence.
        -- rewrite Hp in Hsl.
           replace (String.length d)
             with (String.length p + S (String.length d - String.length p - 1))%nat
             in Hsl by lia.
           rewrite get_append_r in Hsl. cbn [String.get] in Hsl.
           destruct (plain_get rest _ _ Hpl Hsl) as [_ Hsep]. discriminate Hsep.
  - right. apply String.eqb_eq. subst name.
    rewrite (Ext_found dir rest Hpl).
    rewrite Base_final; [reflexivity | | discriminate | exact Hdir].
    change (nosep (String "." rest)) with (nosep rest). apply plain_nosep. exact Hpl.
Qed.

(** * Processing one file *)

Ltac head_scrut t :=
  lazymatch t with
  | match ?x with _ => _ end => head_scrut x
  | (match ?x with _ => _ end) _ => head_scrut x
  | snd ?m => head_scrut m
  | _ => t
  end.

Ltac io_step H :=
  lazymatch type of H with
  | (_, _) = _ => fail
  | ?lhs = _ =>
      let x := head_scrut lhs in
      let E := fresh "E" in
      destruct x eqn:E; cbv beta iota zeta delta [fst snd] in H
  end.

Ltac io_split H :=
  match type of H with
  | (?l, ?o, ?w) = _ =>
      let Hl := fresh "Hlog" in let Ho := fresh "Hout" in let Hw := fresh "Hw" in
      assert (Hl : l = _) by (exact (f_equal (fun t => fst (fst t)) H));
      assert (Ho : o = _) by (exact (f_equal (fun t => snd (fst t)) H));
      assert (Hw : w = _) by (exact (f_equal snd H));
      cbv beta iota delta [fst snd] in Hl, Ho, Hw; clear H
  end.

Ltac bool_facts := repeat match goal with
  | E : _ && _ = true |- _ => apply andb_true_iff in E; destruct E
  | E : negb _ = true |- _ => apply negb_true_iff in E
  | E : negb _ = false |- _ => apply negb_false_iff in E
  | E : (_ =? _)%string = true |- _ => apply String.eqb_eq in E
  | E : (_ =? _)%string = false |- _ => apply String.eqb_neq in E
  | E : None = match ?x with _ => _ end |- _ => destruct x; discriminate E
  | E : true = false |- _ => discriminate E
  | E : false = true |- _ => discriminate E
  end.

Ltac in_list :=
  repeat first [ left; reflexivity | apply in_eq | apply in_cons
               | apply in_or_app; right ].

Section OneFile.

Context {rt : Runtime} (lz : lz4.BlockCodec) (sys : os.System).

Lemma readFile_trace c name w log out w' :
  main.readFile sys c name w = (log, out, w') ->
  exists data err, out = Done (data, err) /\ log = [main.read_event name data err].
Proof.
  unfold main.readFile, main.read_event. destruct (name =? "-")%string.
  - destruct (os.ReadAll_Stdin sys w) as [[data err] w1]. intros H.
    exists data, err. split; congruence.
  - destruct (os.ReadFile sys name w) as [[data err] w1]. intros H.
    exists data, err. split; congruence.
Qed.

Lemma writeFile_trace c name data w log out w' :
  main.writeFile sys c name data w = (log, out, w') ->
  exists r, out = Done r /\ main.write_log c name data r log.
Proof.
  intros H. unfold main.write_log.
  cbv beta iota zeta delta [main.writeFile io_bind io_ret] in H.
  destruct (name =? "-")%string.
  - repeat io_step H; io_split H; subst; eexists; split; reflexivity.
  - assert (Hf : (if negb (main.Force c)
                  then Z.lor (Z.lor (Z.lor os.O_WRONLY os.O_CREATE) os.O_TRUNC) os.O_EXCL
                  else Z.lor (Z.lor os.O_WRONLY os.O_CREATE) os.O_TRUNC)
                 = main.open_flags c)
      by (unfold main.open_flags; destruct (main.Force c); reflexivity).
    rewrite Hf in H. clear Hf.
    repeat io_step H; io_split H; subst; eexists; (split; [reflexivity|]).
    + left. eexists. split; reflexivity.
    + right. left. eexists. eexists. split; reflexivity.
    + right. right. reflexivity.
    + right. right. reflexivity.
Qed.

(* The tests a path has taken, rewritten in the goal. *)
Ltac use_tests :=
  repeat match goal with
         | E : ?b = true |- context [?b] => rewrite E
         | E : ?b = false |- context [?b] => rewrite E
         end.

Ltac path_side :=
  first [ reflexivity
        | eassumption
        | solve [unfold main.stdin_checked; use_tests; reflexivity]
        | solve [unfold main.stdout_checked, main.compress; use_tests; reflexivity]
        | solve [unfold main.convert, main.compress; use_tests; eassumption]
        | solve [unfold main.compress; first [eassumption | use_tests; eassumption]]
        | solve [unfold main.remove_wanted; use_tests; reflexivity]
        | solve [intros; unfold main.remove_wanted; use_tests; first [reflexivity | congruence]]
        | solve [bool_facts; first [assumption | congruence]] ].

Ltac path_names :=
  try match goal with
      | D : (?f =? "-")%string = _
        |- main.path _ _ ?f _ (Done (Some (Errorf_w ?fm ?args (of_error ?e)))) =>
          replace (Errorf_w fm args (of_error e)) with (main.wrap f e)
            by (unfold main.wrap; rewrite D; reflexivity)
      end;
  try match goal with
      | E : _ && (?s =? "-")%string = true |- context [ev_IsTerminal os.Stdout_Fd true] =>
          assert (s = "-"%string)
            by (apply andb_true_iff in E; destruct E as [_ E];
                apply String.eqb_eq in E; exact E);
          subst s
      end.

(** Every run of [processFile] follows one of the paths. *)
Lemma processFile_path c file w log out w' :
  main.processFile lz sys c file w = (log, out, w') -> main.path lz c file log out.
Proof.
  intros H.
  cbv beta iota zeta delta [main.processFile main.isTerminal io_bind io_ret io_lift] in H;
  repeat io_step H; io_split H;
  repeat match goal with
         | E : main.readFile _ _ _ _ = _ |- _ =>
             apply readFile_trace in E; destruct E as (? & ? & ? & ?)
         | E : main.writeFile _ _ _ _ _ = _ |- _ =>
             apply writeFile_trace in E; destruct E as (? & ? & E)
         end;
  subst;
  repeat match goal with
         | E : Done _ = Done _ |- _ => inversion E; clear E; subst
         | E : Panic = Done _ |- _ => discriminate E
         | E : Done _ = Panic |- _ => discriminate E
         end;
  rewrite ?app_nil_r.
  all: path_names.
  all: try solve [ eapply main.path_stdin_tty; path_side
            | eapply main.path_read_error; path_side
            | eapply main.path_panic; path_side
            | eapply main.path_codec_error; path_side
            | eapply main.path_no_destination; path_side
            | eapply main.path_stdout_tty; path_side
            | eapply main.path_write; path_side
            | eapply main.path_remove; path_side ].
Qed.

Lemma In_stdin_checked c file ev :
  In ev (main.stdin_checked c file) ->
  ev = ev_IsTerminal os.Stdin_Fd false /\ main.Force c = false /\ file = "-"%string.
Proof.
  unfold main.stdin_checked.
  destruct (main.Force c); cbn [negb andb]; [intros []|].
  destruct (String.eqb_spec file "-"); [|intros []].
  intros [<- | []]. repeat split. assumption.
Qed.

Lemma In_stdout_checked c compress dest ev :
  In ev (main.stdout_checked c compress dest) ->
  ev = ev_IsTerminal os.Stdout_Fd false
  /\ main.Force c = false /\ compress = true /\ dest = "-"%string.
Proof.
  unfold main.stdout_checked.
  destruct (main.Force c); cbn [negb andb]; [intros []|].
  destruct compress; cbn [andb]; [|intros []].
  destruct (String.eqb_spec dest "-"); [|intros []].
  intros [<- | []]. repeat split. assumption.
Qed.

Lemma write_log_None c name data wlog :
  main.write_log c name data None wlog ->
  wlog = if (name =? "-")%string then [ev_Stdout_Write data None]
         else [ev_OpenFile name (main.open_flags c) 438 None;
               ev_Write name data None; ev_Close name None].
Proof.
  unfold main.write_log. destruct (name =? "-")%string; [tauto|].
  intros [(e & H & _) | [(e & e2 & H & _) | H]].
  - discriminate H.
  - destruct e2; discriminate H.
  - exact H.
Qed.

Lemma In_write_log c name data r wlog ev :
  main.write_log c name data r wlog -> In ev wlog ->
  (name = "-"%string /\ ev = ev_Stdout_Write data r)
  \/ (name <> "-"%string
      /\ ((exists err, ev = ev_OpenFile name (main.open_flags c) 438 err)
          \/ (exists err, ev = ev_Write name data err)
          \/ (exists err, ev = ev_Close name err))).
Proof.
  unfold main.write_log. destruct (String.eqb_spec name "-") as [-> | Hn].
  - intros -> [<- | []]. left. split; reflexivity.
  - intros H Hin. right. split; [exact Hn|].
    destruct H as [(e & _ & ->) | [(e & e2 & _ & ->) | ->]]; cbn [In] in Hin;
      repeat destruct Hin as [<- | Hin]; try contradiction; eauto.
Qed.

Lemma remove_wanted_true c file dest :
  main.remove_wanted c file dest = true ->
  main.Delete c = true /\ file <> dest /\ file <> "-"%string /\ dest <> "-"%string.
Proof.
  unfold main.remove_wanted. intros H.
  repeat (apply andb_true_iff in H; destruct H as [H ?]).
  repeat match goal with
         | E : negb _ = true |- _ => apply negb_true_iff, String.eqb_neq in E
         end.
  tauto.
Qed.

Lemma read_event_inj file a b e e' :
  main.read_event file a e = main.read_event file b e' -> a = b /\ e = e'.
Proof.
  unfold main.read_event. destruct (file =? "-")%string; intros H;
    injection H as -> ->; split; reflexivity.
Qed.

Lemma getDestination_stdout c file compress dest err :
  (file = "-"%string /\ main.Destination c = ""%string)
  \/ main.Destination c = "-"%string ->
  main.getDestination c file compress = (dest, err) -> dest = "-"%string.
Proof.
  unfold main.getDestination. intros [[-> ->] | ->]; cbn; congruence.
Qed.

(** The events of a path, one by one. *)
Ltac in_path :=
  repeat match goal with
         | H : main.read_event ?f _ _ = main.read_event ?f _ _ |- _ =>
             apply read_event_inj in H; destruct H as [? ?]
         | H : In _ (_ ++ _) |- _ => apply in_app_or in H; destruct H as [H | H]
         | H : In _ (_ :: _) |- _ => destruct H as [H | H]
         | H : In _ [] |- _ => contradiction H
         | H : In _ (map ev_codec _) |- _ =>
             apply in_map_iff in H; destruct H as (? & H & _)
         | H : In _ (main.stdin_checked _ _) |- _ =>
             apply In_stdin_checked in H; destruct H as (H & ? & ?)
         | H : In _ (main.stdout_checked _ _ _) |- _ =>
             apply In_stdout_checked in H; destruct H as (H & ? & ? & ?)
         | W : main.write_log _ _ _ _ ?l, H : In _ ?l |- _ =>
             apply (In_write_log _ _ _ _ _ _ W) in H;
             destruct H as [(? & H) | (? & [(? & H) | [(? & H) | (? & H)]])]
         | H : main.read_event ?f _ _ = _ |- _ =>
             unfold main.read_event in H; destruct (f =? "-")%string; cbv iota in H
         | H : _ = main.read_event ?f _ _ |- _ =>
             unfold main.read_event in H; destruct (f =? "-")%string; cbv iota in H
         end;
  try match goal with
      | H : @eq event _ _ |- _ => discriminate H
      end.

Lemma In_before_write c file input tr b dest l ev :
  In ev (main.stdin_checked c file ++ [main.read_event file input None]
         ++ map ev_codec tr ++ main.stdout_checked c b dest ++ l) ->
  is_output ev = true -> In ev l.
Proof.
  intros Hin Hout. in_path; subst; try discriminate Hout; try assumption.
  all: unfold main.read_event in Hout; destruct (file =? "-")%string;
    discriminate Hout.
Qed.

Lemma write_log_closed c name data r wlog dest d :
  main.write_log c name data r wlog ->
  In (ev_Write dest d None) wlog -> In (ev_Close dest None) wlog ->
  dest = name /\ name <> "-"%string /\ r = None.
Proof.
  unfold main.write_log. destruct (String.eqb_spec name "-") as [-> | Hn].
  - intros -> [H | []]. discriminate H.
  - intros [(e & _ & ->) | [(e & e2 & _ & ->) | ->]] Hw Hc; cbn [In] in Hw, Hc.
    + destruct Hw as [Hw | []]. discriminate Hw.
    + destruct Hw as [Hw | [Hw | [Hw | []]]]; discriminate Hw.
    + destruct Hw as [Hw | [Hw | [Hw | []]]]; try discriminate Hw.
      destruct Hc as [Hc | [Hc | [Hc | []]]]; try discriminate Hc.
      injection Hw as <- _. injection Hc as ->. repeat split. exact Hn.
Qed.

(** X12. The input file is removed exactly on request ([--rm]) when the
    output has been written to a file under another name. If [os.Remove]
    is called, it is called on the input, [Delete] is set, the input is
    not [-], the destination is not [-] and differs from the input as a
    string, and the call is the last step, directly after the output file
    was opened, written and closed without an error; its result is the
    result of [processFile]. Conversely, only the names are compared:
    whenever an output file has been written and closed without an error,
    [Delete] is set, and the name of the input is not [-] and is not,
    letter for letter, the name of the output, [os.Remove] is called on
    the input, also when both names denote the same file. *)
Theorem processFile_remove c file w log out w' :
  main.processFile lz sys c file w = (log, out, w') ->
  (forall x err,
     In (ev_Remove x err) log ->
     x = file /\ main.Delete c = true /\ file <> "-"%string /\ out = Done err
     /\ exists pre dest data,
          dest <> file /\ dest <> "-"%string
          /\ log = pre ++ [ev_OpenFile dest (main.open_flags c) 438 None;
                           ev_Write dest data None; ev_Close dest None;
                           ev_Remove file err])
  /\ (forall dest data,
        In (ev_Write dest data None) log -> In (ev_Close dest None) log ->
        main.Delete c = true -> dest <> file -> file <> "-"%string ->
        exists err, In (ev_Remove file err) log).
Proof.
  intros H. apply processFile_path in H. split.
  - intros x err Hin. destruct H; subst; in_path.
    injection Hin as <- <-.
    match goal with R : main.remove_wanted _ _ _ = true |- _ =>
      apply remove_wanted_true in R; destruct R as (Hd & Hne & Hf & Hdest) end.
    match goal with W : main.write_log _ _ _ _ _ |- _ =>
      apply write_log_None in W; rewrite W end.
    destruct (String.eqb_spec dest "-") as [|_]; [contradiction|].
    repeat split; try assumption.
    match goal with
    | |- context [?a ++ ?b ++ ?d ++ ?m ++ _ ++ [ev_Remove _ _]] =>
        exists (a ++ b ++ d ++ m), dest, (main.bytes_of o)
    end.
    split; [congruence|]. split; [assumption|].
    rewrite <- !app_assoc. reflexivity.
  - intros d data Hw Hc Hd Hne Hf.
    destruct H as [| | | | | | pre input tr o dest mid wlog r Hpre Hconv Hdest Hmid W R
                  | pre input tr o dest mid wlog r]; subst.
    1-6: in_path.
    + apply In_before_write in Hw; [|reflexivity].
      apply In_before_write in Hc; [|reflexivity].
      destruct (write_log_closed _ _ _ _ _ _ _ W Hw Hc) as (-> & Hn & ->).
      specialize (R eq_refl). unfold main.remove_wanted in R.
      apply not_eq_sym, String.eqb_neq in Hne.
      apply String.eqb_neq in Hf, Hn.
      rewrite Hd, Hne, Hf, Hn in R. discriminate R.
    + exists r. in_list.
Qed.

(** X13. An output file is opened under a name other than [-], for
    writing only, created if missing, truncated, with mode [0o666]; and
    unless [Force] is set it is opened exclusively, so that an existing
    file is not overwritten. *)
Theorem processFile_open c file w log out w' name flag perm err :
  main.processFile lz sys c file w = (log, out, w') ->
  In (ev_OpenFile name flag perm err) log ->
  name <> "-"%string /\ perm = 438
  /\ Z.land flag os.O_WRONLY = os.O_WRONLY
  /\ Z.land flag os.O_CREATE = os.O_CREATE
  /\ Z.land flag os.O_TRUNC = os.O_TRUNC
  /\ Z.land flag os.O_EXCL = (if main.Force c then 0 else os.O_EXCL).
Proof.
  intros H Hin. apply processFile_path in H.
  destruct H; subst; in_path.
  all: injection Hin as -> -> -> _; split; [assumption|]; split; [reflexivity|];
    unfold main.open_flags; destruct (main.Force c); repeat split; reflexivity.
Qed.

(** X14. The terminal is asked about only when [Force] is not set: about
    the standard input only when the input is [-], about the standard
    output only when the input was read, is to be compressed and goes to
    [-]. *)
Theorem processFile_asks_terminal c file w log out w' fd tty :
  main.processFile lz sys c file w = (log, out, w') ->
  In (ev_IsTerminal fd tty) log ->
  main.Force c = false
  /\ ((fd = os.Stdin_Fd /\ file = "-"%string)
      \/ (fd = os.Stdout_Fd
          /\ exists input,
               In (main.read_event file input None) log
               /\ main.compress c input = true
               /\ main.getDestination c file true = ("-"%string, None))).
Proof.
  intros H Hin. apply processFile_path in H.
  destruct H; subst; in_path;
    injection Hin as Hfd Htty; subst fd tty; (split; [assumption|]).
  all: try (left; split; [reflexivity | first [reflexivity | assumption]]).
  all: right; split; [reflexivity|]; exists input.
  all: split; [apply in_or_app; right; left; reflexivity|].
  all: split; [assumption|]; congruence.
Qed.

(** X15. When the standard input or the standard output is found to be a
    terminal, [processFile] returns the error that says so and has written,
    created and removed nothing; for the standard input it has not read
    either. *)
Theorem processFile_terminal c file w log out w' fd :
  main.processFile lz sys c file w = (log, out, w') ->
  In (ev_IsTerminal fd true) log ->
  (forall ev, In ev log -> is_output ev = false)
  /\ ((fd = os.Stdin_Fd /\ log = [ev_IsTerminal os.Stdin_Fd true]
       /\ out = Done (Some (of_error (errors_New "stdin is a terminal"))))
      \/ (fd = os.Stdout_Fd
          /\ out = Done (Some (of_error (errors_New "stdout is a terminal"))))).
Proof.
  intros H Hin. apply processFile_path in H.
  destruct H; subst; in_path.
  - injection Hin as <-. split.
    + intros ev [<- | []]. reflexivity.
    + left. repeat split.
  - injection Hin as <-. split.
    + intros ev Hev. in_path; subst; reflexivity.
    + right. split; reflexivity.
Qed.

(** X16. Whatever [processFile] writes, to a file or to the standard
    output, is the result of a block codec run that succeeded on the input
    it read, and goes to the destination that [getDestination] gives. *)
Theorem processFile_writes c file w log out w' name data err :
  main.processFile lz sys c file w = (log, out, w') ->
  In (ev_Write name data err) log
  \/ (name = "-"%string /\ In (ev_Stdout_Write data err) log) ->
  exists input tr o,
    In (main.read_event file input None) log
    /\ main.convert lz c input = (tr, Done (o, None))
    /\ data = main.bytes_of o
    /\ main.getDestination c file (main.compress c input) = (name, None).
Proof.
  intros H Hin. apply processFile_path in H.
  destruct Hin as [Hin | [-> Hin]]; destruct H; subst; in_path.
  all: first [injection Hin as -> -> -> | injection Hin as -> ->]; subst.
  all: exists input, tr, o.
  all: (split; [apply in_or_app; right; left; reflexivity|]).
  all: (split; [assumption|]); (split; [reflexivity|]); assumption.
Qed.

(** X17. When [processFile] returns [nil], the input was read and the
    codec succeeded on it, the result was written in full to the
    destination, which was closed without an error if it is a file, and
    the input file was removed if that was asked for. *)
Theorem processFile_success c file w log w' :
  main.processFile lz sys c file w = (log, Done None, w') ->
  exists input tr o dest,
    In (main.read_event file input None) log
    /\ main.convert lz c input = (tr, Done (o, None))
    /\ main.getDestination c file (main.compress c input) = (dest, None)
    /\ (if (dest =? "-")%string
        then In (ev_Stdout_Write (main.bytes_of o) None) log
        else In (ev_OpenFile dest (main.open_flags c) 438 None) log
             /\ In (ev_Write dest (main.bytes_of o) None) log
             /\ In (ev_Close dest None) log)
    /\ (main.Delete c = true -> file <> dest -> file <> "-"%string ->
        dest <> "-"%string -> In (ev_Remove file None) log).
Proof.
  intros H. apply processFile_path in H.
  remember (Done None) as out eqn:Hout.
  destruct H; try discriminate Hout; injection Hout as ->; subst.
  all: exists input, tr, o, dest.
  all: (split; [apply in_or_app; right; left; reflexivity|]).
  all: (split; [assumption|]); (split; [assumption|]).
  all: match goal with W : main.write_log _ _ _ _ _ |- _ =>
         apply write_log_None in W; rewrite W end.
  all: split.
  - destruct (dest =? "-")%string; repeat split; in_list.
  - intros Hd Hfd Hf Hdest.
    match goal with R : _ -> main.remove_wanted _ _ _ = false |- _ =>
      specialize (R eq_refl); unfold main.remove_wanted in R; rewrite Hd in R end.
    apply String.eqb_neq in Hfd, Hf, Hdest. rewrite Hfd, Hf, Hdest in *.
    discriminate.
  - destruct (dest =? "-")%string; repeat split; in_list.
  - intros _ _ _ _. in_list.
Qed.

(** X18. When the block codec fails on the input that was read,
    [processFile] returns its error wrapped with the name of the input
    ([<stdin>] for [-]), and has written, created and removed nothing. *)
Theorem processFile_codec_error c file w log out w' input tr o e :
  main.processFile lz sys c file w = (log, out, w') ->
  In (main.read_event file input None) log ->
  main.convert lz c input = (tr, Done (o, Some e)) ->
  out = Done (Some (if (file =? "-")%string
                    then Errorf_w "<stdin>: %w" [] (of_error e)
                    else Errorf_w "%v: %w" [file] (of_error e)))
  /\ forall ev, In ev log -> is_output ev = false.
Proof.
  intros H Hin Hc. apply processFile_path in H.
  destruct H; subst; in_path; subst; try congruence.
  assert (e0 = e) by congruence. subst e0. split.
  - reflexivity.
  - intros ev Hev. in_path; subst; reflexivity.
Qed.

(** X19. When the input cannot be read, [processFile] returns the error of
    the read as it is; it has called no codec and has written, created and
    removed nothing. *)
Theorem processFile_read_error c file w log out w' input e :
  main.processFile lz sys c file w = (log, out, w') ->
  In (main.read_event file input (Some e)) log ->
  out = Done (Some e)
  /\ forall ev, In ev log ->
       is_output ev = false /\ forall k, ev <> ev_codec k.
Proof.
  intros H Hin. apply processFile_path in H.
  destruct H; subst; in_path; subst; try discriminate.
  match goal with E : Some _ = Some _ |- _ => injection E as -> end.
  split; [reflexivity|].
  intros ev Hev. in_path; subst; (split; [reflexivity | discriminate]).
Qed.

(** X20. With the standard input as the input and no destination given, or
    with [-] as the destination, [processFile] writes to the standard
    output only: it opens and removes no file. *)
Theorem processFile_filter c file w log out w' ev :
  main.processFile lz sys c file w = (log, out, w') ->
  (file = "-"%string /\ main.Destination c = ""%string)
  \/ main.Destination c = "-"%string ->
  In ev log -> is_output ev = true ->
  exists data err, ev = ev_Stdout_Write data err.
Proof.
  intros H Hf Hin Hout. apply processFile_path in H.
  destruct H; subst;
    try match goal with
        | G : main.getDestination _ _ _ = (?d, _) |- _ =>
            pose proof (getDestination_stdout _ _ _ _ _ Hf G) as Hd
        end;
    in_path; subst; try discriminate Hout; try contradiction; eauto.
  all: try (unfold main.read_event in Hout; destruct (_ =? "-")%string;
            discriminate Hout).
  all: match goal with R : main.remove_wanted _ _ _ = true |- _ =>
         apply remove_wanted_true in R; destruct R as (_ & _ & _ & R);
         contradiction R; reflexivity end.
Qed.

End OneFile.

(** * Processing the files of the command line *)

Section Run.

Context {rt : Runtime} (lz : lz4.BlockCodec) (sys : os.System).
Variable Parse : main.Command -> list string
                 -> list string * option goerror * main.Command.
Variable buildVersion : option string.

(** The loop over two lists of files: the second list is reached only
    when every file of the first returned [nil]. *)
Lemma range_files_app c fs1 fs2 w :
  main.range_files lz sys c (fs1 ++ fs2) w
  = match main.range_files lz sys c fs1 w with
    | (l1, Done None, w1) =>
        let '(l2, r, w2) := main.range_files lz sys c fs2 w1 in (l1 ++ l2, r, w2)
    | other => other
    end.
Proof.
  revert w. induction fs1 as [|f fs1 IH]; intros w.
  - cbn. destruct (main.range_files lz sys c fs2 w) as [[l2 r] w2]. reflexivity.
  - cbn [app main.range_files]. unfold io_bind.
    destruct (main.processFile lz sys c f w) as [[l [[e|]|]] w1]; cbn.
    + reflexivity.
    + rewrite IH.
      destruct (main.range_files lz sys c fs1 w1) as [[l1 [[e|]|]] w2]; cbn;
        try reflexivity.
      destruct (main.range_files lz sys c fs2 w2) as [[l2 r] w3]. cbn.
      rewrite app_assoc. reflexivity.
    + reflexivity.
Qed.

Lemma range_files_one c f w :
  main.range_files lz sys c [f] w = main.processFile lz sys c f w.
Proof.
  cbn. unfold io_bind.
  destruct (main.processFile lz sys c f w) as [[l [[e|]|]] w1]; cbn;
    rewrite ?app_nil_r; reflexivity.
Qed.

(** X21. The files are processed in order and the first failure ends the
    run: when the files before [f] are processed without an error and [f]
    fails, [run] returns what processing [f] returned, and nothing is done
    for the files after [f]. *)
Theorem run_stops_at_first_error args c fs1 f fs2 w l1 w1 l2 out w2 :
  Parse main.initial args = (fs1 ++ f :: fs2, None, c) ->
  main.Destination c = ""%string \/ main.Destination c = "-"%string ->
  main.range_files lz sys c fs1 w = (l1, Done None, w1) ->
  main.processFile lz sys c f w1 = (l2, out, w2) ->
  out <> Done None ->
  main.run lz sys Parse buildVersion args w = (l1 ++ l2, out, w2).
Proof.
  intros HP Hd H1 Hf Hout. unfold main.run. rewrite HP. cbn [errors_Is].
  replace (negb (main.Destination c =? "")%string
           && negb (main.Destination c =? "-")%string) with false
    by (destruct Hd as [-> | ->]; reflexivity).
  rewrite <- andb_assoc.
  replace (negb (main.Destination c =? "")%string
           && negb (main.Destination c =? "-")%string) with false
    by (destruct Hd as [-> | ->]; reflexivity).
  rewrite andb_false_r.
  replace (Z.of_nat (List.length (fs1 ++ f :: fs2)) =? 0) with false
    by (symmetry; apply Z.eqb_neq; rewrite length_app; cbn; lia).
  change (f :: fs2) with ([f] ++ fs2).
  rewrite range_files_app, H1.
  rewrite range_files_app, range_files_one, Hf.
  destruct out as [[e|]|]; try reflexivity. congruence.
Qed.

(** X22. When the arguments cannot be parsed, or ask for the help or
    the version, or name several files together with an output file, [run]
    reads, writes and removes no file. For [ErrHelp] it writes the usage
    text, with [mozlz4] for [$NAME], to the standard output, once, and
    returns [nil]; for [ErrVersion] it writes [mozlz4], a space, the
    version of the main module of the build ([(devel)] without build
    information) and a newline, once, and returns [nil]; otherwise it does
    nothing and returns the error of the parser, or, when the parser
    returned none, the error "-o/--output cannot be used if multiple input
    files is given". *)
Theorem run_without_processing args files err c w log out w' :
  Parse main.initial args = (files, err, c) ->
  err <> None
  \/ (1 < Z.of_nat (List.length files)
      /\ main.Destination c <> ""%string /\ main.Destination c <> "-"%string) ->
  main.run lz sys Parse buildVersion args w = (log, out, w') ->
  if errors_Is err ErrHelp then
    out = Done None
    /\ exists e,
         log = [ev_Stdout_Write (list_byte_of_string "Usage: mozlz4 [OPTIONS] [FILE...]

Compress or decompress mozlz4 files.

Options:
  -z, --compress        Force compression
  -d, --decompress      Force decompression
  -c, --stdout          Write to the standard output and keep the input files
  -o, --output=FILE     Write to the FILE
  -S, --suffix=SUFFIX   Add SUFFIX on compressed file names
  -k, --keep            Don't delete the input files (default)
      --rm              Delete the input files after successful (de)compression
  -f, --force           Allow overwriting existing files, reading input from
                        a terminal, writing compressed data to a terminal
  -h, --help            Show this help message and exit
      --version         Show version information and exit
") e]
  else if errors_Is err ErrVersion then
    out = Done None
    /\ exists e,
         log = [ev_Stdout_Write
                  (list_byte_of_string
                     ("mozlz4 " ++ match buildVersion with
                                   | Some v => v
                                   | None => "(devel)"
                                   end ++ String "010"%char "")) e]
  else
    log = [] /\ w' = w
    /\ out = Done (Some match err with
                        | Some e => e
                        | None =>
                            of_error (errors_New
                              "-o/--output cannot be used if multiple input files is given")
                        end).
Proof.
  intros HP Hc. unfold main.run. rewrite HP.
  destruct (errors_Is err ErrHelp) eqn:Hh.
  - unfold io_bind, io_ret, main.Print.
    destruct (os.Stdout_Write sys _ w) as [e w1] eqn:Hw. intros H.
    injection H as <- <- _. split; [reflexivity|]. exists e. reflexivity.
  - destruct (errors_Is err ErrVersion) eqn:Hv.
    + unfold io_bind, io_ret, main.Print.
      destruct (os.Stdout_Write sys _ w) as [e w1] eqn:Hw. intros H.
      injection H as <- <- _. split; [reflexivity|]. exists e. reflexivity.
    + destruct err as [e|].
      * unfold io_ret. intros H. injection H as <- <- <-. repeat split.
      * destruct Hc as [Hc | (Hn & Hd1 & Hd2)]; [congruence|].
        apply Z.ltb_lt in Hn. apply String.eqb_neq in Hd1, Hd2.
        rewrite Hn, Hd1, Hd2. cbn [negb andb]. unfold io_ret.
        intros H. injection H as <- <- <-. repeat split.
Qed.

Lemma range_files_success c fs w log w' :
  main.range_files lz sys c fs w = (log, Done None, w') ->
  Forall (fun file =>
            exists w1 l w2,
              main.processFile lz sys c file w1 = (l, Done None, w2)
              /\ incl l log) fs.
Proof.
  revert w log. induction fs as [|f fs IH]; intros w log H.
  - constructor.
  - cbn [main.range_files] in H. unfold io_bind in H.
    destruct (main.processFile lz sys c f w) as [[l [[e|]|]] w1] eqn:Hf;
      cbn in H.
    + discriminate H.
    + destruct (main.range_files lz sys c fs w1) as [[l2 r] w2] eqn:Hr.
      injection H as <- -> ->. constructor.
      * exists w, l, w1. split; [exact Hf|]. apply incl_appl, incl_refl.
      * specialize (IH _ _ Hr). revert IH. apply Forall_impl.
        intros file (wa & la & wb & Hp & Hi). exists wa, la, wb.
        split; [exact Hp|]. apply incl_appr. exact Hi.
    + discriminate H.
Qed.

(** X23. When [run] returns [nil] without having been asked for the help
    or the version, the arguments were parsed without an error and every
    file named ([-] when none is) was processed with the command as parsed
    and returned [nil]; the events of each are among those of the run. *)
Theorem run_success args files err c w log w' :
  Parse main.initial args = (files, err, c) ->
  errors_Is err ErrHelp = false -> errors_Is err ErrVersion = false ->
  main.run lz sys Parse buildVersion args w = (log, Done None, w') ->
  err = None
  /\ Forall (fun file =>
               exists w1 l w2,
                 main.processFile lz sys c file w1 = (l, Done None, w2)
                 /\ incl l log)
            (match files with [] => ["-"%string] | _ => files end).
Proof.
  intros HP Hh Hv. unfold main.run. rewrite HP, Hh, Hv.
  destruct err as [e|]; [discriminate|].
  destruct ((1 <? Z.of_nat (List.length files))
            && negb (main.Destination c =? "")%string
            && negb (main.Destination c =? "-")%string); [discriminate|].
  intros H. split; [reflexivity|].
  destruct files as [|f fs].
  - cbn in H. constructor; [|constructor].
    exists w, log, w'. split; [exact H | apply incl_refl].
  - replace (Z.of_nat (List.length (f :: fs)) =? 0) with false in H
      by (symmetry; apply Z.eqb_neq; cbn [List.length]; lia).
    exact (range_files_success _ _ _ _ _ H).
Qed.

End Run.

(** * The calls to the block codec *)

Section Calls.

Context {rt : Runtime} (lz : lz4.BlockCodec).

(** X24. When [Decompress] returns a result, either the size field is zero,
    the result is empty and the block decompressor was not called, or the
    block decompressor was called once, on all the bytes after the first
    twelve and with a zeroed destination of the size the size field
    declares, it returned no error and a count equal to that size modulo
    [2^32], and the result is the destination as it left it. *)
Theorem Decompress_call (data : list byte) (tr : list call) (out : list byte) :
  mozlz4.Decompress lz data = (tr, Done (Some out, None)) ->
  let size := binary.LittleEndian.Uint32 (skipn 8 data) in
  (size = 0 /\ tr = [] /\ out = [])
  \/ (size <> 0
      /\ tr = [call_UncompressBlock (skipn 12 data) (zeros size)]
      /\ exists n dst,
           lz4.UncompressBlock lz (skipn 12 data) (zeros size) = (n, None, dst)
           /\ uint32 n = size
           /\ out = written (zeros size) dst).
Proof.
  rewrite Decompress_cases.
  destruct (negb (bytes.HasPrefix data mozlz4.HEADER)); [discriminate|].
  cbv zeta. destruct (len (skipn 8 data) <? 4); [discriminate|].
  rewrite skipn_skipn. change (4 + 8)%nat with 12%nat.
  destruct (Z.eqb_spec (binary.LittleEndian.Uint32 (skipn 8 data)) 0) as [E | E].
  - intros H. left. split; [exact E|]. split; congruence.
  - destruct (lz4.UncompressBlock lz _ _) as [[n [e|]] dst] eqn:Hu; [discriminate|].
    destruct (Z.eqb_spec (uint32 n) (binary.LittleEndian.Uint32 (skipn 8 data)))
      as [En | En]; cbn [negb]; [|discriminate].
    intros H. right. split; [exact E|]. split; [congruence|].
    exists n, dst. split; [reflexivity|]. split; [exact En | congruence].
Qed.

(** X25. [Compress] runs the block compressor at most once: never on an
    empty input, and once on any other, on all of it and with a zeroed
    destination of exactly [CompressBlockBound(len(data))] bytes, when
    that bound is not negative. It panics exactly when the compressor
    returns no error and a count beyond the destination, or below [-12]. *)
Theorem Compress_call (d : list byte) :
  let b := lz4.CompressBlockBound lz (len d) in
  0 <= b ->
  fst (mozlz4.Compress lz d)
  = (if len d =? 0 then [] else [call_CompressBlock d (zeros b)])
  /\ (snd (mozlz4.Compress lz d) = Panic
      <-> d <> []
          /\ exists n dst,
               lz4.CompressBlock lz d (zeros b) = (n, None, dst)
               /\ (n < -12 \/ b < n)).
Proof.
  intros b Hb. rewrite Compress_bound_ok by exact Hb. fold b.
  destruct (Z.eqb_spec (len d) 0) as [E | E].
  - split; [reflexivity|]. split; [discriminate|].
    intros [Hd _]. apply len_zero_nil in E. contradiction.
  - assert (Hd : d <> []) by (intros ->; apply E; reflexivity).
    destruct (lz4.CompressBlock lz d (zeros b)) as [[n [e|]] dst] eqn:Hc.
    + split; [reflexivity|]. split; [discriminate|].
      intros (_ & n' & dst' & H & _). discriminate H.
    + split; [reflexivity|]. cbn [snd].
      destruct ((12 + n <? 0) || (12 + b <? 12 + n)) eqn:Hp.
      * split; [|reflexivity]. intros _. split; [exact Hd|].
        exists n, dst. split; [reflexivity|].
        apply orb_true_iff in Hp. destruct Hp as [Hp | Hp]; apply Z.ltb_lt in Hp; lia.
      * split; [discriminate|]. intros (_ & n' & dst' & H & Hn).
        injection H as <- <-.
        apply orb_false_iff in Hp. destruct Hp as [H1 H2].
        apply Z.ltb_ge in H1, H2. lia.
Qed.

(** X26. The command undoes itself: when a first run compresses [d] (on
    request, or because [d] does not start with [HEADER]), a second run
    that is not asked to compress takes the result for a mozlz4 file and
    decompresses it to [d], for a [d] shorter than [2^32] bytes that the
    block codec round-trips. *)
Theorem convert_roundtrip (c1 c2 : main.Command) (d : list byte) :
  main.compress c1 d = true ->
  main.ForceCompress c2 = false ->
  len d < 2 ^ 32 ->
  contract.roundtrip lz d ->
  exists tr out tr',
    main.convert lz c1 d = (tr, Done (Some out, None))
    /\ main.compress c2 out = false
    /\ main.convert lz c2 out = (tr', Done (Some d, None)).
Proof.
  intros H1 H2 Hlen [Hb Hrt]. unfold main.convert. rewrite H1.
  assert (Hu : uint32 (len d) = len d)
    by (apply uint32_small; pose proof (len_nonneg d); lia).
  assert (Hdet : forall p, main.compress c2 (mozlz4.frame_header d ++ p) = false).
  { intros p. unfold main.compress, mozlz4.frame_header.
    rewrite H2, <- app_assoc, HasPrefix_app. cbn [negb orb]. apply andb_false_r. }
  destruct (Z.eqb_spec (len d) 0) as [E | E].
  - apply len_zero_nil in E. subst d.
    exists [], (mozlz4.frame_header [] ++ []), [].
    rewrite Hdet. split; [|split; [reflexivity|]].
    + rewrite Compress_bound_ok by exact Hb. reflexivity.
    + unfold mozlz4.frame_header. rewrite <- app_assoc.
      rewrite Decompress_after_size. reflexivity.
  - assert (Hd : d <> []) by (intros ->; apply E; reflexivity).
    destruct (Hrt Hd) as (n & dst & Hc & Hn & Hun).
    eexists. eexists. eexists. split; [|split].
    + apply (Compress_accepted lz d n dst); assumption.
    + apply Hdet.
    + rewrite Hdet. unfold mozlz4.frame_header.
      rewrite <- app_assoc, Decompress_after_size, !Hu.
      replace (len d =? 0) with false by (symmetry; apply Z.eqb_neq; exact E).
      rewrite Hun, Hu, Z.eqb_refl. cbn [negb].
      rewrite (written_same_length (zeros (len d)) d)
        by (rewrite length_zeros; unfold len; rewrite Nat2Z.id; reflexivity).
      reflexivity.
Qed.

End Calls.

(** * The further properties at concrete inputs

    The codec is the literal-run codec, the system the one in memory. *)

Lemma Decompress_length_witness :
  exists tr,
    mozlz4.Decompress fake.literals (hex "6d6f7a4c7a34300002000000207b7d")
    = (tr, Done (Some (list_byte_of_string "{}"), None))
    /\ firstn 8 (hex "6d6f7a4c7a34300002000000207b7d") = mozlz4.HEADER
    /\ 12 <= len (hex "6d6f7a4c7a34300002000000207b7d")
    /\ len (list_byte_of_string "{}")
       = binary.LittleEndian.Uint32 (skipn 8 (hex "6d6f7a4c7a34300002000000207b7d")).
Proof.
  eexists.
  match goal with
  | |- ?A /\ _ => assert (H : A) by (vm_compute; reflexivity)
  end.
  exact (conj H (Decompress_length _ _ _ _ H)).
Defined.

Lemma Decompress_error_kinds_witness :
  exists tr,
    mozlz4.Decompress fake.literals (hex "6d6f7a4c7a34300003000000207b7d")
    = (tr, Done (None, Some (mozlz4.mismatch 3 2)))
    /\ ((tr = [] /\ mozlz4.mismatch 3 2 = mozlz4.ErrInvalid)
        \/ (exists src dst n dst',
               tr = [call_UncompressBlock src dst]
               /\ lz4.UncompressBlock fake.literals src dst
                  = (n, Some (mozlz4.mismatch 3 2), dst'))
        \/ (exists src dst n dst',
               tr = [call_UncompressBlock src dst]
               /\ lz4.UncompressBlock fake.literals src dst = (n, None, dst')
               /\ uint32 n <> len dst
               /\ mozlz4.mismatch 3 2 = mozlz4.mismatch (len dst) n)).
Proof.
  eexists.
  match goal with
  | |- ?A /\ _ => assert (H : A) by (vm_compute; reflexivity)
  end.
  exact (conj H (Decompress_error_kinds _ _ _ _ _ H)).
Defined.

Lemma Compress_output_has_header_witness :
  exists tr out,
    0 <= mozlz4.compressedLen (rt := fake.exact) fake.literals (list_byte_of_string "{}")
    /\ mozlz4.Compress (rt := fake.exact) fake.literals (list_byte_of_string "{}")
       = (tr, Done (Some out, None))
    /\ bytes.HasPrefix out mozlz4.HEADER = true
    /\ 12 <= len out
    /\ mozlz4.Decompress fake.literals out <> ([], Done (None, Some mozlz4.ErrInvalid)).
Proof.
  eexists. eexists.
  match goal with
  | |- ?A /\ ?B /\ _ =>
      assert (H0 : A) by (vm_compute; discriminate);
      assert (H : B) by (vm_compute; reflexivity)
  end.
  exact (conj H0 (conj H (Compress_output_has_header _ _ _ _ H0 H))).
Defined.

Lemma Option_error_witness :
  main.Option main.initial "--help" "" false = (main.initial, Some ErrHelp)
  /\ main.initial = main.initial
  /\ ((ErrHelp = ErrHelp /\ ("--help" = "-h" \/ "--help" = "--help")%string)
      \/ (ErrHelp = ErrVersion /\ "--help"%string = "--version"%string)
      \/ (ErrHelp = ErrUnknown /\ main.Kind main.initial "--help" = options.Unknown)).
Proof.
  assert (H : main.Option main.initial "--help" "" false = (main.initial, Some ErrHelp))
    by reflexivity.
  exact (conj H (Option_error _ _ _ _ _ _ H)).
Defined.

Lemma Options_exclusive_witness :
  exists c',
    main.ForceCompress main.initial && main.ForceDecompress main.initial = false
    /\ main.Options main.initial
         [("-z", "", false); ("-d", "", false); ("--rm", "", false)]%string
       = (c', None)
    /\ main.ForceCompress c' && main.ForceDecompress c' = false.
Proof.
  eexists.
  match goal with
  | |- ?A /\ ?B /\ _ =>
      assert (H0 : A) by reflexivity;
      assert (H : B) by (vm_compute; reflexivity)
  end.
  exact (conj H0 (conj H (Options_exclusive _ _ _ _ H0 H))).
Defined.

Lemma getDestination_decompress_witness :
  main.Destination main.initial = ""%string
  /\ "a.json.mozlz4"%string <> "-"%string
  /\ (snd (main.getDestination main.initial "a.json.mozlz4" false) = None
      <-> (filepath.Ext "a.json.mozlz4" <> ""%string
           /\ filepath.Ext "a.json.mozlz4" <> filepath.Base "a.json.mozlz4"))
  /\ (forall dest,
        main.getDestination main.initial "a.json.mozlz4" false = (dest, None) ->
        exists rest,
          "a.json.mozlz4"%string = (dest ++ String "." rest)%string
          /\ plain rest = true /\ dest <> "a.json.mozlz4"%string).
Proof.
  assert (H0 : main.Destination main.initial = ""%string) by reflexivity.
  assert (H1 : "a.json.mozlz4"%string <> "-"%string) by discriminate.
  exact (conj H0 (conj H1 (getDestination_decompress _ _ H0 H1))).
Defined.

Lemma getDestination_roundtrip_witness :
  main.Destination main.initial = ""%string
  /\ main.Suffix main.initial = String "." "mozlz4"
  /\ plain "mozlz4" = true
  /\ "a.json"%string = ("a.jso" ++ String "n" "")%string
  /\ filepath.IsPathSeparator "n" = false
  /\ "a.json"%string <> "-"%string
  /\ main.getDestination main.initial "a.json" true
     = (("a.json" ++ main.Suffix main.initial)%string, None)
  /\ main.getDestination main.initial ("a.json" ++ main.Suffix main.initial) false
     = ("a.json"%string, None).
Proof.
  assert (H0 : main.Destination main.initial = ""%string) by reflexivity.
  assert (H1 : main.Suffix main.initial = String "." "mozlz4") by reflexivity.
  assert (H2 : plain "mozlz4" = true) by reflexivity.
  assert (H3 : "a.json"%string = ("a.jso" ++ String "n" "")%string) by reflexivity.
  assert (H4 : filepath.IsPathSeparator "n" = false) by reflexivity.
  assert (H5 : "a.json"%string <> "-"%string) by discriminate.
  exact (conj H0 (conj H1 (conj H2 (conj H3 (conj H4 (conj H5
           (getDestination_roundtrip _ _ _ _ _ H0 H1 H2 H3 H4 H5))))))).
Defined.

Lemma getDestination_no_extension_witness :
  main.Destination main.initial = ""%string
  /\ "dir/.mozlz4"%string <> "-"%string
  /\ "dir/.mozlz4"%string = ("dir/" ++ ".mozlz4")%string
  /\ ("dir/"%string = ""%string \/ (exists d, "dir/"%string = (d ++ "/")%string))
  /\ (plain ".mozlz4" = true
      \/ (exists rest, ".mozlz4"%string = String "." rest /\ plain rest = true))
  /\ main.getDestination main.initial "dir/.mozlz4" false
     = (""%string,
        Some (Errorf "%v has no extension. use -o/--output option." ["dir/.mozlz4"%string])).
Proof.
  assert (H0 : main.Destination main.initial = ""%string) by reflexivity.
  assert (H1 : "dir/.mozlz4"%string <> "-"%string) by discriminate.
  assert (H2 : "dir/.mozlz4"%string = ("dir/" ++ ".mozlz4")%string) by reflexivity.
  assert (H3 : "dir/"%string = ""%string \/ (exists d, "dir/"%string = (d ++ "/")%string))
    by (right; exists "dir"%string; reflexivity).
  assert (H4 : plain ".mozlz4" = true
               \/ (exists rest, ".mozlz4"%string = String "." rest /\ plain rest = true))
    by (right; exists "mozlz4"%string; split; reflexivity).
  exact (conj H0 (conj H1 (conj H2 (conj H3 (conj H4
           (getDestination_no_extension _ _ _ _ H0 H1 H2 H3 H4)))))).
Defined.

Lemma processFile_remove_witness :
  exists log out w',
    main.processFile (rt := fake.exact) fake.literals memfs.system
      (fst (main.Options main.initial
              [("-o", "./a.json", true); ("--rm", "", false); ("-f", "", false)]%string))
      "a.json"
      (memfs.disk [("a.json"%string, list_byte_of_string "{}")])
    = (log, out, w')
    /\ In (ev_Remove "a.json" None) log
    /\ (forall x err,
          In (ev_Remove x err) log ->
          x = "a.json"%string
          /\ main.Delete
               (fst (main.Options main.initial
                       [("-o", "./a.json", true); ("--rm", "", false);
                        ("-f", "", false)]%string)) = true
          /\ "a.json"%string <> "-"%string /\ out = Done err
          /\ exists pre dest data,
               dest <> "a.json"%string /\ dest <> "-"%string
               /\ log = pre ++ [ev_OpenFile dest
                                  (main.open_flags
                                     (fst (main.Options main.initial
                                             [("-o", "./a.json", true);
                                              ("--rm", "", false);
                                              ("-f", "", false)]%string)))
                                  438 None;
                                ev_Write dest data None; ev_Close dest None;
                                ev_Remove "a.json" err])
    /\ (forall dest data,
          In (ev_Write dest data None) log -> In (ev_Close dest None) log ->
          main.Delete
            (fst (main.Options main.initial
                    [("-o", "./a.json", true); ("--rm", "", false);
                     ("-f", "", false)]%string)) = true ->
          dest <> "a.json"%string -> "a.json"%string <> "-"%string ->
          exists err, In (ev_Remove "a.json" err) log).
Proof.
  eexists. eexists. eexists.
  match goal with
  | |- ?A /\ ?B /\ _ =>
      assert (H : A) by (vm_compute; reflexivity);
      assert (Hin : B) by in_list
  end.
  exact (conj H (conj Hin (processFile_remove _ _ _ _ _ _ _ _ H))).
Defined.

Lemma processFile_open_witness :
  exists log out w',
    main.processFile (rt := fake.exact) fake.literals memfs.system main.initial "a.json"
      (memfs.disk [("a.json"%string, list_byte_of_string "{}")])
    = (log, out, w')
    /\ In (ev_OpenFile "a.json.mozlz4" 705 438 None) log
    /\ "a.json.mozlz4"%string <> "-"%string /\ 438 = 438
    /\ Z.land 705 os.O_WRONLY = os.O_WRONLY
    /\ Z.land 705 os.O_CREATE = os.O_CREATE
    /\ Z.land 705 os.O_TRUNC = os.O_TRUNC
    /\ Z.land 705 os.O_EXCL = (if main.Force main.initial then 0 else os.O_EXCL).
Proof.
  eexists. eexists. eexists.
  match goal with
  | |- ?A /\ ?B /\ _ =>
      assert (H : A) by (vm_compute; reflexivity);
      assert (Hin : B) by in_list
  end.
  exact (conj H (conj Hin (processFile_open _ _ _ _ _ _ _ _ _ _ _ _ H Hin))).
Defined.

Lemma processFile_asks_terminal_witness :
  exists log out w',
    main.processFile (rt := fake.exact) fake.literals memfs.system main.initial "-"
      (memfs.piped (list_byte_of_string "{}"))
    = (log, out, w')
    /\ In (ev_IsTerminal os.Stdout_Fd false) log
    /\ main.Force main.initial = false
    /\ ((os.Stdout_Fd = os.Stdin_Fd /\ "-"%string = "-"%string)
        \/ (os.Stdout_Fd = os.Stdout_Fd
            /\ exists input,
                 In (main.read_event "-" input None) log
                 /\ main.compress main.initial input = true
                 /\ main.getDestination main.initial "-" true = ("-"%string, None))).
Proof.
  eexists. eexists. eexists.
  match goal with
  | |- ?A /\ ?B /\ _ =>
      assert (H : A) by (vm_compute; reflexivity);
      assert (Hin : B) by in_list
  end.
  exact (conj H (conj Hin (processFile_asks_terminal _ _ _ _ _ _ _ _ _ _ H Hin))).
Defined.

Lemma processFile_terminal_witness :
  exists log out w',
    main.processFile (rt := fake.exact) fake.literals memfs.system main.initial "-"
      memfs.terminal
    = (log, out, w')
    /\ In (ev_IsTerminal os.Stdin_Fd true) log
    /\ (forall ev, In ev log -> is_output ev = false)
    /\ ((os.Stdin_Fd = os.Stdin_Fd /\ log = [ev_IsTerminal os.Stdin_Fd true]
         /\ out = Done (Some (of_error (errors_New "stdin is a terminal"))))
        \/ (os.Stdin_Fd = os.Stdout_Fd
            /\ out = Done (Some (of_error (errors_New "stdout is a terminal"))))).
Proof.
  eexists. eexists. eexists.
  match goal with
  | |- ?A /\ ?B /\ _ =>
      assert (H : A) by (vm_compute; reflexivity);
      assert (Hin : B) by in_list
  end.
  exact (conj H (conj Hin (processFile_terminal _ _ _ _ _ _ _ _ _ H Hin))).
Defined.

Lemma processFile_writes_witness :
  exists log out w',
    main.processFile (rt := fake.exact) fake.literals memfs.system main.initial "a.json"
      (memfs.disk [("a.json"%string, list_byte_of_string "{}")])
    = (log, out, w')
    /\ (In (ev_Write "a.json.mozlz4" (hex "6d6f7a4c7a34300002000000207b7d") None) log
        \/ ("a.json.mozlz4"%string = "-"%string
            /\ In (ev_Stdout_Write (hex "6d6f7a4c7a34300002000000207b7d") None) log))
    /\ exists input tr o,
        In (main.read_event "a.json" input None) log
        /\ main.convert (rt := fake.exact) fake.literals main.initial input
           = (tr, Done (o, None))
        /\ hex "6d6f7a4c7a34300002000000207b7d" = main.bytes_of o
        /\ main.getDestination main.initial "a.json" (main.compress main.initial input)
           = ("a.json.mozlz4"%string, None).
Proof.
  eexists. eexists. eexists.
  match goal with
  | |- ?A /\ ?B /\ _ =>
      assert (H : A) by (vm_compute; reflexivity);
      assert (Hin : B) by (left; in_list)
  end.
  exact (conj H (conj Hin (processFile_writes _ _ _ _ _ _ _ _ _ _ _ H Hin))).
Defined.

Lemma processFile_success_witness :
  exists log w',
    main.processFile (rt := fake.exact) fake.literals memfs.system main.initial "a.json"
      (memfs.disk [("a.json"%string, list_byte_of_string "{}")])
    = (log, Done None, w')
    /\ exists input tr o dest,
        In (main.read_event "a.json" input None) log
        /\ main.convert (rt := fake.exact) fake.literals main.initial input
           = (tr, Done (o, None))
        /\ main.getDestination main.initial "a.json" (main.compress main.initial input)
           = (dest, None)
        /\ (if (dest =? "-")%string
            then In (ev_Stdout_Write (main.bytes_of o) None) log
            else In (ev_OpenFile dest (main.open_flags main.initial) 438 None) log
                 /\ In (ev_Write dest (main.bytes_of o) None) log
                 /\ In (ev_Close dest None) log)
        /\ (main.Delete main.initial = true -> "a.json"%string <> dest ->
            "a.json"%string <> "-"%string -> dest <> "-"%string ->
            In (ev_Remove "a.json" None) log).
Proof.
  eexists. eexists.
  match goal with
  | |- ?A /\ _ => assert (H : A) by (vm_compute; reflexivity)
  end.
  exact (conj H (processFile_success _ _ _ _ _ _ _ H)).
Defined.

Lemma processFile_codec_error_witness :
  exists log out w' tr,
    main.processFile (rt := fake.exact) fake.literals memfs.system main.initial "bad.mozlz4"
      (memfs.disk [("bad.mozlz4"%string, hex "6d6f7a4c7a34300003000000207b7d")])
    = (log, out, w')
    /\ In (main.read_event "bad.mozlz4" (hex "6d6f7a4c7a34300003000000207b7d") None) log
    /\ main.convert (rt := fake.exact) fake.literals main.initial
         (hex "6d6f7a4c7a34300003000000207b7d")
       = (tr, Done (None, Some (mozlz4.mismatch 3 2)))
    /\ out = Done (Some (if ("bad.mozlz4" =? "-")%string
                         then Errorf_w "<stdin>: %w" [] (of_error (mozlz4.mismatch 3 2))
                         else Errorf_w "%v: %w" ["bad.mozlz4"%string]
                                (of_error (mozlz4.mismatch 3 2))))
    /\ forall ev, In ev log -> is_output ev = false.
Proof.
  eexists. eexists. eexists. eexists.
  match goal with
  | |- ?A /\ ?B /\ ?C /\ _ =>
      assert (H : A) by (vm_compute; reflexivity);
      assert (Hin : B) by (vm_compute; in_list);
      assert (Hc : C) by (vm_compute; reflexivity)
  end.
  exact (conj H (conj Hin (conj Hc
           (processFile_codec_error _ _ _ _ _ _ _ _ _ _ _ _ H Hin Hc)))).
Defined.

Lemma processFile_read_error_witness :
  exists log out w',
    main.processFile (rt := fake.exact) fake.literals memfs.system main.initial "a.json"
      (memfs.disk [])
    = (log, out, w')
    /\ In (main.read_event "a.json" [] (Some (os_error "no such file or directory"))) log
    /\ out = Done (Some (os_error "no such file or directory"))
    /\ forall ev, In ev log -> is_output ev = false /\ forall k, ev <> ev_codec k.
Proof.
  eexists. eexists. eexists.
  match goal with
  | |- ?A /\ ?B /\ _ =>
      assert (H : A) by (vm_compute; reflexivity);
      assert (Hin : B) by (vm_compute; in_list)
  end.
  exact (conj H (conj Hin (processFile_read_error _ _ _ _ _ _ _ _ _ _ H Hin))).
Defined.

Lemma processFile_filter_witness :
  exists log out w',
    main.processFile (rt := fake.exact) fake.literals memfs.system main.initial "-"
      (memfs.piped (list_byte_of_string "{}"))
    = (log, out, w')
    /\ (("-"%string = "-"%string /\ main.Destination main.initial = ""%string)
        \/ main.Destination main.initial = "-"%string)
    /\ In (ev_Stdout_Write (hex "6d6f7a4c7a34300002000000207b7d") None) log
    /\ is_output (ev_Stdout_Write (hex "6d6f7a4c7a34300002000000207b7d") None) = true
    /\ exists data err,
        ev_Stdout_Write (hex "6d6f7a4c7a34300002000000207b7d") None
        = ev_Stdout_Write data err.
Proof.
  eexists. eexists. eexists.
  match goal with
  | |- ?A /\ ?B /\ ?C /\ ?D /\ _ =>
      assert (H : A) by (vm_compute; reflexivity);
      assert (Hf : B) by (left; split; reflexivity);
      assert (Hin : C) by in_list;
      assert (Hout : D) by reflexivity
  end.
  exact (conj H (conj Hf (conj Hin (conj Hout
           (processFile_filter _ _ _ _ _ _ _ _ _ H Hf Hin Hout))))).
Defined.

Lemma run_stops_at_first_error_witness :
  exists l1 w1 l2 out w2,
    memfs.Parse main.initial ["a.json"; "missing"; "b.json"]%string
    = ((["a.json"%string] ++ "missing"%string :: ["b.json"%string])%list,
       None, main.initial)
    /\ (main.Destination main.initial = ""%string
        \/ main.Destination main.initial = "-"%string)
    /\ main.range_files (rt := fake.exact) fake.literals memfs.system main.initial
         ["a.json"%string]
         (memfs.disk [("a.json"%string, list_byte_of_string "{}");
                      ("b.json"%string, list_byte_of_string "{}")])
       = (l1, Done None, w1)
    /\ main.processFile (rt := fake.exact) fake.literals memfs.system main.initial
         "missing" w1
       = (l2, out, w2)
    /\ out <> Done None
    /\ main.run (rt := fake.exact) fake.literals memfs.system memfs.Parse None
         ["a.json"; "missing"; "b.json"]%string
         (memfs.disk [("a.json"%string, list_byte_of_string "{}");
                      ("b.json"%string, list_byte_of_string "{}")])
       = (l1 ++ l2, out, w2).
Proof.
  eexists. eexists. eexists. eexists. eexists.
  match goal with
  | |- ?A /\ ?B /\ ?C /\ ?D /\ ?E /\ _ =>
      assert (HP : A) by reflexivity;
      assert (Hd : B) by (left; reflexivity);
      assert (H1 : C) by (vm_compute; reflexivity);
      assert (Hf : D) by (vm_compute; reflexivity);
      assert (Hout : E) by discriminate
  end.
  exact (conj HP (conj Hd (conj H1 (conj Hf (conj Hout
           (run_stops_at_first_error _ _ _ _ _ _ _ _ _ _ _ _ _ _ _
              HP Hd H1 Hf Hout)))))).
Defined.

Lemma run_without_processing_witness :
  exists log out w',
    memfs.Parse main.initial ["a.json"; "--help"]%string
    = (["a.json"%string], Some ErrHelp, main.initial)
    /\ (Some ErrHelp <> None
        \/ (1 < Z.of_nat (List.length ["a.json"%string])
            /\ main.Destination main.initial <> ""%string
            /\ main.Destination main.initial <> "-"%string))
    /\ main.run (rt := fake.exact) fake.literals memfs.system memfs.Parse None
         ["a.json"; "--help"]%string
         (memfs.disk [("a.json"%string, list_byte_of_string "{}")])
       = (log, out, w')
    /\ out = Done None
    /\ exists e,
         log = [ev_Stdout_Write (list_byte_of_string "Usage: mozlz4 [OPTIONS] [FILE...]

Compress or decompress mozlz4 files.

Options:
  -z, --compress        Force compression
  -d, --decompress      Force decompression
  -c, --stdout          Write to the standard output and keep the input files
  -o, --output=FILE     Write to the FILE
  -S, --suffix=SUFFIX   Add SUFFIX on compressed file names
  -k, --keep            Don't delete the input files (default)
      --rm              Delete the input files after successful (de)compression
  -f, --force           Allow overwriting existing files, reading input from
                        a terminal, writing compressed data to a terminal
  -h, --help            Show this help message and exit
      --version         Show version information and exit
") e].
Proof.
  eexists. eexists. eexists.
  match goal with
  | |- ?A /\ ?B /\ ?C /\ _ =>
      assert (HP : A) by reflexivity;
      assert (He : B) by (left; discriminate);
      assert (H : C) by (vm_compute; reflexivity)
  end.
  exact (conj HP (conj He (conj H
           (run_without_processing _ _ _ _ _ _ _ _ _ _ _ _ HP He H)))).
Defined.

Lemma run_success_witness :
  exists log w',
    memfs.Parse main.initial ["a.json"]%string = (["a.json"%string], None, main.initial)
    /\ errors_Is None ErrHelp = false
    /\ errors_Is None ErrVersion = false
    /\ main.run (rt := fake.exact) fake.literals memfs.system memfs.Parse None
         ["a.json"%string]
         (memfs.disk [("a.json"%string, list_byte_of_string "{}")])
       = (log, Done None, w')
    /\ @None goerror = None
    /\ Forall (fun file =>
                 exists w1 l w2,
                   main.processFile (rt := fake.exact) fake.literals memfs.system
                     main.initial file w1
                   = (l, Done None, w2)
                   /\ incl l log)
              ["a.json"%string].
Proof.
  eexists. eexists.
  match goal with
  | |- ?A /\ ?B /\ ?C /\ ?D /\ _ =>
      assert (HP : A) by reflexivity;
      assert (Hh : B) by reflexivity;
      assert (Hv : C) by reflexivity;
      assert (H : D) by (vm_compute; reflexivity)
  end.
  exact (conj HP (conj Hh (conj Hv (conj H
           (run_success _ _ _ _ _ _ _ _ _ _ _ HP Hh Hv H))))).
Defined.

Lemma Decompress_call_witness :
  exists tr,
    mozlz4.Decompress fake.literals (hex "6d6f7a4c7a34300002000000207b7d")
    = (tr, Done (Some (list_byte_of_string "{}"), None))
    /\ let size :=
         binary.LittleEndian.Uint32 (skipn 8 (hex "6d6f7a4c7a34300002000000207b7d")) in
       (size = 0 /\ tr = [] /\ list_byte_of_string "{}" = [])
       \/ (size <> 0
           /\ tr = [call_UncompressBlock
                      (skipn 12 (hex "6d6f7a4c7a34300002000000207b7d")) (zeros size)]
           /\ exists n dst,
                lz4.UncompressBlock fake.literals
                  (skipn 12 (hex "6d6f7a4c7a34300002000000207b7d")) (zeros size)
                = (n, None, dst)
                /\ uint32 n = size
                /\ list_byte_of_string "{}" = written (zeros size) dst).
Proof.
  eexists.
  match goal with
  | |- ?A /\ _ => assert (H : A) by (vm_compute; reflexivity)
  end.
  exact (conj H (Decompress_call _ _ _ _ H)).
Defined.

Lemma Compress_call_witness :
  0 <= lz4.CompressBlockBound fake.literals (len (list_byte_of_string "{}"))
  /\ fst (mozlz4.Compress (rt := fake.exact) fake.literals (list_byte_of_string "{}"))
     = (if len (list_byte_of_string "{}") =? 0 then []
        else [call_CompressBlock (list_byte_of_string "{}")
                (zeros (lz4.CompressBlockBound fake.literals
                          (len (list_byte_of_string "{}"))))])
  /\ (snd (mozlz4.Compress (rt := fake.exact) fake.literals (list_byte_of_string "{}"))
      = Panic
      <-> list_byte_of_string "{}" <> []
          /\ exists n dst,
               lz4.CompressBlock fake.literals (list_byte_of_string "{}")
                 (zeros (lz4.CompressBlockBound fake.literals
                           (len (list_byte_of_string "{}"))))
               = (n, None, dst)
               /\ (n < -12
                   \/ lz4.CompressBlockBound fake.literals
                        (len (list_byte_of_string "{}")) < n)).
Proof.
  assert (H : 0 <= lz4.CompressBlockBound fake.literals (len (list_byte_of_string "{}")))
    by (vm_compute; discriminate).
  exact (conj H (Compress_call (rt := fake.exact) fake.literals _ H)).
Defined.

Lemma convert_roundtrip_witness :
  main.compress main.initial (list_byte_of_string "{}") = true
  /\ main.ForceCompress main.initial = false
  /\ len (list_byte_of_string "{}") < 2 ^ 32
  /\ contract.roundtrip fake.literals (list_byte_of_string "{}")
  /\ exists tr out tr',
       main.convert (rt := fake.exact) fake.literals main.initial (list_byte_of_string "{}")
       = (tr, Done (Some out, None))
       /\ main.compress main.initial out = false
       /\ main.convert (rt := fake.exact) fake.literals main.initial out
          = (tr', Done (Some (list_byte_of_string "{}"), None)).
Proof.
  assert (H1 : main.compress main.initial (list_byte_of_string "{}") = true)
    by reflexivity.
  assert (H2 : main.ForceCompress main.initial = false) by reflexivity.
  assert (H3 : len (list_byte_of_string "{}") < 2 ^ 32) by reflexivity.
  assert (H4 : contract.roundtrip fake.literals (list_byte_of_string "{}")).
  { split; [vm_compute; discriminate|]. intros _.
    eexists. eexists. split; [vm_compute; reflexivity|].
    split; [vm_compute; split; discriminate | vm_compute; reflexivity]. }
  exact (conj H1 (conj H2 (conj H3 (conj H4
           (convert_roundtrip (rt := fake.exact) fake.literals _ _ _ H1 H2 H3 H4))))).
Defined.
